(** * caido-notify backend: the dedup / dispatch pipeline

    A shallow embedding of [packages/backend/src/index.ts] (the variant that
    keeps the sent-log and the check delay in module-level caches) and of
    the part of the database-backed variant of [checkAndSendFindings] that
    differs from it, followed by the properties of the pipeline.

    Conventions of the embedding.
    - JavaScript strings are [string]s holding their UTF-8 form.
      [toLowerCase] is given for the code points below U+0100 (ASCII and
      the Latin-1 supplement); the statements that depend on the folding
      say so.
    - JavaScript numbers that hold epoch milliseconds, delays and exit codes
      are [Z].
    - [Set<string>] is [gset string]; [Map<string, _>] and [Record<string, _>]
      are association lists in enumeration order (insertion order), because
      the source iterates over them and takes the first match.
    - Module-level [let] variables live in the record [Backend]; every
      function that touches them is a computation in the monad [M], which
      threads the [Backend] and appends to a trace of observable effects.
    - What the plugin reads from the outside (storage, clock, GraphQL
      endpoint, the fate of each spawned notifier process) is a field of the
      record [SDK]. *)

From stdpp Require Import gmap strings list pretty.
From Stdlib Require Import ZArith Lia Ascii.

Open Scope Z_scope.

(** ** JavaScript helpers *)

Module Js.

(** [s.toLowerCase()], on the UTF-8 form of a string whose code points
    lie below U+0100. The letters 'A'..'Z' go to 'a'..'z'. The other
    letters with a lower case in that range are U+00C0..U+00DE without
    U+00D7; in UTF-8 each is the byte 195 followed by a byte of 128..158
    other than 151, and its lower case is 32 places further, that is the
    same first byte followed by the second byte plus 32. Every other byte
    is left alone. Cased letters from U+0100 on are not in this table. *)
Definition lower_ascii (c : ascii) : ascii :=
  let n := nat_of_ascii c in
  if ((65 <=? n)%nat && (n <=? 90)%nat)%bool then ascii_of_nat (n + 32) else c.

(** The byte that follows a byte 195. *)
Definition lower_latin1 (c : ascii) : ascii :=
  let n := nat_of_ascii c in
  if ((128 <=? n)%nat && (n <=? 158)%nat && negb (n =? 151)%nat)%bool
  then ascii_of_nat (n + 32) else lower_ascii c.

Definition is_lead (c : ascii) : bool := (nat_of_ascii c =? 195)%nat.

Fixpoint lower_from (lead : bool) (s : string) : string :=
  match s with
  | EmptyString => EmptyString
  | String c s' =>
      String (if lead then lower_latin1 c else lower_ascii c) (lower_from (is_lead c) s')
  end.

Definition toLowerCase (s : string) : string := lower_from false s.



(** Truthiness of an optional string: [undefined] and [""] are falsy. *)
Definition truthy (o : option string) : bool :=
  match o with
  | Some (String _ _) => true
  | _ => false
  end.

(** [o || d] for an optional string. *)
Definition or_else (o : option string) (d : string) : string :=
  match o with
  | Some (String c s) => String c s
  | _ => d
  end.

(** [!s] for a string. *)
Definition is_empty (s : string) : bool :=
  match s with
  | EmptyString => true
  | String _ _ => false
  end.

(** [xs.join(sep)]. *)
Definition join (sep : string) (xs : list string) : string := String.concat sep xs.

(** [xs.find(p)]: the first element that satisfies [p]. *)
Fixpoint find {A : Type} (p : A -> bool) (xs : list A) : option A :=
  match xs with
  | [] => None
  | x :: xs' => if p x then Some x else find p xs'
  end.

(** [Object.keys(r)] and [r[k]] on a record given as an association list
    with distinct keys. *)
Definition keys {V : Type} (r : list (string * V)) : list string := map fst r.

Fixpoint get {V : Type} (r : list (string * V)) (k : string) : option V :=
  match r with
  | [] => None
  | (k', v) :: r' => if String.eqb k' k then Some v else get r' k
  end.

(** [m.set(k, v)] on an insertion-ordered [Map]: an existing key keeps its
    position, a new key goes last. *)
Fixpoint set {V : Type} (m : list (string * V)) (k : string) (v : V) : list (string * V) :=
  match m with
  | [] => [(k, v)]
  | (k', v') :: m' => if String.eqb k' k then (k', v) :: m' else (k', v') :: set m' k v
  end.

Definition nl : string := String (ascii_of_nat 10) EmptyString.

(** The double-quote character. *)
Definition dq : string := String (ascii_of_nat 34) EmptyString.

End Js.

(** Two strings are equal up to ASCII case when they have the same length
    and, position by position, the bytes are equal or are the two cases
    of one of the letters 'A'..'Z'. This is the relation the
    specification speaks of; it is defined without reference to
    [toLowerCase]. *)
Definition is_upper (c : ascii) : Prop := (65 <= nat_of_ascii c <= 90)%nat.

Definition same_letter (c d : ascii) : Prop :=
  c = d
  \/ (is_upper c /\ nat_of_ascii d = (nat_of_ascii c + 32)%nat)
  \/ (is_upper d /\ nat_of_ascii c = (nat_of_ascii d + 32)%nat).

Inductive eq_upto_case : string -> string -> Prop :=
| euc_nil : eq_upto_case EmptyString EmptyString
| euc_cons c d s t :
    same_letter c d -> eq_upto_case s t -> eq_upto_case (String c s) (String d t).

(** The string with its letters 'A'..'Z' in lower case: two strings are
    equal up to ASCII case exactly when they have the same fold. *)
Fixpoint ascii_fold (s : string) : string :=
  match s with
  | EmptyString => EmptyString
  | String c s' => String (Js.lower_ascii c) (ascii_fold s')
  end.

(** ** Data model (types of index.ts) *)

Inductive Result (T : Type) : Type :=
| Error (error : string)
| Ok (value : T).
Arguments Error {T} error.
Arguments Ok {T} value.

Definition is_error {T : Type} (r : Result T) : bool :=
  match r with Error _ => true | Ok _ => false end.

(** ["id" | "provider"] *)
Inductive IdsType := IdFlag | ProviderFlag.

Record NotifyConfig := {
  defaultIds : option string;
  defaultIdsType : option IdsType;
  customFindingIds : option (list (string * string));
  customFindingIdsType : option (list (string * IdsType))
}.

Record SentFinding := {
  findingId : string;
  timestamp : Z
}.

(** A node of the GraphQL answer ([host] and [path] are fetched but never
    read). *)
Record Node := {
  id : string;
  title : string;
  description : option string;
  reporter : string;
  createdAt : option string
}.

(** The object built for each node; the getters are constant closures. *)
Record FindingWithTimestamp := {
  getId : string;
  getTitle : string;
  getDescription : string;
  getReporter : string;
  getTimestamp : Z
}.

#[global] Instance IdsType_eq_dec : EqDecision IdsType.
Proof. solve_decision. Defined.
#[global] Instance SentFinding_eq_dec : EqDecision SentFinding.
Proof. solve_decision. Defined.
#[global] Instance Node_eq_dec : EqDecision Node.
Proof. solve_decision. Defined.
#[global] Instance FindingWithTimestamp_eq_dec : EqDecision FindingWithTimestamp.
Proof. solve_decision. Defined.
#[global] Instance Result_eq_dec {T : Type} `{EqDecision T} : EqDecision (Result T).
Proof. solve_decision. Defined.

(** ** The outside world *)

(** Outcome of [sdk.graphql.execute]: the promise rejects, or it resolves
    to a response whose [errors] and [data?.findings?.nodes] are as given. *)
Inductive GraphqlOutcome :=
| Rejected (message : string)
| Resolved (errors : option (list string)) (nodes : option (list Node)).

(** Fate of one call of [spawn]. When the call returns, the fate of the
    notifier process is what the three handlers of the source see: a
    [close] event with an exit code and the collected standard error, an
    [error] event (the process could not be started), or neither within
    30000 ms, so that the watchdog fires first where there is one; one
    fate stands for one settling handler. The call itself can also throw, as it does on an argument that holds a
    NUL character: then there is no process and no handler is reached. *)
Inductive ProcOutcome :=
| Close (code : option Z) (errorOutput : string)
| ProcError (message : string)
| Hang
| SpawnThrows (message : string).

(** What a run reads from its environment. The outcome of
    [getExcludedFindings] and of [getNotifyIds] is taken as given; the
    directory that they create first when [sdk.storage] is absent is not
    part of the trace of a run. [child_process args stdin] is the fate of
    the call of [spawn] with these arguments and of the process that is
    given [stdin]. [dateParse s] is [new Date(s).getTime()],
    with [None] for [NaN]. [os_homedir] is [homedir()]; [env_fallback] is
    the first non-empty of the environment variables HOME, USERPROFILE
    and APPDATA, if any. *)
Record SDK := {
  excludedFindingsRead : Result (list string);
  notifyIdsRead : Result NotifyConfig;
  Date_now : Z;
  dateParse : string -> option Z;
  graphql_execute : GraphqlOutcome;
  child_process : list string -> string -> ProcOutcome;
  os_homedir : string;
  env_fallback : option string
}.

(** Observable effects of the backend, in program order. [SpawnProc] is
    the call of [spawn] with a command and its arguments, together with
    what the caller writes to the standard input of the process once the
    call has returned. *)
Inductive Effect :=
| SentFindingsStored (sent : list SentFinding)
| ConsoleError (args : list string)
| SpawnProc (cmd : string) (args : list string) (stdin : string)
| EventsEmit (event : string) (count totalCount : nat)
| SetInterval (handle : nat) (delay : Z)
| ClearInterval (handle : nat)
| DbStored (key value : string)
| FsMkdir (path : string)
| FsWriteFile (path content : string).

(** The module-level variables of index.ts, and the interval timers the
    runtime currently holds for the plugin. *)
Record Backend := {
  sentFindingsCache : list SentFinding;
  checkDelayCache : Z;
  useCustomProviderConfigCache : bool;
  checkInterval : option nat;
  activeIntervals : list (nat * Z);
  nextHandle : nat
}.

(** ** The monad of backend computations *)

Definition ST (St A : Type) : Type := St -> A * St * list Effect.

Definition ret {St A : Type} (a : A) : ST St A := fun b => (a, b, []).

Definition bind {St A B : Type} (m : ST St A) (k : A -> ST St B) : ST St B :=
  fun b =>
    let '(a, b1, t1) := m b in
    let '(r, b2, t2) := k a b1 in
    (r, b2, t1 ++ t2).

Definition perform {St : Type} (e : Effect) : ST St unit := fun b => (tt, b, [e]).

Definition read {St : Type} : ST St St := fun b => (b, b, []).

Definition modify {St : Type} (f : St -> St) : ST St unit := fun b => (tt, f b, []).

(** Computations over the module state of index.ts. *)
Abbreviation M := (ST Backend).

Notation "'let*' x := c 'in' k" := (bind c (fun x => k))
  (at level 10, x name, c at level 100, k at level 200).
Notation "c ;; k" := (bind c (fun _ => k))
  (at level 100, k at level 200, right associativity).

Fixpoint mapM {St A B : Type} (f : A -> ST St B) (xs : list A) : ST St (list B) :=
  match xs with
  | [] => ret []
  | x :: xs' => let* y := f x in let* ys := mapM f xs' in ret (y :: ys)
  end.

Definition result_of {St A : Type} (r : A * St * list Effect) : A := r.1.1.
Definition state_of {St A : Type} (r : A * St * list Effect) : St := r.1.2.
Definition trace_of {St A : Type} (r : A * St * list Effect) : list Effect := r.2.

(** ** Paths *)

(** [path.join] without normalisation. *)
Definition join (parts : list string) : string := Js.join "/" parts.

Definition getConfigDir (sdk : SDK) : string :=
  let home := os_homedir sdk in
  if Js.is_empty home then
    join [Js.or_else (env_fallback sdk) "."; ".config"; "notify-caido"]
  else join [home; ".config"; "notify-caido"].

Definition getProviderConfigFile (sdk : SDK) : string :=
  join [getConfigDir sdk; "provider-config.yaml"].

Definition getDefaultNotifyProviderConfigFile (sdk : SDK) : string :=
  let home := os_homedir sdk in
  if Js.is_empty home then
    join [Js.or_else (env_fallback sdk) "."; ".config"; "notify"; "provider-config.yaml"]
  else join [home; ".config"; "notify"; "provider-config.yaml"].

Definition getNotifyCommand : string := "notify".

(** ** Persistence (index.ts) *)

Definition getNotifyIds (sdk : SDK) : Result NotifyConfig := notifyIdsRead sdk.

Definition getExcludedFindings (sdk : SDK) : Result (list string) := excludedFindingsRead sdk.

Definition getSentFindings : M (Result (list SentFinding)) :=
  let* b := read in ret (Ok (sentFindingsCache b)).

Definition set_sentFindingsCache (sent : list SentFinding) (b : Backend) : Backend :=
  {| sentFindingsCache := sent;
     checkDelayCache := checkDelayCache b;
     useCustomProviderConfigCache := useCustomProviderConfigCache b;
     checkInterval := checkInterval b;
     activeIntervals := activeIntervals b;
     nextHandle := nextHandle b |}.

Definition saveSentFindings (sent : list SentFinding) : M (Result unit) :=
  modify (set_sentFindingsCache sent) ;;
  perform (SentFindingsStored sent) ;;
  ret (Ok tt).

Definition clearSentFindings : M (Result unit) :=
  modify (set_sentFindingsCache []) ;;
  perform (SentFindingsStored []) ;;
  ret (Ok tt).

Definition getCheckDelay : M (Result Z) :=
  let* b := read in ret (Ok (checkDelayCache b)).

Definition set_checkDelayCache (delay : Z) (b : Backend) : Backend :=
  {| sentFindingsCache := sentFindingsCache b;
     checkDelayCache := delay;
     useCustomProviderConfigCache := useCustomProviderConfigCache b;
     checkInterval := checkInterval b;
     activeIntervals := activeIntervals b;
     nextHandle := nextHandle b |}.

(** The delay is an integer number of milliseconds. The source compares
    a JavaScript number, so that NaN, for which [delay < 1000] is false,
    would be stored; NaN is not a value of [Z]. *)
Definition saveCheckDelay (delay : Z) : M (Result unit) :=
  if delay <? 1000 then ret (Error "Delay must be at least 1000ms (1 second)")
  else modify (set_checkDelayCache delay) ;; ret (Ok tt).

Definition getUseCustomProviderConfig : M (Result bool) :=
  let* b := read in ret (Ok (useCustomProviderConfigCache b)).

(** ** The stages of checkAndSendFindings

    Each definition carries the name of the local variable of the source
    that it computes. *)

Definition oneHourAgo (now : Z) : Z := now - 60 * 60 * 1000.

Definition cleanedSentFindings (now : Z) (sentFindings : list SentFinding) : list SentFinding :=
  filter (fun f => timestamp f > oneHourAgo now) sentFindings.

Definition finalSentIds (cleaned : list SentFinding) : gset string :=
  list_to_set (map findingId cleaned).

Definition findingTimestamp (sdk : SDK) (now : Z) (f : Node) : Z :=
  match createdAt f with
  | Some (String c s) =>
      match dateParse sdk (String c s) with
      | Some parsed => parsed
      | None => now
      end
  | _ => now
  end.

(** The callback of [nodes.map]. *)
Definition toFinding (sdk : SDK) (now : Z) (f : Node) : FindingWithTimestamp :=
  {| getId := id f;
     getTitle := title f;
     getDescription := Js.or_else (description f) "";
     getReporter := reporter f;
     getTimestamp := findingTimestamp sdk now f |}.

Definition allFindings (sdk : SDK) (now : Z) (nodes : list Node) : list FindingWithTimestamp :=
  map (toFinding sdk now) nodes.

Definition recentFindings (now : Z) (all : list FindingWithTimestamp) : list FindingWithTimestamp :=
  filter (fun finding => getTimestamp finding > oneHourAgo now) all.

Definition keepFinding (excluded sentIds : gset string) (finding : FindingWithTimestamp) : bool :=
  let findingId := getId finding in
  let reporter := getReporter finding in
  let isExcludedById := bool_decide (findingId ∈ excluded) in
  let isExcludedByReporter := bool_decide (reporter ∈ excluded) in
  negb isExcludedById && negb isExcludedByReporter && negb (bool_decide (findingId ∈ sentIds)).

Definition newFindings (excluded sentIds : gset string) (recent : list FindingWithTimestamp)
  : list FindingWithTimestamp :=
  filter (fun finding => keepFinding excluded sentIds finding = true) recent.

Definition newSentFindings (new : list FindingWithTimestamp) : list SentFinding :=
  map (fun finding => {| findingId := getId finding; timestamp := getTimestamp finding |}) new.

Definition findingsByReporter (new : list FindingWithTimestamp)
  : list (string * list FindingWithTimestamp) :=
  foldl (fun m finding =>
           let reporter := getReporter finding in
           let existing := default [] (Js.get m reporter) in
           Js.set m reporter (existing ++ [finding]))
        [] new.

(** The value of [newFindings] in a run that reads the exclusion list
    [excludedList] and the sent-log [sentFindings] and is answered with
    [nodes]. *)
Definition selectedFindings (sdk : SDK) (excludedList : list string)
    (sentFindings : list SentFinding) (nodes : list Node) : list FindingWithTimestamp :=
  let now := Date_now sdk in
  newFindings (list_to_set excludedList)
    (finalSentIds (cleanedSentFindings now sentFindings))
    (recentFindings now (allFindings sdk now nodes)).

(** The log that such a run stores before it dispatches. *)
Definition updatedSent (sdk : SDK) (excludedList : list string)
    (sentFindings : list SentFinding) (nodes : list Node) : list SentFinding :=
  cleanedSentFindings (Date_now sdk) sentFindings
  ++ newSentFindings (selectedFindings sdk excludedList sentFindings nodes).

(** The destination of one reporter group: the body of the fan-out loop up
    to the message construction. *)
Definition resolveNotifyIds (config : NotifyConfig) (defaultNotifyIds : string)
    (defaultIdsType : IdsType) (reporter : string) : string * IdsType :=
  match customFindingIds config with
  | None => (defaultNotifyIds, defaultIdsType)
  | Some custom =>
      match Js.find (fun key => String.eqb (Js.toLowerCase key) (Js.toLowerCase reporter))
                    (Js.keys custom) with
      | None => (defaultNotifyIds, defaultIdsType)
      | Some reporterKey =>
          match Js.get custom reporterKey with
          | None => (defaultNotifyIds, defaultIdsType)
          | Some customId =>
              (customId,
               default defaultIdsType
                 (types ← customFindingIdsType config; Js.get types reporterKey))
          end
      end
  end.

Definition formatMessage (reporter : string) (finding : FindingWithTimestamp) : string :=
  "🔔 New Finding: " +:+ getTitle finding +:+ Js.nl +:+ Js.nl
  +:+ "Reporter: " +:+ reporter +:+ Js.nl +:+ Js.nl
  +:+ getDescription finding +:+ Js.nl +:+ Js.nl
  +:+ "Finding ID: " +:+ getId finding.

Definition bulkMessage (reporter : string) (reporterFindings : list FindingWithTimestamp) : string :=
  Js.join (Js.nl +:+ Js.nl +:+ "---" +:+ Js.nl +:+ Js.nl) (map (formatMessage reporter) reporterFindings).

Definition flagOf (idsType : IdsType) : string :=
  match idsType with ProviderFlag => "-provider" | IdFlag => "-id" end.

Definition notifyArgs (providerConfigPath : string) (dest : string * IdsType) : list string :=
  ["-provider-config"; providerConfigPath; flagOf dest.2; dest.1; "-bulk"].

(** The exit code inside a template literal; [None] is the code of a
    process ended by a signal, for which the runtime passes [null]. *)
Definition codeToString (code : option Z) : string :=
  match code with Some n => pretty n | None => "null" end.

(** The executor of one [sendPromise]: it calls [spawn] at once and yields
    what will later settle the promise, or what the call throws. *)
Definition startSend {St : Type} (sdk : SDK) (config : NotifyConfig) (defaultNotifyIds : string)
    (defaultIdsType : IdsType) (providerConfigPath : string)
    (entry : string * list FindingWithTimestamp) : ST St (string * ProcOutcome) :=
  let '(reporter, reporterFindings) := entry in
  let dest := resolveNotifyIds config defaultNotifyIds defaultIdsType reporter in
  let message := bulkMessage reporter reporterFindings in
  let args := notifyArgs providerConfigPath dest in
  perform (SpawnProc getNotifyCommand args message) ;;
  ret (reporter, child_process sdk args message).

(** The value a [sendPromise] resolves to, with the logging of the handler
    that settles it. A promise whose executor threw is rejected with the
    exception and has no handler; [dispatch] does not come here when
    there is one. *)
Definition settleSend {St : Type} (pending : string * ProcOutcome) : ST St (Result unit) :=
  let '(reporter, outcome) := pending in
  match outcome with
  | Hang => ret (Ok tt)
  | Close code errorOutput =>
      (if bool_decide (code = Some 0) then ret tt
       else perform (ConsoleError
              ["Notify command failed for reporter " +:+ Js.dq +:+ reporter +:+ Js.dq
               +:+ " with code " +:+ codeToString code +:+ ": " +:+ errorOutput])) ;;
      ret (Ok tt)
  | ProcError message =>
      perform (ConsoleError
        ["Notify process error for reporter " +:+ Js.dq +:+ reporter +:+ Js.dq
         +:+ ": " +:+ message]) ;;
      ret (Error ("Failed to execute notify: " +:+ message))
  | SpawnThrows message => ret (Error message)
  end.

(** The reason with which [Promise.all] rejects: what the executor of the
    first promise threw whose executor threw. A promise of that kind is
    rejected as soon as it is made, before any handler of a process can
    run. *)
Fixpoint rejection (sendPromises : list (string * ProcOutcome)) : option string :=
  match sendPromises with
  | [] => None
  | (_, SpawnThrows message) :: _ => Some message
  | _ :: rest => rejection rest
  end.

(** The fan-out with [await Promise.all(sendPromises)]: the executor of
    every group runs inside the loop. When one of them threw, the await
    throws its exception right after the loop; otherwise the promises
    settle and [Promise.all] collects their values. *)
Definition dispatch {St : Type} (sdk : SDK) (config : NotifyConfig) (defaultNotifyIds : string)
    (defaultIdsType : IdsType) (providerConfigPath : string)
    (new : list FindingWithTimestamp) : ST St (Result (list (Result unit))) :=
  let* sendPromises :=
    mapM (startSend sdk config defaultNotifyIds defaultIdsType providerConfigPath)
         (findingsByReporter new) in
  match rejection sendPromises with
  | Some message => ret (Error message)
  | None => let* values := mapM settleSend sendPromises in ret (Ok values)
  end.

(** ** checkAndSendFindings (index.ts)

    The GraphQL errors of a response are kept as their messages; the
    console line of the error branch prints them in place of the JSON
    text of the error objects. *)

Definition checkAndSendFindings (sdk : SDK) : M (Result unit) :=
  match getExcludedFindings sdk with
  | Error e => ret (Error e)
  | Ok excludedList =>
  let* sentResult := getSentFindings in
  match sentResult with
  | Error e => ret (Error e)
  | Ok sentFindings =>
  let excluded : gset string := list_to_set excludedList in
  let now := Date_now sdk in
  let cleaned := cleanedSentFindings now sentFindings in
  (if bool_decide (length cleaned ≠ length sentFindings)
   then saveSentFindings cleaned else ret (Ok tt)) ;;
  let sentIds := finalSentIds cleaned in
  match graphql_execute sdk with
  | Rejected message => ret (Error ("Failed to check findings: " +:+ message))
  | Resolved (Some (e :: errors)) _ =>
      perform (ConsoleError ("GraphQL errors:" :: e :: errors)) ;;
      ret (Error ("GraphQL query failed: " +:+ Js.join ", " (e :: errors)))
  | Resolved _ None => ret (Ok tt)
  | Resolved _ (Some nodes) =>
  let new := newFindings excluded sentIds (recentFindings now (allFindings sdk now nodes)) in
  if bool_decide (length new = 0%nat) then ret (Ok tt) else
  let updatedSent := cleaned ++ newSentFindings new in
  saveSentFindings updatedSent ;;
  match getNotifyIds sdk with
  | Error e => ret (Error e)
  | Ok config =>
  let defaultNotifyIds := Js.or_else (defaultIds config) "" in
  let defaultIdsType := default IdFlag (defaultIdsType config) in
  if Js.is_empty defaultNotifyIds then ret (Error "No notify IDs configured") else
  let* useCustomResult := getUseCustomProviderConfig in
  let useCustom := match useCustomResult with Ok v => v | Error _ => true end in
  let providerConfigPath :=
    if useCustom then getProviderConfigFile sdk else getDefaultNotifyProviderConfigFile sdk in
  let* sent := dispatch sdk config defaultNotifyIds defaultIdsType providerConfigPath new in
  match sent with
  | Error message => ret (Error ("Failed to check findings: " +:+ message))
  | Ok _ =>
  perform (EventsEmit "findings-sent" (length (newSentFindings new)) (length updatedSent)) ;;
  ret (Ok tt)
  end end end end end.

Definition manualCheckFindings (sdk : SDK) : M (Result string) :=
  let* result := checkAndSendFindings sdk in
  match result with
  | Error e => ret (Error e)
  | Ok _ => ret (Ok "Findings checked successfully")
  end.

(** ** The scheduler (index.ts) *)

Definition set_timers (handle : option nat) (active : list (nat * Z)) (next : nat)
    (b : Backend) : Backend :=
  {| sentFindingsCache := sentFindingsCache b;
     checkDelayCache := checkDelayCache b;
     useCustomProviderConfigCache := useCustomProviderConfigCache b;
     checkInterval := handle;
     activeIntervals := active;
     nextHandle := next |}.

Definition clearInterval (handle : nat) : M unit :=
  modify (fun b => set_timers (checkInterval b)
                     (filter (fun t => t.1 ≠ handle) (activeIntervals b)) (nextHandle b) b) ;;
  perform (ClearInterval handle).

Definition setInterval (delay : Z) : M nat :=
  let* b := read in
  let handle := nextHandle b in
  modify (set_timers (checkInterval b) (activeIntervals b ++ [(handle, delay)]) (S handle)) ;;
  perform (SetInterval handle delay) ;;
  ret handle.

Definition startCheckingFindings : M unit :=
  let* b := read in
  match checkInterval b with
  | Some handle => clearInterval handle
  | None => ret tt
  end ;;
  let* delayResult := getCheckDelay in
  let delay := match delayResult with Ok v => v | Error _ => 60000 end in
  let* handle := setInterval delay in
  modify (fun b => set_timers (Some handle) (activeIntervals b) (nextHandle b) b).

(** The callback of the interval timer. *)
Definition tick (sdk : SDK) : M unit :=
  let* result := checkAndSendFindings sdk in
  match result with
  | Error e => perform (ConsoleError ["Error checking findings: " +:+ e])
  | Ok _ => ret tt
  end.

(** The handler that [init] registers under the name saveCheckDelay. *)
Definition registered_saveCheckDelay (delay : Z) : M (Result unit) :=
  let* result := saveCheckDelay delay in
  match result with
  | Ok _ => startCheckingFindings
  | Error _ => ret tt
  end ;;
  ret result.

(** The module state when the plugin is loaded, and [init]. *)
Definition initialBackend : Backend :=
  {| sentFindingsCache := [];
     checkDelayCache := 60000;
     useCustomProviderConfigCache := true;
     checkInterval := None;
     activeIntervals := [];
     nextHandle := 0 |}.

Definition init : M unit := startCheckingFindings.

(** ** The database-backed variant

    The second backend of the repository keeps everything in the table
    [config] of [sdk.meta.db()]. Its [checkAndSendFindings] runs the same
    stages; it differs in how the sent-log is read and written (both can
    fail), in writing the provider configuration to a file before the
    fan-out, and in not emitting the findings-sent event. Rows are kept
    typed; a missing row is [None]. *)

Module Db.

Record Database := {
  sentFindingsRow : option (list SentFinding);
  useCustomRow : option bool;
  providerConfigRow : option string
}.

Inductive FileRead :=
| FileContent (content : string)
| FileMissing
| FileUnreadable (message : string).

(** [dbError key write] is the message of the exception that an access to
    the row [key] throws, if it throws. *)
Record Env := {
  dbError : string -> bool -> option string;
  defaultProviderFile : FileRead;
  mkdirError : option string;
  writeFileError : option string
}.

Definition getSentFindings (env : Env) : ST Database (Result (list SentFinding)) :=
  match dbError env "sent-findings" false with
  | Some message =>
      perform (ConsoleError ["Error reading sent findings: " +:+ message]) ;;
      ret (Error ("Failed to read sent findings: " +:+ message))
  | None => let* d := read in ret (Ok (default [] (sentFindingsRow d)))
  end.

Definition saveSentFindings (env : Env) (sent : list SentFinding) : ST Database (Result unit) :=
  match dbError env "sent-findings" true with
  | Some message =>
      perform (ConsoleError ["Error saving sent findings: " +:+ message]) ;;
      ret (Error ("Failed to save sent findings: " +:+ message))
  | None =>
      modify (fun d => {| sentFindingsRow := Some sent;
                          useCustomRow := useCustomRow d;
                          providerConfigRow := providerConfigRow d |}) ;;
      perform (SentFindingsStored sent) ;;
      ret (Ok tt)
  end.

Definition getUseCustomProviderConfig (env : Env) : ST Database (Result bool) :=
  match dbError env "use-custom-provider-config" false with
  | Some message => ret (Error ("Failed to read useCustomProviderConfig: " +:+ message))
  | None => let* d := read in ret (Ok (default true (useCustomRow d)))
  end.

Definition saveProviderConfigToDb (env : Env) (yamlContent : string) : ST Database (Result unit) :=
  match dbError env "custom-provider-config" true with
  | Some message => ret (Error ("Failed to save provider config to database: " +:+ message))
  | None =>
      modify (fun d => {| sentFindingsRow := sentFindingsRow d;
                          useCustomRow := useCustomRow d;
                          providerConfigRow := Some yamlContent |}) ;;
      perform (DbStored "custom-provider-config" yamlContent) ;;
      ret (Ok tt)
  end.

Definition getProviderConfigFromDb (env : Env) : ST Database (Result string) :=
  match dbError env "custom-provider-config" false with
  | Some message => ret (Error ("Failed to read provider config from database: " +:+ message))
  | None => let* d := read in ret (Ok (default "" (providerConfigRow d)))
  end.

Definition getProviderConfig (env : Env) : ST Database (Result string) :=
  let* useCustomResult := getUseCustomProviderConfig env in
  let useCustom := match useCustomResult with Ok v => v | Error _ => true end in
  let* dbResult := getProviderConfigFromDb env in
  match dbResult with
  | Error e => ret (Error e)
  | Ok (String c s) => ret (Ok (String c s))
  | Ok EmptyString =>
      if useCustom then ret (Ok "")
      else
        match defaultProviderFile env with
        | FileContent content => saveProviderConfigToDb env content ;; ret (Ok content)
        | FileMissing => saveProviderConfigToDb env "" ;; ret (Ok "")
        | FileUnreadable message => ret (Error ("Failed to read provider config: " +:+ message))
        end
  end.

Definition ensureConfigDir (sdk : SDK) (env : Env) : ST Database (Result unit) :=
  match mkdirError env with
  | Some message => ret (Error ("Failed to create config directory: " +:+ message))
  | None => perform (FsMkdir (getConfigDir sdk)) ;; ret (Ok tt)
  end.

Definition checkAndSendFindings (sdk : SDK) (env : Env) : ST Database (Result unit) :=
  match getExcludedFindings sdk with
  | Error e => ret (Error e)
  | Ok excludedList =>
  let* sentResult := getSentFindings env in
  match sentResult with
  | Error e => ret (Error e)
  | Ok sentFindings =>
  let excluded : gset string := list_to_set excludedList in
  let now := Date_now sdk in
  let cleaned := cleanedSentFindings now sentFindings in
  (if bool_decide (length cleaned ≠ length sentFindings)
   then saveSentFindings env cleaned else ret (Ok tt)) ;;
  let sentIds := finalSentIds cleaned in
  match graphql_execute sdk with
  | Rejected message => ret (Error ("Failed to check findings: " +:+ message))
  | Resolved (Some (e :: errors)) _ =>
      perform (ConsoleError ("GraphQL errors:" :: e :: errors)) ;;
      ret (Error ("GraphQL query failed: " +:+ Js.join ", " (e :: errors)))
  | Resolved _ None => ret (Ok tt)
  | Resolved _ (Some nodes) =>
  let new := newFindings excluded sentIds (recentFindings now (allFindings sdk now nodes)) in
  if bool_decide (length new = 0%nat) then ret (Ok tt) else
  let updatedSent := cleaned ++ newSentFindings new in
  saveSentFindings env updatedSent ;;
  match getNotifyIds sdk with
  | Error e => ret (Error e)
  | Ok config =>
  let defaultNotifyIds := Js.or_else (defaultIds config) "" in
  let defaultIdsType := default IdFlag (defaultIdsType config) in
  if Js.is_empty defaultNotifyIds then ret (Error "No notify IDs configured") else
  let* configResult := getProviderConfig env in
  match configResult with
  | Error e => ret (Error e)
  | Ok content =>
  let* dirResult := ensureConfigDir sdk env in
  match dirResult with
  | Error e => ret (Error e)
  | Ok _ =>
  let providerConfigPath := getProviderConfigFile sdk in
  match writeFileError env with
  | Some message => ret (Error ("Failed to write provider config to file: " +:+ message))
  | None =>
  perform (FsWriteFile providerConfigPath content) ;;
  let* sent := dispatch sdk config defaultNotifyIds defaultIdsType providerConfigPath new in
  match sent with
  | Error message => ret (Error ("Failed to check findings: " +:+ message))
  | Ok _ => ret (Ok tt)
  end end end end end end end end.

End Db.

(** ** Vocabulary of the statements *)

Definition is_spawn (e : Effect) : bool :=
  match e with SpawnProc _ _ _ => true | _ => false end.

Definition is_timer_effect (e : Effect) : bool :=
  match e with SetInterval _ _ | ClearInterval _ => true | _ => false end.

(** The response carries no GraphQL error. *)
Definition noErrors (errors : option (list string)) : Prop :=
  errors = None \/ errors = Some [].

(** The findings query failed: the promise rejected or the response
    carries at least one error. *)
Definition queryFails (g : GraphqlOutcome) : Prop :=
  match g with
  | Rejected _ => True
  | Resolved (Some (_ :: _)) _ => True
  | Resolved _ _ => False
  end.

(** The creation time of a node as the run reads it: [Some t] when
    [createdAt] is present, non-empty and parses to [t]; [None] when it is
    absent, empty or unparseable. *)
Definition parsedCreatedAt (sdk : SDK) (f : Node) : option Z :=
  match createdAt f with
  | Some (String c s) => dateParse sdk (String c s)
  | _ => None
  end.

(** The sent-log entry of a finding. *)
Definition entryOf (finding : FindingWithTimestamp) : SentFinding :=
  {| findingId := getId finding; timestamp := getTimestamp finding |}.

(** The provider configuration file that index.ts hands to the notifier. *)
Definition providerConfigPathOf (sdk : SDK) (b : Backend) : string :=
  if useCustomProviderConfigCache b then getProviderConfigFile sdk
  else getDefaultNotifyProviderConfigFile sdk.

(** The invocation issued for one reporter group. *)
Definition spawnOf (config : NotifyConfig) (defaultNotifyIds : string) (defaultIdsType : IdsType)
    (providerConfigPath : string) (entry : string * list FindingWithTimestamp) : Effect :=
  SpawnProc getNotifyCommand
    (notifyArgs providerConfigPath (resolveNotifyIds config defaultNotifyIds defaultIdsType entry.1))
    (bulkMessage entry.1 entry.2).

(** The sent-log write that precedes the query, if any. *)
Definition pruneEffects (now : Z) (sentFindings : list SentFinding) : list Effect :=
  if bool_decide (length (cleanedSentFindings now sentFindings) ≠ length sentFindings)
  then [SentFindingsStored (cleanedSentFindings now sentFindings)] else [].

(** The module state after the pruning step of a run at time [now]. *)
Definition prunedBackend (now : Z) (b : Backend) : Backend :=
  if bool_decide (length (cleanedSentFindings now (sentFindingsCache b))
                  ≠ length (sentFindingsCache b))
  then set_sentFindingsCache (cleanedSentFindings now (sentFindingsCache b)) b
  else b.

(** What each started invocation will settle with. *)
Definition pendingOf (sdk : SDK) (config : NotifyConfig) (defaultNotifyIds : string)
    (defaultIdsType : IdsType) (providerConfigPath : string)
    (entry : string * list FindingWithTimestamp) : string * ProcOutcome :=
  (entry.1,
   child_process sdk
     (notifyArgs providerConfigPath (resolveNotifyIds config defaultNotifyIds defaultIdsType entry.1))
     (bulkMessage entry.1 entry.2)).

(** Value and log lines of a settled invocation. *)
Definition settleValue (pending : string * ProcOutcome) : Result unit :=
  result_of (settleSend pending tt).

Definition settleEffects (pending : string * ProcOutcome) : list Effect :=
  trace_of (settleSend pending tt).

(** The exception that ends the fan-out of a run, if a call of [spawn]
    throws. *)
Definition rejectionOf (sdk : SDK) (config : NotifyConfig) (defaultNotifyIds : string)
    (defaultIdsType : IdsType) (providerConfigPath : string)
    (new : list FindingWithTimestamp) : option string :=
  rejection (map (pendingOf sdk config defaultNotifyIds defaultIdsType providerConfigPath)
                 (findingsByReporter new)).

(** The effects of the fan-out: all calls of [spawn], then the log lines
    of the handlers unless a call threw. *)
Definition dispatchEffects (sdk : SDK) (config : NotifyConfig) (defaultNotifyIds : string)
    (defaultIdsType : IdsType) (providerConfigPath : string)
    (new : list FindingWithTimestamp) : list Effect :=
  map (spawnOf config defaultNotifyIds defaultIdsType providerConfigPath) (findingsByReporter new)
  ++ match rejectionOf sdk config defaultNotifyIds defaultIdsType providerConfigPath new with
     | Some _ => []
     | None =>
         flat_map settleEffects
           (map (pendingOf sdk config defaultNotifyIds defaultIdsType providerConfigPath)
                (findingsByReporter new))
     end.

(** What a run returns after a fan-out that ended in this way. *)
Definition fanoutResult (thrown : option string) : Result unit :=
  match thrown with
  | Some message => Error ("Failed to check findings: " +:+ message)
  | None => Ok tt
  end.

(** ** Sample data

    A clock reading, the two ISO instants ten minutes and two hours before
    it, and small configurations and answers built from them. *)

Module Sample.

(** 2024-01-01T01:00:00.000Z *)
Definition now : Z := 1704070800000.

(** [new Date(s).getTime()] on the instants used below; every other string
    is taken to be unparseable. *)
Definition parse (s : string) : option Z :=
  if String.eqb s "2024-01-01T00:50:00.000Z" then Some 1704070200000
  else if String.eqb s "2023-12-31T23:00:00.000Z" then Some 1704063600000
  else None.

Definition config (defaultDestination : option string)
    (custom : option (list (string * string)))
    (customType : option (list (string * IdsType))) : NotifyConfig :=
  {| defaultIds := defaultDestination;
     defaultIdsType := None;
     customFindingIds := custom;
     customFindingIdsType := customType |}.

Definition sdk (clock : Z) (excluded : list string) (cfg : NotifyConfig)
    (answer : GraphqlOutcome) (fate : ProcOutcome) : SDK :=
  {| excludedFindingsRead := Ok excluded;
     notifyIdsRead := Ok cfg;
     Date_now := clock;
     dateParse := parse;
     graphql_execute := answer;
     child_process := fun _ _ => fate;
     os_homedir := "/home/user";
     env_fallback := None |}.

Definition backend (sent : list SentFinding) : Backend :=
  set_sentFindingsCache sent initialBackend.

Definition node (i r : string) (created : option string) : Node :=
  {| id := i; title := "Exposed backup file"; description := None;
     reporter := r; createdAt := created |}.

(** Created ten minutes before [now]. *)
Definition f1 : Node := node "f1" "R1" (Some "2024-01-01T00:50:00.000Z").

(** Created two hours before [now]. *)
Definition f2 : Node := node "f2" "R1" (Some "2023-12-31T23:00:00.000Z").

(** No creation time. *)
Definition f3 : Node := node "f3" "R1" None.

(** A database access that never throws, no default provider file, a
    writable configuration directory; and an empty table. *)
Definition env : Db.Env :=
  {| Db.dbError := fun _ _ => None;
     Db.defaultProviderFile := Db.FileMissing;
     Db.mkdirError := None;
     Db.writeFileError := None |}.

Definition database : Db.Database :=
  {| Db.sentFindingsRow := None; Db.useCustomRow := None; Db.providerConfigRow := None |}.

Definition path : string := "/home/user/.config/notify-caido/provider-config.yaml".

End Sample.

(** ** The rest of index.ts *)

Definition set_useCustomProviderConfigCache (useCustom : bool) (b : Backend) : Backend :=
  {| sentFindingsCache := sentFindingsCache b;
     checkDelayCache := checkDelayCache b;
     useCustomProviderConfigCache := useCustom;
     checkInterval := checkInterval b;
     activeIntervals := activeIntervals b;
     nextHandle := nextHandle b |}.

Definition saveUseCustomProviderConfig (useCustom : bool) : M (Result unit) :=
  modify (set_useCustomProviderConfigCache useCustom) ;; ret (Ok tt).

(** The destination that [sendNotification] resolves for an optional
    reporter: the lookup is skipped when the reporter is absent or
    empty. *)
Definition notificationDestination (config : NotifyConfig) (reporter : option string)
  : string * IdsType :=
  let notifyIds := Js.or_else (defaultIds config) "" in
  let idsType := default IdFlag (defaultIdsType config) in
  match customFindingIds config, reporter with
  | Some custom, Some (String c r) =>
      match Js.find (fun key => String.eqb (Js.toLowerCase key) (Js.toLowerCase (String c r)))
                    (Js.keys custom) with
      | None => (notifyIds, idsType)
      | Some reporterKey =>
          match Js.get custom reporterKey with
          | None => (notifyIds, idsType)
          | Some customId =>
              (customId,
               match customFindingIdsType config with
               | None => idsType
               | Some types =>
                   match Js.get types reporterKey with
                   | Some customType => customType
                   | None => idsType
                   end
               end)
          end
      end
  | _, _ => (notifyIds, idsType)
  end.

(** [sendNotification]. The promise it returns has no watchdog: when the
    process neither closes nor fails it never settles, which is [None].
    Its executor is an async function, so an exception of [spawn] rejects
    the promise of the executor and not the one returned: that one never
    settles either. *)
Definition sendNotification (sdk : SDK) (message : string) (reporter : option string)
  : M (option (Result unit)) :=
  match getNotifyIds sdk with
  | Error e => ret (Some (Error e))
  | Ok config =>
  let dest := notificationDestination config reporter in
  if Js.is_empty dest.1 then ret (Some (Error "No notify IDs configured")) else
  let* useCustomResult := getUseCustomProviderConfig in
  let useCustom := match useCustomResult with Ok v => v | Error _ => true end in
  let providerConfigPath :=
    if useCustom then getProviderConfigFile sdk else getDefaultNotifyProviderConfigFile sdk in
  let args := notifyArgs providerConfigPath dest in
  perform (SpawnProc getNotifyCommand args message) ;;
  match child_process sdk args message with
  | Close code errorOutput =>
      if bool_decide (code = Some 0) then ret (Some (Ok tt))
      else ret (Some (Error ("Notify command failed with code " +:+ codeToString code
                             +:+ ": " +:+ errorOutput)))
  | ProcError m => ret (Some (Error ("Failed to execute notify: " +:+ m)))
  | Hang => ret None
  | SpawnThrows _ => ret None
  end
  end.

(** ** Settings on disk (index.ts)

    The exclusion list and the notify configuration live under a key of
    [sdk.storage] when the SDK has one, and in a JSON file of the
    configuration directory otherwise; the provider configuration is a
    YAML file. JSON values are kept typed; [None] is a key or file that
    does not exist. *)

Module Store.

Record Disk := {
  excludedFindingsValue : option (list string);
  notifyIdsValue : option NotifyConfig;
  files : gmap string string
}.

(** [hasStorage] tells whether [sdk.storage] is defined. The other fields
    are the messages of the exceptions that a read, a write or [fs.mkdir]
    throws, if they throw. *)
Record Env := {
  hasStorage : bool;
  readThrows : option string;
  writeThrows : option string;
  mkdirThrows : option string
}.

Definition ensureConfigDir (sdk : SDK) (env : Env) : ST Disk (Result unit) :=
  match mkdirThrows env with
  | Some m => ret (Error ("Failed to create config directory: " +:+ m))
  | None => perform (FsMkdir (getConfigDir sdk)) ;; ret (Ok tt)
  end.

Definition set_excluded (excluded : list string) (d : Disk) : Disk :=
  {| excludedFindingsValue := Some excluded;
     notifyIdsValue := notifyIdsValue d;
     files := files d |}.

Definition set_notifyIds (config : NotifyConfig) (d : Disk) : Disk :=
  {| excludedFindingsValue := excludedFindingsValue d;
     notifyIdsValue := Some config;
     files := files d |}.

Definition set_file (path content : string) (d : Disk) : Disk :=
  {| excludedFindingsValue := excludedFindingsValue d;
     notifyIdsValue := notifyIdsValue d;
     files := <[path := content]> (files d) |}.

Definition getExcludedFindings (sdk : SDK) (env : Env) : ST Disk (Result (list string)) :=
  if hasStorage env then
    match readThrows env with
    | Some m => ret (Error ("Failed to read excluded findings: " +:+ m))
    | None => let* d := read in ret (Ok (default [] (excludedFindingsValue d)))
    end
  else
    ensureConfigDir sdk env ;;
    match readThrows env with
    | Some _ => ret (Ok [])
    | None => let* d := read in ret (Ok (default [] (excludedFindingsValue d)))
    end.

Definition saveExcludedFindings (sdk : SDK) (env : Env) (excluded : list string)
  : ST Disk (Result unit) :=
  if hasStorage env then
    match writeThrows env with
    | Some m => ret (Error ("Failed to save excluded findings: " +:+ m))
    | None => modify (set_excluded excluded) ;; ret (Ok tt)
    end
  else
    let* dirResult := ensureConfigDir sdk env in
    match dirResult with
    | Error e => ret (Error e)
    | Ok _ =>
        match writeThrows env with
        | Some m => ret (Error ("Failed to save excluded findings: " +:+ m))
        | None => modify (set_excluded excluded) ;; ret (Ok tt)
        end
    end.

Definition getNotifyIds (sdk : SDK) (env : Env) : ST Disk (Result NotifyConfig) :=
  let empty := {| defaultIds := None; defaultIdsType := None;
                  customFindingIds := None; customFindingIdsType := None |} in
  if hasStorage env then
    match readThrows env with
    | Some m => ret (Error ("Failed to read notify IDs: " +:+ m))
    | None => let* d := read in ret (Ok (default empty (notifyIdsValue d)))
    end
  else
    ensureConfigDir sdk env ;;
    match readThrows env with
    | Some _ => ret (Ok empty)
    | None => let* d := read in ret (Ok (default empty (notifyIdsValue d)))
    end.

Definition saveNotifyIds (sdk : SDK) (env : Env) (config : NotifyConfig)
  : ST Disk (Result unit) :=
  if hasStorage env then
    match writeThrows env with
    | Some m => ret (Error ("Failed to save notify IDs: " +:+ m))
    | None => modify (set_notifyIds config) ;; ret (Ok tt)
    end
  else
    let* dirResult := ensureConfigDir sdk env in
    match dirResult with
    | Error e => ret (Error e)
    | Ok _ =>
        match writeThrows env with
        | Some m => ret (Error ("Failed to save notify IDs: " +:+ m))
        | None => modify (set_notifyIds config) ;; ret (Ok tt)
        end
    end.

Definition addExcludedFinding (sdk : SDK) (env : Env) (findingId : string)
  : ST Disk (Result unit) :=
  let* excludedResult := getExcludedFindings sdk env in
  match excludedResult with
  | Error e => ret (Error e)
  | Ok excluded =>
      if bool_decide (findingId ∈ excluded) then ret (Ok tt)
      else saveExcludedFindings sdk env (excluded ++ [findingId])
  end.

Definition removeExcludedFinding (sdk : SDK) (env : Env) (findingId : string)
  : ST Disk (Result unit) :=
  let* excludedResult := getExcludedFindings sdk env in
  match excludedResult with
  | Error e => ret (Error e)
  | Ok excluded =>
      saveExcludedFindings sdk env (filter (fun i => i <> findingId) excluded)
  end.

Definition saveProviderConfig (sdk : SDK) (env : Env) (yamlContent : string)
  : ST Disk (Result unit) :=
  let* dirResult := ensureConfigDir sdk env in
  match dirResult with
  | Error e => ret (Error e)
  | Ok _ =>
      match writeThrows env with
      | Some m => ret (Error ("Failed to save provider config: " +:+ m))
      | None =>
          modify (set_file (getProviderConfigFile sdk) yamlContent) ;;
          perform (FsWriteFile (getProviderConfigFile sdk) yamlContent) ;;
          ret (Ok tt)
      end
  end.

(** A read error whose message does not speak of a missing file is
    [readThrows]; a missing file is an absent path. *)
Definition getProviderConfig (sdk : SDK) (env : Env) : ST Disk (Result string) :=
  ensureConfigDir sdk env ;;
  match readThrows env with
  | Some m => ret (Error ("Failed to read provider config: " +:+ m))
  | None =>
      let* d := read in
      ret (Ok (default "" (files d !! getProviderConfigFile sdk)))
  end.

End Store.

(** ** The calls that reach the module state

    What the runtime can ask of the loaded plugin: a call of one of the
    registered handlers that touch the module state, or a tick of the
    interval timer. The delay given to saveCheckDelay is an integer
    number of milliseconds, as the settings page sends it; a call with
    NaN, which the handler would store since [NaN < 1000] is false, is
    not one of these calls. *)
Inductive Call :=
| CallSaveCheckDelay (delay : Z)
| CallManualCheckFindings (sdk : SDK)
| CallSendNotification (sdk : SDK) (message : string) (reporter : option string)
| CallClearSentFindings
| CallSaveUseCustomProviderConfig (useCustom : bool)
| TimerTick (sdk : SDK).

Definition perform_call (c : Call) : M unit :=
  match c with
  | CallSaveCheckDelay delay => registered_saveCheckDelay delay ;; ret tt
  | CallManualCheckFindings sdk => manualCheckFindings sdk ;; ret tt
  | CallSendNotification sdk message reporter => sendNotification sdk message reporter ;; ret tt
  | CallClearSentFindings => clearSentFindings ;; ret tt
  | CallSaveUseCustomProviderConfig useCustom => saveUseCustomProviderConfig useCustom ;; ret tt
  | TimerTick sdk => tick sdk
  end.

(** The module state after [init] and a sequence of calls. *)
Definition after_calls (calls : list Call) : Backend :=
  foldl (fun b c => state_of (perform_call c b)) (state_of (init initialBackend)) calls.

(** The delay of the last call of saveCheckDelay that was given at least
    1000 ms, and 60000 when there is none. *)
Definition acceptedDelay (calls : list Call) : Z :=
  foldl (fun delay c =>
           match c with
           | CallSaveCheckDelay d => if d <? 1000 then delay else d
           | _ => delay
           end) 60000 calls.

(** The scheduler is in order: the module holds the handle of the one
    timer that the runtime has, and that timer runs with the stored delay,
    which is at least one second. *)
Definition scheduler_ok (b : Backend) : Prop :=
  exists handle,
    checkInterval b = Some handle
    /\ activeIntervals b = [(handle, checkDelayCache b)]
    /\ 1000 <= checkDelayCache b.

Definition is_emit (e : Effect) : bool :=
  match e with EventsEmit _ _ _ => true | _ => false end.

(** The identifiers of the nodes that the query answers with. *)
Definition responseIds (sdk : SDK) : list string :=
  match graphql_execute sdk with
  | Resolved _ (Some nodes) => map id nodes
  | _ => []
  end.

(** Two module states agree on everything but the sent-log. *)
Definition same_but_sent_log (b b' : Backend) : Prop :=
  checkDelayCache b' = checkDelayCache b
  /\ useCustomProviderConfigCache b' = useCustomProviderConfigCache b
  /\ checkInterval b' = checkInterval b
  /\ activeIntervals b' = activeIntervals b
  /\ nextHandle b' = nextHandle b.

(** The exclusion list that a disk holds. *)
Definition storedExcluded (d : Store.Disk) : list string :=
  default [] (Store.excludedFindingsValue d).

(** An environment in which nothing throws, with or without [sdk.storage]. *)
Definition quietStore (storage : bool) : Store.Env :=
  {| Store.hasStorage := storage;
     Store.readThrows := None;
     Store.writeThrows := None;
     Store.mkdirThrows := None |}.

Definition emptyDisk : Store.Disk :=
  {| Store.excludedFindingsValue := None;
     Store.notifyIdsValue := None;
     Store.files := ∅ |}.



(** ** The settings page

    The two places of the settings page that exchange the check delay
    with the backend. The page shows seconds, the backend keeps
    milliseconds. [delaySeconds] is the outcome of
    [Number.parseInt(String(checkDelay.value), 10)], [None] standing for
    NaN; [idsResult] is the answer of the backend to the saveNotifyIds
    call that precedes the delay. The result lists the toasts shown. *)
Module Frontend.

Inductive Toast :=
| showToast (message : string) (variant : string).


Definition saveNotifyIds (idsResult : Result unit) (delaySeconds : option Z) : M (list Toast) :=
  match idsResult with
  | Error e => ret [showToast e "error"]
  | Ok _ =>
      match delaySeconds with
      | Some seconds =>
          if 1 <=? seconds then
            let delayMs := seconds * 1000 in
            let* delayResult := registered_saveCheckDelay delayMs in
            match delayResult with
            | Error e =>
                ret [showToast ("Configuration saved but delay failed: " +:+ e) "error"]
            | Ok _ => ret [showToast "Configuration saved successfully" "success"]
            end
          else
            ret [showToast "Invalid delay value. Using default 60 seconds." "warning";
                 showToast "Configuration saved successfully" "success"]
      | None =>
          ret [showToast "Invalid delay value. Using default 60 seconds." "warning";
               showToast "Configuration saved successfully" "success"]
      end
  end.

End Frontend.

(** The configuration [{}]. *)
Definition emptyConfig : NotifyConfig :=
  {| defaultIds := None; defaultIdsType := None;
     customFindingIds := None; customFindingIdsType := None |}.


(** * Properties *)

(** ** Generic facts *)

Lemma filter_length_eq {A : Type} (P : A -> Prop) `{forall x, Decision (P x)} (l : list A) :
  length (filter P l) = length l -> filter P l = l.
Proof.
  induction l as [|x l IH]; [done|].
  rewrite filter_cons. destruct (decide (P x)); simpl; intros Hl.
  - f_equal. apply IH. lia.
  - pose proof (length_filter P l). lia.
Qed.

Lemma filter_all {A : Type} (P : A -> Prop) `{forall x, Decision (P x)} (l : list A) :
  (forall x, x ∈ l -> P x) -> filter P l = l.
Proof.
  induction l as [|x l IH]; intros Hall; [done|].
  rewrite filter_cons_True by (apply Hall; by left).
  f_equal. apply IH. intros y Hy. apply Hall. by right.
Qed.

Lemma mapM_pure {St A B : Type} (f : A -> ST St B) (g : A -> B) (t : A -> list Effect) :
  (forall x b, f x b = (g x, b, t x)) ->
  forall xs b, mapM f xs b = (map g xs, b, flat_map t xs).
Proof.
  intros Hf xs. induction xs as [|x xs IH]; intros b; [done|].
  simpl. unfold bind. rewrite Hf, IH. simpl. by rewrite app_nil_r.
Qed.

(** ** The fan-out *)

Lemma settleSend_run {St : Type} (pending : string * ProcOutcome) (b : St) :
  settleSend pending b = (settleValue pending, b, settleEffects pending).
Proof.
  destruct pending as [reporter [code err| msg | | msg]]; try reflexivity.
  unfold settleValue, settleEffects, settleSend.
  destruct (bool_decide (code = Some 0)); reflexivity.
Qed.

Lemma startSend_run {St : Type} sdk config dn dt path entry (b : St) :
  startSend sdk config dn dt path entry b
  = (pendingOf sdk config dn dt path entry, b, [spawnOf config dn dt path entry]).
Proof. destruct entry as [reporter fs]. reflexivity. Qed.

Lemma flat_map_singleton {A B : Type} (f : A -> B) (xs : list A) :
  flat_map (fun x => [f x]) xs = map f xs.
Proof. induction xs as [|x xs IH]; [done|]. simpl. by rewrite IH. Qed.

Lemma dispatch_run {St : Type} sdk config dn dt path new (b : St) :
  dispatch sdk config dn dt path new b
  = (match rejectionOf sdk config dn dt path new with
     | Some message => Error message
     | None =>
         Ok (map settleValue (map (pendingOf sdk config dn dt path) (findingsByReporter new)))
     end,
     b, dispatchEffects sdk config dn dt path new).
Proof.
  unfold dispatch, bind, dispatchEffects, rejectionOf.
  rewrite (mapM_pure _ (pendingOf sdk config dn dt path)
             (fun entry => [spawnOf config dn dt path entry]))
    by (intros; apply startSend_run).
  rewrite flat_map_singleton.
  destruct (rejection _) as [message|]; [reflexivity|].
  rewrite (mapM_pure _ settleValue settleEffects) by (intros; apply settleSend_run).
  cbn. by rewrite app_nil_r.
Qed.

(** The fan-out has no rejection exactly when no call of [spawn] throws. *)
Lemma rejection_None (sendPromises : list (string * ProcOutcome)) :
  rejection sendPromises = None
  <-> forall reporter message, (reporter, SpawnThrows message) ∉ sendPromises.
Proof.
  induction sendPromises as [|[r o] ps IH].
  - split; [intros _ reporter message Hin; by apply elem_of_nil in Hin|done].
  - destruct o as [code err| msg | | msg]; cbn [rejection].
    4: { split; [discriminate|]. intros Hno. exfalso. apply (Hno r msg). by left. }
    all: rewrite IH; split; intros Hno reporter message Hin.
    all: try (apply elem_of_cons in Hin as [Hin|Hin]; [discriminate Hin|by apply (Hno reporter message)]).
    all: apply (Hno reporter message); by right.
Qed.

(** A rejection is what some call of [spawn] threw. *)
Lemma rejection_Some (sendPromises : list (string * ProcOutcome)) (message : string) :
  rejection sendPromises = Some message ->
  exists reporter, (reporter, SpawnThrows message) ∈ sendPromises.
Proof.
  induction sendPromises as [|[r o] ps IH]; [discriminate|].
  destruct o as [code err| msg | | msg]; cbn [rejection].
  4: { intros [= ->]. exists r. by left. }
  all: intros H; destruct (IH H) as [reporter Hin]; exists reporter; by right.
Qed.

(** ** The run, branch by branch (index.ts) *)

Lemma prunedBackend_cache now b :
  sentFindingsCache (prunedBackend now b) = cleanedSentFindings now (sentFindingsCache b).
Proof.
  unfold prunedBackend. case_bool_decide as Hlen; [done|].
  symmetry. apply filter_length_eq. exact Hlen.
Qed.

Lemma set_sent_pruned now sent b :
  set_sentFindingsCache sent (prunedBackend now b) = set_sentFindingsCache sent b.
Proof. unfold prunedBackend. by case_bool_decide. Qed.

Lemma check_excluded_error sdk b e :
  excludedFindingsRead sdk = Error e ->
  checkAndSendFindings sdk b = (Error e, b, []).
Proof. intros He. unfold checkAndSendFindings, getExcludedFindings. by rewrite He. Qed.

Lemma prune_step_run now b :
  (if bool_decide (length (cleanedSentFindings now (sentFindingsCache b))
                   ≠ length (sentFindingsCache b))
   then saveSentFindings (cleanedSentFindings now (sentFindingsCache b))
   else ret (Ok tt)) b
  = (Ok tt, prunedBackend now b, pruneEffects now (sentFindingsCache b)).
Proof. unfold prunedBackend, pruneEffects. by case_bool_decide. Qed.

Lemma check_query_fails sdk b ex :
  excludedFindingsRead sdk = Ok ex ->
  queryFails (graphql_execute sdk) ->
  exists message log,
    checkAndSendFindings sdk b
    = (Error message, prunedBackend (Date_now sdk) b,
       pruneEffects (Date_now sdk) (sentFindingsCache b) ++ log)
    /\ Forall (fun e => exists args, e = ConsoleError args) log.
Proof.
  intros Hex Hq. unfold checkAndSendFindings, getExcludedFindings. rewrite Hex.
  unfold getSentFindings. unfold bind at 1 2. simpl.
  unfold bind at 1. rewrite prune_step_run.
  destruct (graphql_execute sdk) as [message|[[|e errors]|] nodes]; simpl in Hq; try done.
  - eexists _, []. split; [reflexivity|constructor].
  - eexists _, [_]. split; [reflexivity|]. repeat constructor. eauto.
Qed.

Lemma check_no_nodes sdk b ex errors :
  excludedFindingsRead sdk = Ok ex ->
  graphql_execute sdk = Resolved errors None ->
  noErrors errors ->
  checkAndSendFindings sdk b
  = (Ok tt, prunedBackend (Date_now sdk) b,
     pruneEffects (Date_now sdk) (sentFindingsCache b)).
Proof.
  intros Hex Hq Herr. unfold checkAndSendFindings, getExcludedFindings. rewrite Hex, Hq.
  unfold getSentFindings. unfold bind at 1 2. simpl.
  unfold bind at 1. rewrite prune_step_run.
  destruct Herr as [-> | ->]; simpl; by rewrite app_nil_r.
Qed.

Lemma check_none_new sdk b ex errors nodes :
  excludedFindingsRead sdk = Ok ex ->
  graphql_execute sdk = Resolved errors (Some nodes) ->
  noErrors errors ->
  selectedFindings sdk ex (sentFindingsCache b) nodes = [] ->
  checkAndSendFindings sdk b
  = (Ok tt, prunedBackend (Date_now sdk) b,
     pruneEffects (Date_now sdk) (sentFindingsCache b)).
Proof.
  intros Hex Hq Herr Hnew. unfold checkAndSendFindings, getExcludedFindings. rewrite Hex, Hq.
  unfold getSentFindings. unfold bind at 1 2. simpl.
  unfold bind at 1. rewrite prune_step_run.
  unfold selectedFindings in Hnew.
  destruct Herr as [-> | ->]; rewrite Hnew; simpl; by rewrite app_nil_r.
Qed.

Lemma check_selected sdk b ex errors nodes :
  excludedFindingsRead sdk = Ok ex ->
  graphql_execute sdk = Resolved errors (Some nodes) ->
  noErrors errors ->
  selectedFindings sdk ex (sentFindingsCache b) nodes <> [] ->
  let new := selectedFindings sdk ex (sentFindingsCache b) nodes in
  let updated := updatedSent sdk ex (sentFindingsCache b) nodes in
  let b' := set_sentFindingsCache updated b in
  let stored := pruneEffects (Date_now sdk) (sentFindingsCache b) ++ [SentFindingsStored updated] in
  checkAndSendFindings sdk b
  = match notifyIdsRead sdk with
    | Error e => (Error e, b', stored)
    | Ok config =>
        let dn := Js.or_else (defaultIds config) "" in
        let dt := default IdFlag (defaultIdsType config) in
        if Js.is_empty dn then (Error "No notify IDs configured", b', stored)
        else
          let thrown := rejectionOf sdk config dn dt (providerConfigPathOf sdk b) new in
          (fanoutResult thrown, b',
           stored ++ dispatchEffects sdk config dn dt (providerConfigPathOf sdk b) new
           ++ match thrown with
              | Some _ => []
              | None => [EventsEmit "findings-sent" (length new) (length updated)]
              end)
    end.
Proof.
  intros Hex Hq Herr Hnew new updated b' stored.
  assert (Hlen : bool_decide (length new = 0%nat) = false).
  { apply bool_decide_eq_false. intros H0. apply Hnew. by apply length_zero_iff_nil. }
  subst stored b' updated new. unfold updatedSent, selectedFindings in *. cbv zeta in *.
  unfold checkAndSendFindings, getExcludedFindings. rewrite Hex, Hq. cbv zeta.
  set (new := newFindings _ _ _) in *.
  pose proof (prune_step_run (Date_now sdk) b) as Hprune.
  set (cleaned := cleanedSentFindings _ _) in *.
  unfold getSentFindings. unfold bind at 1 2. unfold read at 1. unfold ret at 1.
  cbv beta iota. unfold bind at 1. fold cleaned. rewrite Hprune.
  assert (Hrest :
    (saveSentFindings (cleaned ++ newSentFindings new) ;;
     match getNotifyIds sdk with
     | Error e => ret (Error e)
     | Ok config =>
         if Js.is_empty (Js.or_else (defaultIds config) "")
         then ret (Error "No notify IDs configured")
         else
           let* useCustomResult := getUseCustomProviderConfig in
           let* sent :=
             dispatch sdk config (Js.or_else (defaultIds config) "")
               (default IdFlag (defaultIdsType config))
               (if match useCustomResult with Error _ => true | Ok v => v end
                then getProviderConfigFile sdk
                else getDefaultNotifyProviderConfigFile sdk) new in
           match sent with
           | Error message => ret (Error ("Failed to check findings: " +:+ message))
           | Ok _ =>
               perform (EventsEmit "findings-sent" (length (newSentFindings new))
                          (length (cleaned ++ newSentFindings new))) ;;
               ret (Ok tt)
           end
     end) (prunedBackend (Date_now sdk) b)
    = match notifyIdsRead sdk with
      | Error e =>
          (Error e, set_sentFindingsCache (cleaned ++ newSentFindings new) b,
           [SentFindingsStored (cleaned ++ newSentFindings new)])
      | Ok config =>
          if Js.is_empty (Js.or_else (defaultIds config) "")
          then (Error "No notify IDs configured",
                set_sentFindingsCache (cleaned ++ newSentFindings new) b,
                [SentFindingsStored (cleaned ++ newSentFindings new)])
          else (fanoutResult
                  (rejectionOf sdk config (Js.or_else (defaultIds config) "")
                     (default IdFlag (defaultIdsType config))
                     (providerConfigPathOf sdk b) new),
                set_sentFindingsCache (cleaned ++ newSentFindings new) b,
                [SentFindingsStored (cleaned ++ newSentFindings new)]
                ++ dispatchEffects sdk config (Js.or_else (defaultIds config) "")
                     (default IdFlag (defaultIdsType config))
                     (providerConfigPathOf sdk b) new
                ++ match rejectionOf sdk config (Js.or_else (defaultIds config) "")
                           (default IdFlag (defaultIdsType config))
                           (providerConfigPathOf sdk b) new with
                   | Some _ => []
                   | None => [EventsEmit "findings-sent" (length new)
                                (length (cleaned ++ newSentFindings new))]
                   end)
      end).
  { unfold saveSentFindings, getNotifyIds.
    unfold bind at 1 2 3. cbn [modify perform ret]. rewrite set_sent_pruned.
    destruct (notifyIdsRead sdk) as [e|config]; [done|].
    destruct (Js.is_empty (Js.or_else (defaultIds config) "")); [done|].
    unfold getUseCustomProviderConfig. unfold bind at 1 2 3. cbn [read ret].
    rewrite dispatch_run. unfold providerConfigPathOf.
    cbn [useCustomProviderConfigCache set_sentFindingsCache].
    destruct (rejectionOf _ _ _ _ _ _) as [message|]; unfold bind, perform, ret, fanoutResult.
    - by rewrite !app_nil_r.
    - unfold newSentFindings at 3. rewrite length_map. by rewrite !app_nil_r. }
  destruct Herr as [-> | ->]; fold new; rewrite Hlen, Hrest.
  all: destruct (notifyIdsRead sdk) as [e|config]; [by rewrite ?app_nil_l|].
  all: destruct (Js.is_empty (Js.or_else (defaultIds config) "")); [by rewrite ?app_nil_l|].
  all: by rewrite ?app_nil_l, <- ?app_assoc.
Qed.

(** ** Case folding *)

Lemma lower_ascii_same_letter (c d : ascii) :
  Js.lower_ascii c = Js.lower_ascii d <-> same_letter c d.
Proof.
  pose proof (nat_ascii_bounded c) as Hc. pose proof (nat_ascii_bounded d) as Hd.
  unfold Js.lower_ascii, same_letter, is_upper.
  destruct (Nat.leb_spec 65 (nat_of_ascii c)) as [H1|H1],
           (Nat.leb_spec (nat_of_ascii c) 90) as [H2|H2],
           (Nat.leb_spec 65 (nat_of_ascii d)) as [H3|H3],
           (Nat.leb_spec (nat_of_ascii d) 90) as [H4|H4];
    cbn [andb]; split; intros H.
  all: try (destruct H as [-> | [[Hu He] | [Hu He]]]; first [reflexivity | lia | idtac]).
  all: try (rewrite <- He; by rewrite ascii_nat_embedding).
  all: try (rewrite He; by rewrite ascii_nat_embedding).
  all: try (left; exact H).
  all: try (apply (f_equal nat_of_ascii) in H;
            rewrite ?nat_ascii_embedding in H by lia;
            first [ left; rewrite <- (ascii_nat_embedding c), <- (ascii_nat_embedding d);
                    f_equal; lia
                  | right; left; split; [lia | lia]
                  | right; right; split; [lia | lia] ]).
Qed.

Lemma eq_upto_case_fold (s t : string) :
  eq_upto_case s t <-> ascii_fold s = ascii_fold t.
Proof.
  split.
  - induction 1 as [|c d s t Hcd _ IH]; [done|].
    simpl. f_equal; [by apply lower_ascii_same_letter | exact IH].
  - revert t. induction s as [|c s IH]; intros [|d t] H; simpl in H; try discriminate.
    + constructor.
    + injection H as Hc Hs. constructor; [by apply lower_ascii_same_letter | by apply IH].
Qed.

Lemma same_letter_lower (c d : ascii) :
  same_letter c d ->
  Js.lower_latin1 c = Js.lower_latin1 d /\ Js.is_lead c = Js.is_lead d.
Proof.
  intros Hcd. pose proof (proj2 (lower_ascii_same_letter c d) Hcd) as Hlow.
  unfold Js.lower_latin1, Js.is_lead.
  destruct Hcd as [-> | [[Hu He] | [Hu He]]]; [done| |]; unfold is_upper in Hu.
  - rewrite He.
    replace ((128 <=? nat_of_ascii c)%nat) with false by (symmetry; apply Nat.leb_gt; lia).
    replace ((128 <=? nat_of_ascii c + 32)%nat) with false by (symmetry; apply Nat.leb_gt; lia).
    cbn [andb]. split; [exact Hlow|].
    replace ((nat_of_ascii c =? 195)%nat) with false by (symmetry; apply Nat.eqb_neq; lia).
    symmetry; apply Nat.eqb_neq; lia.
  - rewrite He.
    replace ((128 <=? nat_of_ascii d)%nat) with false by (symmetry; apply Nat.leb_gt; lia).
    replace ((128 <=? nat_of_ascii d + 32)%nat) with false by (symmetry; apply Nat.leb_gt; lia).
    cbn [andb]. split; [exact Hlow|].
    replace ((nat_of_ascii d =? 195)%nat) with false by (symmetry; apply Nat.eqb_neq; lia).
    apply Nat.eqb_neq; lia.
Qed.

(** Strings that are equal up to ASCII case have the same lower case. *)
Lemma eq_upto_case_lower (s t : string) :
  eq_upto_case s t -> Js.toLowerCase s = Js.toLowerCase t.
Proof.
  intros H. unfold Js.toLowerCase. generalize false.
  induction H as [|c d s t Hcd _ IH]; intros lead; [done|].
  destruct (same_letter_lower c d Hcd) as [Hlatin Hlead].
  cbn [Js.lower_from]. rewrite Hlead, IH. f_equal.
  destruct lead; [exact Hlatin|by apply lower_ascii_same_letter].
Qed.

(** ** The filter stage *)

Lemma keepFinding_true (excluded sentIds : gset string) (g : FindingWithTimestamp) :
  keepFinding excluded sentIds g = true
  <-> (getId g ∉ excluded) /\ (getReporter g ∉ excluded) /\ (getId g ∉ sentIds).
Proof.
  unfold keepFinding. rewrite !andb_true_iff, !negb_true_iff, !bool_decide_eq_false. tauto.
Qed.

Lemma elem_of_cleaned (now : Z) (sent : list SentFinding) (e : SentFinding) :
  e ∈ cleanedSentFindings now sent <-> timestamp e > now - 3600000 /\ e ∈ sent.
Proof. unfold cleanedSentFindings, oneHourAgo. rewrite list_elem_of_filter. by replace (60 * 60 * 1000) with 3600000 by lia. Qed.

Lemma elem_of_finalSentIds (cleaned : list SentFinding) (i : string) :
  i ∈ finalSentIds cleaned <-> exists e, e ∈ cleaned /\ findingId e = i.
Proof.
  unfold finalSentIds. rewrite elem_of_list_to_set, list_elem_of_fmap.
  split; [intros (e & -> & He) | intros (e & He & <-)]; by exists e.
Qed.

Lemma elem_of_selected sdk ex sent nodes (g : FindingWithTimestamp) :
  g ∈ selectedFindings sdk ex sent nodes
  <-> (exists f, f ∈ nodes /\ g = toFinding sdk (Date_now sdk) f)
      /\ getTimestamp g > Date_now sdk - 3600000
      /\ (getId g ∉ ex) /\ (getReporter g ∉ ex)
      /\ (forall e, e ∈ sent -> timestamp e > Date_now sdk - 3600000 -> findingId e <> getId g).
Proof.
  unfold selectedFindings, newFindings, recentFindings, allFindings. cbv zeta.
  rewrite !list_elem_of_filter, keepFinding_true, !elem_of_list_to_set, list_elem_of_fmap.
  rewrite elem_of_finalSentIds. unfold oneHourAgo.
  replace (60 * 60 * 1000) with 3600000 by lia.
  split.
  - intros ((Hid & Hrep & Hsent) & Hts & f & -> & Hf). repeat split; eauto.
    intros e He Hte Heq. apply Hsent. exists e. split; [|done]. apply elem_of_cleaned. done.
  - intros ((f & Hf & ->) & Hts & Hid & Hrep & Hsent). repeat split; eauto.
    intros (e & He & Heq). apply elem_of_cleaned in He as [Hte He]. by apply (Hsent e).
Qed.

Lemma selected_sublist sdk ex sent nodes :
  selectedFindings sdk ex sent nodes `sublist_of` allFindings sdk (Date_now sdk) nodes.
Proof.
  unfold selectedFindings, newFindings, recentFindings. cbv zeta.
  etrans; apply sublist_filter.
Qed.

(** ** Summary of a run *)

Lemma graphql_cases (g : GraphqlOutcome) :
  queryFails g
  \/ (exists errors, g = Resolved errors None /\ noErrors errors)
  \/ (exists errors nodes, g = Resolved errors (Some nodes) /\ noErrors errors).
Proof.
  destruct g as [m|[[|e errors]|] [nodes|]]; simpl; unfold noErrors; eauto 7.
Qed.

Lemma queryFails_not_resolved (errors : option (list string)) (nodes : option (list Node)) :
  noErrors errors -> ~ queryFails (Resolved errors nodes).
Proof. intros [-> | ->] H; exact H. Qed.

Lemma elem_of_dispatchEffects sdk config dn dt path new (e : Effect) :
  e ∈ dispatchEffects sdk config dn dt path new ->
  (exists cmd args stdin, e = SpawnProc cmd args stdin) \/ (exists args, e = ConsoleError args).
Proof.
  unfold dispatchEffects. rewrite elem_of_app, list_elem_of_fmap.
  intros [(entry & -> & _) | He]; [left; unfold spawnOf; eauto|].
  destruct (rejectionOf _ _ _ _ _ _); [by apply elem_of_nil in He|].
  apply list_elem_of_In, in_flat_map in He as (pending & _ & He).
  right. apply list_elem_of_In in He. unfold settleEffects in He.
  destruct pending as [reporter [code err| msg | | msg]]; simpl in He.
  - unfold settleSend in He. destruct (bool_decide (code = Some 0)); simpl in He.
    + by apply elem_of_nil in He.
    + apply list_elem_of_singleton in He. eauto.
  - apply list_elem_of_singleton in He. eauto.
  - by apply elem_of_nil in He.
  - by apply elem_of_nil in He.
Qed.

Lemma elem_of_pruneEffects now sent (e : Effect) :
  e ∈ pruneEffects now sent -> e = SentFindingsStored (cleanedSentFindings now sent).
Proof.
  unfold pruneEffects. case_bool_decide; intros He.
  - by apply list_elem_of_singleton in He.
  - by apply elem_of_nil in He.
Qed.

(** Where a run that could read the exclusion list leaves the sent-log, and
    which logs it wrote on the way. *)
Lemma check_sent_log sdk b ex :
  excludedFindingsRead sdk = Ok ex ->
  let r := checkAndSendFindings sdk b in
  let pruned := cleanedSentFindings (Date_now sdk) (sentFindingsCache b) in
  exists new,
    new `sublist_of` allFindings sdk (Date_now sdk)
                      (match graphql_execute sdk with
                       | Resolved _ (Some nodes) => nodes
                       | _ => []
                       end)
    /\ (forall g, g ∈ new -> getTimestamp g > Date_now sdk - 3600000)
    /\ sentFindingsCache (state_of r) = pruned ++ newSentFindings new
    /\ (forall log, SentFindingsStored log ∈ trace_of r ->
          log = pruned \/ log = pruned ++ newSentFindings new).
Proof.
  intros Hex r pruned. subst r.
  destruct (graphql_cases (graphql_execute sdk))
    as [Hq | [(errors & Hq & Herr) | (errors & nodes & Hq & Herr)]].
  - destruct (check_query_fails sdk b ex Hex Hq) as (msg & log & -> & Hlog).
    exists []. cbn. rewrite prunedBackend_cache, app_nil_r.
    split; [apply sublist_nil_l|]. split; [by intros g Hg; apply elem_of_nil in Hg|].
    split; [done|]. intros l Hl. left.
    apply elem_of_app in Hl as [Hl|Hl]; [apply elem_of_pruneEffects in Hl; by injection Hl|].
    rewrite Forall_forall in Hlog. destruct (Hlog _ Hl) as [args Hargs]. discriminate.
  - rewrite (check_no_nodes sdk b ex errors Hex Hq Herr).
    exists []. cbn. rewrite prunedBackend_cache, app_nil_r.
    split; [apply sublist_nil_l|]. split; [by intros g Hg; apply elem_of_nil in Hg|].
    split; [done|]. intros l Hl. left.
    apply elem_of_pruneEffects in Hl. by injection Hl.
  - rewrite Hq.
    destruct (decide (selectedFindings sdk ex (sentFindingsCache b) nodes = [])) as [Hnil|Hne].
    + rewrite (check_none_new sdk b ex errors nodes Hex Hq Herr Hnil).
      exists []. cbn. rewrite prunedBackend_cache, app_nil_r.
      split; [apply sublist_nil_l|]. split; [by intros g Hg; apply elem_of_nil in Hg|].
      split; [done|]. intros l Hl. left.
      apply elem_of_pruneEffects in Hl. by injection Hl.
    + exists (selectedFindings sdk ex (sentFindingsCache b) nodes).
      split; [apply selected_sublist|].
      split; [intros g Hg; by apply elem_of_selected in Hg as (_ & Hts & _)|].
      rewrite (check_selected sdk b ex errors nodes Hex Hq Herr Hne). cbv zeta.
      fold (updatedSent sdk ex (sentFindingsCache b) nodes).
      assert (Hstored : forall l,
        SentFindingsStored l ∈ pruneEffects (Date_now sdk) (sentFindingsCache b)
                               ++ [SentFindingsStored (updatedSent sdk ex (sentFindingsCache b) nodes)] ->
        l = pruned \/ l = updatedSent sdk ex (sentFindingsCache b) nodes).
      { intros l Hl. apply elem_of_app in Hl as [Hl|Hl].
        - left. apply elem_of_pruneEffects in Hl. by injection Hl.
        - right. apply list_elem_of_singleton in Hl. by injection Hl. }
      destruct (notifyIdsRead sdk) as [e|config]; [by split|].
      destruct (Js.is_empty (Js.or_else (defaultIds config) "")); [by split|].
      split; [done|]. cbn. intros l Hl.
      rewrite app_assoc in Hl. apply elem_of_app in Hl as [Hl|Hl].
      * apply elem_of_app in Hl as [Hl|Hl]; [by apply Hstored|].
        apply elem_of_dispatchEffects in Hl as [(c & a & i & Hl)|(a & Hl)]; discriminate.
      * destruct (rejectionOf _ _ _ _ _ _); [by apply elem_of_nil in Hl|].
        apply list_elem_of_singleton in Hl. discriminate.
Qed.

(** ** Lookup in records *)



Lemma get_of_key {V : Type} (r : list (string * V)) (k : string) :
  k ∈ Js.keys r -> exists v, Js.get r k = Some v /\ (k, v) ∈ r.
Proof.
  induction r as [|[k' v'] r IH]; simpl; [by intros H; apply elem_of_nil in H|].
  intros Hk. destruct (String.eqb_spec k' k) as [->|Hne].
  - exists v'. split; [done|by left].
  - apply elem_of_cons in Hk as [Hk|Hk]; [by symmetry in Hk|].
    destruct (IH Hk) as (v & Hget & Hin). exists v. split; [done|by right].
Qed.

Lemma filter_id_iff {A : Type} (P : A -> Prop) `{forall x, Decision (P x)} (l : list A) :
  filter P l = l <-> forall x, x ∈ l -> P x.
Proof.
  split; [|apply filter_all].
  intros Heq x Hx. rewrite <- Heq in Hx. by apply list_elem_of_filter in Hx as [HP _].
Qed.

(** ** Which effects of a run are invocations *)

Lemma spawns_of_pruneEffects now sent :
  filter (fun e => is_spawn e = true) (pruneEffects now sent) = [].
Proof. unfold pruneEffects. by case_bool_decide. Qed.

Lemma spawns_of_settleEffects (pendings : list (string * ProcOutcome)) :
  filter (fun e => is_spawn e = true) (flat_map settleEffects pendings) = [].
Proof.
  induction pendings as [|[reporter [code err| msg | | msg]] ps IH]; simpl; try done.
  unfold settleEffects, settleSend at 1.
  destruct (bool_decide (code = Some 0)); simpl; [done|].
  by rewrite filter_cons_False.
Qed.

Lemma spawns_of_dispatchEffects sdk config dn dt path new :
  filter (fun e => is_spawn e = true) (dispatchEffects sdk config dn dt path new)
  = map (spawnOf config dn dt path) (findingsByReporter new).
Proof.
  unfold dispatchEffects. rewrite filter_app.
  replace (filter _ (match rejectionOf sdk config dn dt path new with
                     | Some _ => []
                     | None => _
                     end)) with (@nil Effect)
    by (destruct (rejectionOf _ _ _ _ _ _); [done|by rewrite spawns_of_settleEffects]).
  rewrite app_nil_r.
  apply filter_all. intros e (entry & -> & _)%list_elem_of_fmap. reflexivity.
Qed.

(** ** Projections of a bind *)

Lemma result_of_bind {St A B : Type} (m : ST St A) (k : A -> ST St B) (b : St) :
  result_of (bind m k b) = result_of (k (result_of (m b)) (state_of (m b))).
Proof. unfold bind. destruct (m b) as [[a b1] t1]. cbn. by destruct (k a b1) as [[r b2] t2]. Qed.

Lemma state_of_bind {St A B : Type} (m : ST St A) (k : A -> ST St B) (b : St) :
  state_of (bind m k b) = state_of (k (result_of (m b)) (state_of (m b))).
Proof. unfold bind. destruct (m b) as [[a b1] t1]. cbn. by destruct (k a b1) as [[r b2] t2]. Qed.

Lemma trace_of_bind {St A B : Type} (m : ST St A) (k : A -> ST St B) (b : St) :
  trace_of (bind m k b)
  = trace_of (m b) ++ trace_of (k (result_of (m b)) (state_of (m b))).
Proof. unfold bind. destruct (m b) as [[a b1] t1]. cbn. by destruct (k a b1) as [[r b2] t2]. Qed.

(** ** The database-backed run up to its configuration check *)

Lemma Db_saveSentFindings_no_spawn env sent d :
  filter (fun e => is_spawn e = true) (trace_of (Db.saveSentFindings env sent d)) = [].
Proof. unfold Db.saveSentFindings. by destruct (Db.dbError env "sent-findings" true). Qed.

Lemma Db_getProviderConfig_error env d e :
  result_of (Db.getProviderConfig env d) = Error e -> e <> "No notify IDs configured".
Proof.
  unfold Db.getProviderConfig, Db.getUseCustomProviderConfig, Db.getProviderConfigFromDb,
    Db.saveProviderConfigToDb.
  destruct d as [sentRow [[|]|] [[|chr rest]|]].
  all: destruct (Db.dbError env "use-custom-provider-config" false).
  all: destruct (Db.dbError env "custom-provider-config" false).
  all: destruct (Db.dbError env "custom-provider-config" true).
  all: destruct (Db.defaultProviderFile env).
  all: cbn; intros H; try discriminate H.
  all: injection H as H; subst e; intros Habs; cbv in Habs; discriminate Habs.
Qed.

Lemma Db_check_guard sdk env d ex errors nodes config :
  excludedFindingsRead sdk = Ok ex ->
  Db.dbError env "sent-findings" false = None ->
  graphql_execute sdk = Resolved errors (Some nodes) ->
  noErrors errors ->
  selectedFindings sdk ex (default [] (Db.sentFindingsRow d)) nodes <> [] ->
  notifyIdsRead sdk = Ok config ->
  let r := Db.checkAndSendFindings sdk env d in
  (Js.is_empty (Js.or_else (defaultIds config) "") = true ->
     result_of r = Error "No notify IDs configured"
     /\ filter (fun e => is_spawn e = true) (trace_of r) = [])
  /\ (Js.is_empty (Js.or_else (defaultIds config) "") = false ->
      result_of r <> Error "No notify IDs configured").
Proof.
  intros Hex Hread Hq Herr Hnew Hcfg r. subst r.
  assert (Hlen : bool_decide (length (selectedFindings sdk ex
                   (default [] (Db.sentFindingsRow d)) nodes) = 0%nat) = false).
  { apply bool_decide_eq_false. intros H0. apply Hnew. by apply length_zero_iff_nil. }
  unfold selectedFindings in Hlen. cbv zeta in Hlen.
  unfold Db.checkAndSendFindings, getExcludedFindings, getNotifyIds.
  rewrite Hex, Hq, Hcfg. cbv zeta.
  unfold Db.getSentFindings. rewrite Hread.
  set (sent := default [] (Db.sentFindingsRow d)) in *.
  assert (Herrors : errors = None \/ errors = Some []) by exact Herr.
  destruct Herrors as [-> | ->].
  all: cbv beta iota zeta delta [bind read ret perform modify].
  all: fold sent.
  all: set (cleaned := cleanedSentFindings (Date_now sdk) sent) in *.
  all: set (new := newFindings _ _ _) in *.
  all: rewrite Hlen.
  all: destruct ((if bool_decide (length cleaned ≠ length sent)
                  then Db.saveSentFindings env cleaned
                  else fun b => (Ok (), b, [])) d) as [[r1 d1] t1] eqn:Hprune.
  all: assert (Ht1 : filter (fun e => is_spawn e = true) t1 = [])
         by (destruct (bool_decide (length cleaned ≠ length sent));
             [ pose proof (Db_saveSentFindings_no_spawn env cleaned d) as Hs;
               by rewrite Hprune in Hs
             | by injection Hprune as _ _ <- ]).
  all: destruct (Db.saveSentFindings env (cleaned ++ newSentFindings new) d1)
         as [[r2 d2] t2] eqn:Hsave.
  all: assert (Ht2 : filter (fun e => is_spawn e = true) t2 = [])
         by (pose proof (Db_saveSentFindings_no_spawn env (cleaned ++ newSentFindings new) d1)
               as Hs; by rewrite Hsave in Hs).
  all: split; intros Hdef; rewrite Hdef.
  1, 3: by (cbn; rewrite !filter_app, Ht1, Ht2).
  all: pose proof (Db_getProviderConfig_error env d2) as Hgpc.
  all: destruct (Db.getProviderConfig env d2) as [[[e|content] d3] t3];
         [cbn; intros [= ->]; by apply (Hgpc _ eq_refl)|].
  all: unfold Db.ensureConfigDir.
  all: destruct (Db.mkdirError env); [cbn; discriminate|].
  all: destruct (Db.writeFileError env); [cbn; discriminate|].
  all: cbv beta iota zeta delta [bind ret perform].
  all: rewrite dispatch_run; destruct (rejectionOf _ _ _ _ _ _); cbn; discriminate.
Qed.

(** ** Timestamps and the two runs *)

Lemma findingTimestamp_parsed sdk now f :
  findingTimestamp sdk now f = default now (parsedCreatedAt sdk f).
Proof.
  unfold findingTimestamp, parsedCreatedAt.
  destruct (createdAt f) as [[|c s]|]; [done| |done].
  by destruct (dateParse sdk (String c s)).
Qed.

Lemma newSentFindings_entries (new : list FindingWithTimestamp) :
  newSentFindings new = map entryOf new.
Proof. reflexivity. Qed.

(** A run that selects something stores the updated log, and does so
    before it starts any process. *)
Lemma check_selected_stores sdk b ex errors nodes :
  excludedFindingsRead sdk = Ok ex ->
  graphql_execute sdk = Resolved errors (Some nodes) ->
  noErrors errors ->
  selectedFindings sdk ex (sentFindingsCache b) nodes <> [] ->
  let r := checkAndSendFindings sdk b in
  let updated := updatedSent sdk ex (sentFindingsCache b) nodes in
  sentFindingsCache (state_of r) = updated
  /\ exists post,
       trace_of r
       = pruneEffects (Date_now sdk) (sentFindingsCache b) ++ SentFindingsStored updated :: post.
Proof.
  intros Hex Hq Herr Hnew r updated. subst r.
  rewrite (check_selected sdk b ex errors nodes Hex Hq Herr Hnew). cbv zeta.
  fold updated.
  destruct (notifyIdsRead sdk) as [e|config]; [split; [done|by exists []]|].
  destruct (Js.is_empty (Js.or_else (defaultIds config) "")); [split; [done|by exists []]|].
  split; [done|]. eexists. cbn [trace_of snd]. rewrite <- app_assoc. reflexivity.
Qed.

(** A finding whose sent-log entry carries the timestamp that the finding
    has in the present run is not selected: either the entry is still in
    the window and masks it, or the finding itself is too old. *)
Lemma not_selected_again sdk ex (log : list SentFinding) nodes f (e : SentFinding) :
  e ∈ log ->
  findingId e = id f ->
  timestamp e = findingTimestamp sdk (Date_now sdk) f ->
  toFinding sdk (Date_now sdk) f ∉ selectedFindings sdk ex log nodes.
Proof.
  intros He Hid Hts Hsel.
  apply elem_of_selected in Hsel as (_ & Hrecent & _ & _ & Hsent).
  simpl in Hrecent, Hsent. apply (Hsent e He); [by rewrite Hts|done].
Qed.

(** An entry that is still in the window masks every finding with its
    identifier. *)
Lemma masked_by_entry sdk ex (log : list SentFinding) nodes (e : SentFinding) g :
  e ∈ log ->
  timestamp e > Date_now sdk - 3600000 ->
  g ∈ selectedFindings sdk ex log nodes ->
  getId g <> findingId e.
Proof.
  intros He Hts Hsel Heq.
  apply elem_of_selected in Hsel as (_ & _ & _ & _ & Hsent).
  by apply (Hsent e He Hts).
Qed.

(** ** Grouping by reporter *)

Lemma set_elem_same {V : Type} (m : list (string * V)) (k : string) (v : V) :
  (k, v) ∈ Js.set m k v.
Proof.
  induction m as [|[k' v'] m IH]; simpl; [by left|].
  destruct (String.eqb_spec k' k) as [->|Hne]; [by left|by right].
Qed.

Lemma set_elem_other {V : Type} (m : list (string * V)) (k k' : string) (v v' : V) :
  k' <> k -> (k', v') ∈ m -> (k', v') ∈ Js.set m k v.
Proof.
  intros Hne. induction m as [|[k0 v0] m IH]; simpl; [by intros H; apply elem_of_nil in H|].
  intros [Heq|Hin]%elem_of_cons.
  - injection Heq as <- <-. destruct (String.eqb_spec k' k) as [->|_]; [done|by left].
  - destruct (String.eqb_spec k0 k); right; [|by apply IH].
    done.
Qed.

Lemma keys_set {V : Type} (m : list (string * V)) (k : string) (v : V) :
  Js.keys (Js.set m k v) = if bool_decide (k ∈ Js.keys m) then Js.keys m else Js.keys m ++ [k].
Proof.
  induction m as [|[k' v'] m IH].
  - case_bool_decide as Hin; [by apply elem_of_nil in Hin|done].
  - cbn [Js.set Js.keys map fst]. destruct (String.eqb_spec k' k) as [->|Hne].
    + clear IH. rewrite bool_decide_eq_true_2 by (by left). done.
    + cbn [map fst]. fold (Js.keys (Js.set m k v)). rewrite IH.
      fold (Js.keys m).
      destruct (decide (k ∈ Js.keys m)) as [Hin|Hin].
      * rewrite !bool_decide_eq_true_2; [done| by right | done].
      * rewrite !bool_decide_eq_false_2; [done| | done].
        intros [Heq|Hin']%elem_of_cons; [by symmetry in Heq|done].
Qed.

Lemma get_NoDup {V : Type} (m : list (string * V)) (k : string) (v : V) :
  NoDup (Js.keys m) -> (k, v) ∈ m -> Js.get m k = Some v.
Proof.
  induction m as [|[k' v'] m IH]; simpl; [by intros _ H; apply elem_of_nil in H|].
  intros [Hnotin Hnd]%NoDup_cons [Heq|Hin]%elem_of_cons.
  - injection Heq as <- <-. by rewrite String.eqb_refl.
  - destruct (String.eqb_spec k' k) as [->|Hne]; [|by apply IH].
    exfalso. apply Hnotin. apply list_elem_of_fmap. by exists (k, v).
Qed.

(** Every finding lands in the group of its reporter. *)
Lemma findingsByReporter_covers (new : list FindingWithTimestamp) (g : FindingWithTimestamp) :
  g ∈ new ->
  exists entry, entry ∈ findingsByReporter new /\ entry.1 = getReporter g /\ g ∈ entry.2.
Proof.
  unfold findingsByReporter.
  set (step := fun (m : list (string * list FindingWithTimestamp)) finding =>
                 Js.set m (getReporter finding)
                   (default [] (Js.get m (getReporter finding)) ++ [finding])).
  assert (Hinv : forall l m,
            NoDup (Js.keys m) ->
            NoDup (Js.keys (foldl step m l))
            /\ (forall x, (x ∈ l \/ exists entry, entry ∈ m /\ entry.1 = getReporter x /\ x ∈ entry.2) ->
                  exists entry, entry ∈ foldl step m l /\ entry.1 = getReporter x /\ x ∈ entry.2)).
  { induction l as [|y l IH]; intros m Hnd; simpl.
    - split; [done|]. intros x [Hx|Hx]; [by apply elem_of_nil in Hx|done].
    - assert (Hnd' : NoDup (Js.keys (step m y))).
      { unfold step. rewrite keys_set. case_bool_decide as Hin; [done|].
        apply NoDup_app. split; [done|]. split; [|apply NoDup_singleton].
        intros k Hk ->%list_elem_of_singleton. done. }
      destruct (IH (step m y) Hnd') as [Hnd'' Hcov]. split; [done|].
      assert (Hy : exists entry, entry ∈ step m y /\ entry.1 = getReporter y /\ y ∈ entry.2).
      { eexists (_, _). split; [apply set_elem_same|]. split; [done|].
        apply elem_of_app. right. by left. }
      intros x [[->|Hx]%elem_of_cons | ([k v] & Hin & Hk & Hv)]; apply Hcov;
        [by right|by left|right].
      simpl in Hk, Hv. subst k.
      destruct (decide (getReporter x = getReporter y)) as [Heq|Hne].
      + exists (getReporter y, default [] (Js.get m (getReporter y)) ++ [y]).
        split; [apply set_elem_same|]. split; [done|].
        rewrite Heq in Hin. rewrite (get_NoDup m _ v Hnd Hin). simpl.
        apply elem_of_app. by left.
      + exists (getReporter x, v). split; [by apply set_elem_other|done]. }
  intros Hg. apply (Hinv new []); [apply NoDup_nil_2|by left].
Qed.

(** ** Which effects of a run are events *)

Lemma emit_free_pruneEffects now sent :
  filter (fun e => is_emit e = true) (pruneEffects now sent) = [].
Proof. unfold pruneEffects. by case_bool_decide. Qed.

Lemma emit_free_dispatchEffects sdk config dn dt path new :
  filter (fun e => is_emit e = true) (dispatchEffects sdk config dn dt path new) = [].
Proof.
  destruct (filter _ _) as [|e l] eqn:Hf; [done|]. exfalso.
  assert (He : e ∈ filter (fun e => is_emit e = true)
                      (dispatchEffects sdk config dn dt path new)) by (rewrite Hf; by left).
  apply list_elem_of_filter in He as [Hemit He].
  by apply elem_of_dispatchEffects in He as [(c & a & i & ->)|(a & ->)].
Qed.


(** * The claims *)

(** C1 (evaluation of the code at the input on which it departs from the
    claim). The exclusion list holds "Enhanced File Detector"; the only
    finding is recent, unsent and reported by "enhanced file detector",
    which equals the entry up to ASCII case. The filter compares the
    reporter with [Set.has], that is exactly, so the finding is kept,
    stored in the sent-log and dispatched. An entry equal to the
    reporter, or to the finding identifier, does exclude it; an entry
    that differs from the identifier in case does not. *)
Theorem C1_reporter_exclusion_compares_exactly :
  let f := Sample.node "f1" "enhanced file detector" (Some "2024-01-01T00:50:00.000Z") in
  let cfg := Sample.config (Some "general") None None in
  let sdk excluded :=
    Sample.sdk Sample.now excluded cfg (Resolved None (Some [f])) (Close (Some 0) "") in
  let run excluded := checkAndSendFindings (sdk excluded) (Sample.backend []) in
  let kept := toFinding (sdk ["Enhanced File Detector"]) Sample.now f in
  eq_upto_case "Enhanced File Detector" (reporter f)
  /\ selectedFindings (sdk ["Enhanced File Detector"]) ["Enhanced File Detector"] [] [f]
     = [kept]
  /\ filter (fun e => is_spawn e = true) (trace_of (run ["Enhanced File Detector"]))
     = [SpawnProc "notify" ["-provider-config"; Sample.path; "-id"; "general"; "-bulk"]
          (bulkMessage "enhanced file detector" [kept])]
  /\ sentFindingsCache (state_of (run ["Enhanced File Detector"]))
     = [{| findingId := "f1"; timestamp := 1704070200000 |}]
  /\ trace_of (run ["enhanced file detector"]) = []
  /\ trace_of (run ["f1"]) = []
  /\ filter (fun e => is_spawn e = true) (trace_of (run ["F1"]))
     = filter (fun e => is_spawn e = true) (trace_of (run ["Enhanced File Detector"])).
Proof.
  cbv zeta. split; [by apply eq_upto_case_fold|].
  repeat split; vm_compute; reflexivity.
Qed.

(** C2 (counterexample). No default destination is configured; the only
    reporter group, R1, has a per-reporter override. Both variants of the
    run fail with "No notify IDs configured" although an override applies
    to every group being dispatched. *)
Lemma C2_counterexample :
  let cfg := Sample.config None (Some [("R1", "r1-alerts")]) None in
  let sdk := Sample.sdk Sample.now [] cfg (Resolved None (Some [Sample.f1]))
               (Close (Some 0) "") in
  findingsByReporter (selectedFindings sdk [] [] [Sample.f1])
  = [("R1", [toFinding sdk Sample.now Sample.f1])]
  /\ resolveNotifyIds cfg "" IdFlag "R1" = ("r1-alerts", IdFlag)
  /\ result_of (checkAndSendFindings sdk (Sample.backend []))
     = Error "No notify IDs configured"
  /\ result_of (Db.checkAndSendFindings sdk Sample.env Sample.database)
     = Error "No notify IDs configured".
Proof. cbv zeta. repeat split; vm_compute; reflexivity. Qed.

(** C2 (amended). In a run that has findings to send and could read the
    configuration, the result is the error "No notify IDs configured" if
    and only if the default destination is empty (absent or the empty
    string), whether or not per-reporter overrides are configured. When
    the run fails in this way no notifier process has been started. This
    holds for the cache-backed run and for the database-backed run. *)
Theorem C2_no_notify_ids_iff_default_destination_empty sdk (ex : list string)
    (errors : option (list string)) (nodes : list Node) (config : NotifyConfig) :
  excludedFindingsRead sdk = Ok ex ->
  graphql_execute sdk = Resolved errors (Some nodes) ->
  noErrors errors ->
  notifyIdsRead sdk = Ok config ->
  (Js.or_else (defaultIds config) "" = ""
   <-> defaultIds config = None \/ defaultIds config = Some "")
  /\ (forall b : Backend,
        selectedFindings sdk ex (sentFindingsCache b) nodes <> [] ->
        let r := checkAndSendFindings sdk b in
        (result_of r = Error "No notify IDs configured"
         <-> Js.or_else (defaultIds config) "" = "")
        /\ (result_of r = Error "No notify IDs configured" ->
            filter (fun e => is_spawn e = true) (trace_of r) = []))
  /\ (forall (env : Db.Env) (d : Db.Database),
        Db.dbError env "sent-findings" false = None ->
        selectedFindings sdk ex (default [] (Db.sentFindingsRow d)) nodes <> [] ->
        let r := Db.checkAndSendFindings sdk env d in
        (result_of r = Error "No notify IDs configured"
         <-> Js.or_else (defaultIds config) "" = "")
        /\ (result_of r = Error "No notify IDs configured" ->
            filter (fun e => is_spawn e = true) (trace_of r) = [])).
Proof.
  intros Hex Hq Herr Hcfg.
  assert (Hempty : forall s, Js.is_empty s = true <-> s = "").
  { intros [|c s]; simpl; split; intros H; done. }
  split; [|split].
  - destruct (defaultIds config) as [[|c s]|]; simpl; split; intros H; try done.
    + by right.
    + by destruct H.
    + by left.
  - intros b Hnew r. subst r.
    rewrite (check_selected sdk b ex errors nodes Hex Hq Herr Hnew). cbv zeta. rewrite Hcfg.
    rewrite <- Hempty.
    destruct (Js.is_empty (Js.or_else (defaultIds config) "")); cbn [result_of trace_of fst snd].
    + split; [done|]. intros _.
      rewrite filter_app, spawns_of_pruneEffects. by rewrite filter_cons_False.
    + destruct (rejectionOf _ _ _ _ _ _); cbn [fanoutResult result_of fst].
      all: split; [split; intros H; cbv in H; discriminate H|intros H; cbv in H; discriminate H].
  - intros env d Hread Hnew r. subst r.
    destruct (Db_check_guard sdk env d ex errors nodes config Hex Hread Hq Herr Hnew Hcfg)
      as [Htrue Hfalse].
    rewrite <- Hempty.
    destruct (Js.is_empty (Js.or_else (defaultIds config) "")).
    + destruct (Htrue eq_refl) as [Hres Htrace]. by rewrite Hres.
    + specialize (Hfalse eq_refl). split; [split; [done|discriminate]|done].
Qed.

(** C2, at an input: the default destination is the empty string and the
    only group has an override. *)
Lemma C2_witness :
  let cfg := Sample.config (Some "") (Some [("R1", "r1-alerts")]) None in
  let sdk := Sample.sdk Sample.now [] cfg (Resolved None (Some [Sample.f1]))
               (Close (Some 0) "") in
  let r := checkAndSendFindings sdk (Sample.backend []) in
  (result_of r = Error "No notify IDs configured"
   <-> Js.or_else (defaultIds cfg) "" = "")
  /\ (result_of r = Error "No notify IDs configured" ->
      filter (fun e => is_spawn e = true) (trace_of r) = []).
Proof.
  cbv zeta.
  refine (proj1 (proj2 (C2_no_notify_ids_iff_default_destination_empty
            (Sample.sdk Sample.now [] (Sample.config (Some "") (Some [("R1", "r1-alerts")]) None)
               (Resolved None (Some [Sample.f1])) (Close (Some 0) ""))
            [] None [Sample.f1]
            (Sample.config (Some "") (Some [("R1", "r1-alerts")]) None)
            eq_refl eq_refl (or_introl eq_refl) eq_refl))
          (Sample.backend []) _).
  vm_compute. discriminate.
Defined.

(** C3 (counterexample). One finding, one reporter group. The notifier
    process cannot be started: the [error] handler resolves the promise of
    the group with an error value. The run still returns success. *)
Lemma C3_counterexample :
  let sdk := Sample.sdk Sample.now [] (Sample.config (Some "general") None None)
               (Resolved None (Some [Sample.f1])) (ProcError "spawn notify ENOENT") in
  let r := checkAndSendFindings sdk (Sample.backend []) in
  let args := ["-provider-config"; Sample.path; "-id"; "general"; "-bulk"] in
  let message := bulkMessage "R1" [toFinding sdk Sample.now Sample.f1] in
  filter (fun e => is_spawn e = true) (trace_of r) = [SpawnProc "notify" args message]
  /\ child_process sdk args message = ProcError "spawn notify ENOENT"
  /\ settleValue ("R1", child_process sdk args message)
     = Error "Failed to execute notify: spawn notify ENOENT"
  /\ result_of r = Ok tt.
Proof. cbv zeta. repeat split; vm_compute; reflexivity. Qed.

(** C3 (amended). In a run that reaches the fan-out, [spawn] is called
    once for every group, in group order, whatever happens to the others,
    and no fate of a notifier process makes the overall result an error:
    a group whose process closes, with any exit code, or does not answer
    within the watchdog delay resolves to success; a group whose process
    cannot be started (its [error] event) resolves to an error value,
    which the run discards; a non-zero exit and an [error] event are
    logged. The run fails after the fan-out only when a call of [spawn]
    itself throws: it then returns "Failed to check findings: " followed
    by the message of the first call that threw, and emits no event; it
    returns success in every other case. *)
Theorem C3_only_a_throwing_spawn_fails_the_run sdk (b : Backend) (ex : list string)
    (errors : option (list string)) (nodes : list Node) (config : NotifyConfig) :
  excludedFindingsRead sdk = Ok ex ->
  graphql_execute sdk = Resolved errors (Some nodes) ->
  noErrors errors ->
  selectedFindings sdk ex (sentFindingsCache b) nodes <> [] ->
  notifyIdsRead sdk = Ok config ->
  Js.is_empty (Js.or_else (defaultIds config) "") = false ->
  let r := checkAndSendFindings sdk b in
  let groups := findingsByReporter (selectedFindings sdk ex (sentFindingsCache b) nodes) in
  let fates :=
    map (pendingOf sdk config (Js.or_else (defaultIds config) "")
           (default IdFlag (defaultIdsType config)) (providerConfigPathOf sdk b)) groups in
  filter (fun e => is_spawn e = true) (trace_of r)
  = map (spawnOf config (Js.or_else (defaultIds config) "")
           (default IdFlag (defaultIdsType config)) (providerConfigPathOf sdk b)) groups
  /\ (result_of r = Ok tt <-> rejection fates = None)
  /\ (rejection fates = None
      <-> forall reporter message, (reporter, SpawnThrows message) ∉ fates)
  /\ (forall message,
        rejection fates = Some message ->
        result_of r = Error ("Failed to check findings: " +:+ message)
        /\ (exists reporter, (reporter, SpawnThrows message) ∈ fates)
        /\ filter (fun e => is_emit e = true) (trace_of r) = [])
  /\ (rejection fates = None ->
      (forall reporter message,
         (reporter, ProcError message) ∈ fates ->
         ConsoleError ["Notify process error for reporter " +:+ Js.dq +:+ reporter +:+ Js.dq
                       +:+ ": " +:+ message] ∈ trace_of r)
      /\ (forall reporter code errorOutput,
            (reporter, Close code errorOutput) ∈ fates -> code <> Some 0 ->
            ConsoleError ["Notify command failed for reporter " +:+ Js.dq +:+ reporter +:+ Js.dq
                          +:+ " with code " +:+ codeToString code +:+ ": " +:+ errorOutput]
            ∈ trace_of r))
  /\ (forall reporter : string,
        settleValue (reporter, Hang) = Ok tt
        /\ (forall code errorOutput, settleValue (reporter, Close code errorOutput) = Ok tt)
        /\ (forall message,
              settleValue (reporter, ProcError message)
              = Error ("Failed to execute notify: " +:+ message))).
Proof.
  intros Hex Hq Herr Hnew Hcfg Hdef r groups fates. subst r.
  rewrite (check_selected sdk b ex errors nodes Hex Hq Herr Hnew). cbv zeta.
  rewrite Hcfg, Hdef. cbn [result_of trace_of fst snd].
  fold groups. unfold rejectionOf. fold groups fates.
  split.
  { rewrite !filter_app, spawns_of_pruneEffects, spawns_of_dispatchEffects.
    rewrite filter_cons_False by done.
    replace (filter _ (match rejection fates with Some _ => [] | None => _ end))
      with (@nil Effect) by (by destruct (rejection fates)).
    rewrite !filter_nil. cbn [app]. apply app_nil_r. }
  split.
  { destruct (rejection fates); cbn [fanoutResult]; split; intros H; done. }
  split; [apply rejection_None|].
  split.
  { intros message Hrej. rewrite Hrej. cbn [fanoutResult].
    split; [done|]. split; [by apply rejection_Some|].
    rewrite !filter_app, emit_free_pruneEffects, emit_free_dispatchEffects.
    by rewrite filter_cons_False. }
  split.
  { intros Hnone. rewrite Hnone. unfold dispatchEffects, rejectionOf. fold groups fates.
    rewrite Hnone.
    assert (Hlog : forall pending e,
              pending ∈ fates -> e ∈ settleEffects pending ->
              e ∈ (pruneEffects (Date_now sdk) (sentFindingsCache b)
                   ++ [SentFindingsStored (updatedSent sdk ex (sentFindingsCache b) nodes)])
                  ++ (map (spawnOf config (Js.or_else (defaultIds config) "")
                             (default IdFlag (defaultIdsType config))
                             (providerConfigPathOf sdk b)) groups
                      ++ flat_map settleEffects fates)
                  ++ [EventsEmit "findings-sent"
                        (length (selectedFindings sdk ex (sentFindingsCache b) nodes))
                        (length (updatedSent sdk ex (sentFindingsCache b) nodes))]).
    { intros pending e Hp He. rewrite !elem_of_app. right. left. right.
      apply list_elem_of_In, in_flat_map. exists pending.
      split; by apply list_elem_of_In. }
    split.
    - intros reporter message Hin. apply (Hlog _ _ Hin). by left.
    - intros reporter code errorOutput Hin Hcode. apply (Hlog _ _ Hin).
      unfold settleEffects, settleSend. rewrite bool_decide_eq_false_2 by done. by left. }
  intros reporter. split; [done|]. split; [|done].
  intros code err. unfold settleValue, settleSend.
  by destruct (bool_decide (code = Some 0)).
Qed.

(** C3, at two inputs: two findings of one reporter and a notifier that
    exits with code 1; the same findings and a call of [spawn] that
    throws. *)
Lemma C3_witness :
  result_of (checkAndSendFindings
               (Sample.sdk Sample.now [] (Sample.config (Some "general") None None)
                  (Resolved None (Some [Sample.f1; Sample.f3])) (Close (Some 1) "rate limited"))
               (Sample.backend []))
  = Ok tt
  /\ result_of (checkAndSendFindings
                  (Sample.sdk Sample.now [] (Sample.config (Some "general") None None)
                     (Resolved None (Some [Sample.f1; Sample.f3]))
                     (SpawnThrows "The argument 'args[3]' must be a string without null bytes"))
                  (Sample.backend []))
     = Error "Failed to check findings: The argument 'args[3]' must be a string without null bytes".
Proof.
  split.
  - refine (proj2 (proj1 (proj2 (C3_only_a_throwing_spawn_fails_the_run
              (Sample.sdk Sample.now [] (Sample.config (Some "general") None None)
                 (Resolved None (Some [Sample.f1; Sample.f3])) (Close (Some 1) "rate limited"))
              (Sample.backend []) [] None [Sample.f1; Sample.f3]
              (Sample.config (Some "general") None None)
              eq_refl eq_refl (or_introl eq_refl) _ eq_refl eq_refl))) eq_refl).
    vm_compute. discriminate.
  - refine (proj1 (proj1 (proj2 (proj2 (proj2 (C3_only_a_throwing_spawn_fails_the_run
              (Sample.sdk Sample.now [] (Sample.config (Some "general") None None)
                 (Resolved None (Some [Sample.f1; Sample.f3]))
                 (SpawnThrows "The argument 'args[3]' must be a string without null bytes"))
              (Sample.backend []) [] None [Sample.f1; Sample.f3]
              (Sample.config (Some "general") None None)
              eq_refl eq_refl (or_introl eq_refl) _ eq_refl eq_refl))))
            "The argument 'args[3]' must be a string without null bytes" eq_refl)).
    vm_compute. discriminate.
Defined.

(** C4 (counterexample). The sent-log holds one entry that is two hours
    old. The query is rejected (first run) or answered with a GraphQL error
    (second run). Both runs return an error, and both leave an empty
    sent-log behind: the entry was pruned and the pruned log saved before
    the query was issued. *)
Lemma C4_counterexample :
  let b := Sample.backend [{| findingId := "f2"; timestamp := 1704063600000 |}] in
  let run answer :=
    checkAndSendFindings
      (Sample.sdk Sample.now [] (Sample.config (Some "general") None None) answer Hang) b in
  is_error (result_of (run (Rejected "fetch failed"))) = true
  /\ sentFindingsCache (state_of (run (Rejected "fetch failed"))) <> sentFindingsCache b
  /\ is_error (result_of (run (Resolved (Some ["Unauthorized"]) None))) = true
  /\ sentFindingsCache (state_of (run (Resolved (Some ["Unauthorized"]) None)))
     <> sentFindingsCache b.
Proof. cbv zeta. repeat split; vm_compute; discriminate. Qed.

(** C4 (amended). When the findings query fails, the run returns an error,
    starts no notifier process, emits no event and adds no entry to the
    sent-log. The sent-log it leaves is the input log without the entries at
    or before [now - 3600000], which were dropped, and the pruned log
    saved, before the query was issued; it is the log the run started with
    exactly when that log had no such entry. The other module variables
    are untouched. *)
Theorem C4_failed_query_leaves_the_pruned_log sdk (b : Backend) (ex : list string) :
  excludedFindingsRead sdk = Ok ex ->
  queryFails (graphql_execute sdk) ->
  let r := checkAndSendFindings sdk b in
  is_error (result_of r) = true
  /\ sentFindingsCache (state_of r) = cleanedSentFindings (Date_now sdk) (sentFindingsCache b)
  /\ (sentFindingsCache (state_of r) = sentFindingsCache b
      <-> forall e, e ∈ sentFindingsCache b -> timestamp e > Date_now sdk - 3600000)
  /\ checkDelayCache (state_of r) = checkDelayCache b
  /\ useCustomProviderConfigCache (state_of r) = useCustomProviderConfigCache b
  /\ checkInterval (state_of r) = checkInterval b
  /\ activeIntervals (state_of r) = activeIntervals b
  /\ (forall e, e ∈ trace_of r ->
        e = SentFindingsStored (cleanedSentFindings (Date_now sdk) (sentFindingsCache b))
        \/ exists args, e = ConsoleError args).
Proof.
  intros Hex Hq r. subst r.
  destruct (check_query_fails sdk b ex Hex Hq) as (msg & log & -> & Hlog).
  cbn [result_of state_of trace_of fst snd is_error].
  split; [done|]. split; [apply prunedBackend_cache|].
  split.
  { rewrite prunedBackend_cache. unfold cleanedSentFindings. rewrite filter_id_iff.
    unfold oneHourAgo. by replace (60 * 60 * 1000) with 3600000 by lia. }
  assert (Hfields : forall b0 : Backend,
            checkDelayCache (prunedBackend (Date_now sdk) b0) = checkDelayCache b0
            /\ useCustomProviderConfigCache (prunedBackend (Date_now sdk) b0)
               = useCustomProviderConfigCache b0
            /\ checkInterval (prunedBackend (Date_now sdk) b0) = checkInterval b0
            /\ activeIntervals (prunedBackend (Date_now sdk) b0) = activeIntervals b0).
  { intros b0. unfold prunedBackend. by case_bool_decide. }
  destruct (Hfields b) as (H1 & H2 & H3 & H4).
  repeat (split; [done|]).
  intros e [He|He]%elem_of_app.
  - left. by apply elem_of_pruneEffects.
  - right. rewrite Forall_forall in Hlog. by apply Hlog.
Qed.

(** C4, at an input: a rejected query and a log with one stale entry. *)
Lemma C4_witness :
  sentFindingsCache
    (state_of (checkAndSendFindings
                 (Sample.sdk Sample.now [] (Sample.config (Some "general") None None)
                    (Rejected "fetch failed") Hang)
                 (Sample.backend [{| findingId := "f2"; timestamp := 1704063600000 |};
                                  {| findingId := "f1"; timestamp := 1704070200000 |}])))
  = cleanedSentFindings Sample.now
      [{| findingId := "f2"; timestamp := 1704063600000 |};
       {| findingId := "f1"; timestamp := 1704070200000 |}].
Proof.
  apply (C4_failed_query_leaves_the_pruned_log
           (Sample.sdk Sample.now [] (Sample.config (Some "general") None None)
              (Rejected "fetch failed") Hang)
           (Sample.backend [{| findingId := "f2"; timestamp := 1704063600000 |};
                            {| findingId := "f1"; timestamp := 1704070200000 |}]) []).
  - reflexivity.
  - exact I.
Defined.

(** C5 (counterexample). A finding without creation time is selected by a
    run at [now]; its entry is stored with timestamp [now]. The next run
    starts from that log one hour later, is answered with the same finding,
    prunes the entry and selects, stores and dispatches the finding
    again. *)
Lemma C5_counterexample :
  let cfg := Sample.config (Some "general") None None in
  let answer := Resolved None (Some [Sample.f3]) in
  let sdk1 := Sample.sdk Sample.now [] cfg answer Hang in
  let sdk2 := Sample.sdk (Sample.now + 3600000) [] cfg answer (Close (Some 0) "") in
  let r1 := checkAndSendFindings sdk1 (Sample.backend []) in
  let r2 := checkAndSendFindings sdk2 (state_of r1) in
  map getId (selectedFindings sdk1 [] [] [Sample.f3]) = ["f3"]
  /\ sentFindingsCache (state_of r1) = [{| findingId := "f3"; timestamp := Sample.now |}]
  /\ map getId (selectedFindings sdk2 [] (sentFindingsCache (state_of r1)) [Sample.f3]) = ["f3"]
  /\ length (filter (fun e => is_spawn e = true) (trace_of r2)) = 1%nat
  /\ sentFindingsCache (state_of r2)
     = [{| findingId := "f3"; timestamp := Sample.now + 3600000 |}].
Proof. cbv zeta. repeat split; vm_compute; reflexivity. Qed.

(** C5 (amended). For every finding selected in a run, its entry (its
    identifier with its derived timestamp) is in the log that the run
    stores, and that log is stored before any notifier process is started,
    whatever the processes do afterwards. In a later run that starts from
    the stored log, no finding with that identifier is selected as long as
    the entry is inside the window of the later run, and the finding itself
    is not selected whenever it has the same derived timestamp in the later
    run, which is the case for every finding whose creation time parses. *)
Theorem C5_selected_findings_are_logged_before_dispatch sdk1 (b : Backend)
    (ex1 : list string) (errors1 : option (list string)) (nodes1 : list Node) (f : Node) :
  excludedFindingsRead sdk1 = Ok ex1 ->
  graphql_execute sdk1 = Resolved errors1 (Some nodes1) ->
  noErrors errors1 ->
  toFinding sdk1 (Date_now sdk1) f ∈ selectedFindings sdk1 ex1 (sentFindingsCache b) nodes1 ->
  let r1 := checkAndSendFindings sdk1 b in
  let entry := entryOf (toFinding sdk1 (Date_now sdk1) f) in
  (exists pre log post,
      trace_of r1 = pre ++ SentFindingsStored log :: post
      /\ filter (fun e => is_spawn e = true) pre = []
      /\ entry ∈ log
      /\ sentFindingsCache (state_of r1) = log)
  /\ (forall sdk2 (ex2 : list string) (nodes2 : list Node),
        let selected2 := selectedFindings sdk2 ex2 (sentFindingsCache (state_of r1)) nodes2 in
        (timestamp entry > Date_now sdk2 - 3600000 ->
         forall g, g ∈ selected2 -> getId g <> id f)
        /\ (findingTimestamp sdk2 (Date_now sdk2) f = timestamp entry ->
            toFinding sdk2 (Date_now sdk2) f ∉ selected2)
        /\ (forall t, parsedCreatedAt sdk1 f = Some t -> parsedCreatedAt sdk2 f = Some t ->
            toFinding sdk2 (Date_now sdk2) f ∉ selected2)).
Proof.
  intros Hex Hq Herr Hsel r1 entry.
  assert (Hnew : selectedFindings sdk1 ex1 (sentFindingsCache b) nodes1 <> []).
  { intros Hnil. rewrite Hnil in Hsel. by apply elem_of_nil in Hsel. }
  destruct (check_selected_stores sdk1 b ex1 errors1 nodes1 Hex Hq Herr Hnew)
    as (Hcache & post & Htrace).
  fold r1 in Hcache, Htrace.
  assert (Hentry : entry ∈ sentFindingsCache (state_of r1)).
  { rewrite Hcache. unfold updatedSent. apply elem_of_app. right.
    rewrite newSentFindings_entries. apply list_elem_of_fmap. by eexists. }
  split.
  - exists (pruneEffects (Date_now sdk1) (sentFindingsCache b)),
      (updatedSent sdk1 ex1 (sentFindingsCache b) nodes1), post.
    split; [exact Htrace|]. split; [apply spawns_of_pruneEffects|].
    split; [by rewrite <- Hcache|done].
  - intros sdk2 ex2 nodes2 selected2. subst selected2.
    split; [|split].
    + intros Hts g Hg. by apply (masked_by_entry sdk2 ex2 _ nodes2 entry g Hentry Hts Hg).
    + intros Hsame. by apply (not_selected_again sdk2 ex2 _ nodes2 f entry Hentry).
    + intros t H1 H2. apply (not_selected_again sdk2 ex2 _ nodes2 f entry Hentry); [done|].
      cbn [entry entryOf timestamp getTimestamp toFinding].
      by rewrite !findingTimestamp_parsed, H1, H2.
Qed.

(** C5, at an input: the notifier cannot be started in the first run; the
    second run comes one minute later. *)
Lemma C5_witness :
  let cfg := Sample.config (Some "general") None None in
  let sdk1 := Sample.sdk Sample.now [] cfg (Resolved None (Some [Sample.f1]))
                (ProcError "spawn notify ENOENT") in
  let sdk2 := Sample.sdk (Sample.now + 60000) [] cfg (Resolved None (Some [Sample.f1])) Hang in
  let r1 := checkAndSendFindings sdk1 (Sample.backend []) in
  toFinding sdk1 Sample.now Sample.f1 ∈ selectedFindings sdk1 [] [] [Sample.f1]
  /\ timestamp (entryOf (toFinding sdk1 Sample.now Sample.f1)) > Sample.now + 60000 - 3600000
  /\ (forall g, g ∈ selectedFindings sdk2 [] (sentFindingsCache (state_of r1)) [Sample.f1] ->
                getId g <> "f1").
Proof.
  cbv zeta.
  assert (Hsel : toFinding
                   (Sample.sdk Sample.now [] (Sample.config (Some "general") None None)
                      (Resolved None (Some [Sample.f1])) (ProcError "spawn notify ENOENT"))
                   Sample.now Sample.f1
                 ∈ selectedFindings
                     (Sample.sdk Sample.now [] (Sample.config (Some "general") None None)
                        (Resolved None (Some [Sample.f1])) (ProcError "spawn notify ENOENT"))
                     [] [] [Sample.f1]).
  { vm_compute. by left. }
  split; [exact Hsel|]. split; [reflexivity|].
  refine (proj1 (proj2 (C5_selected_findings_are_logged_before_dispatch
            (Sample.sdk Sample.now [] (Sample.config (Some "general") None None)
               (Resolved None (Some [Sample.f1])) (ProcError "spawn notify ENOENT"))
            (Sample.backend []) [] None [Sample.f1] Sample.f1
            eq_refl eq_refl (or_introl eq_refl) Hsel)
          (Sample.sdk (Sample.now + 60000) [] (Sample.config (Some "general") None None)
             (Resolved None (Some [Sample.f1])) Hang)
          [] [Sample.f1]) _).
  reflexivity.
Defined.

(** C6. A finding whose derived timestamp is at or before [now - 3600000]
    is never kept, whatever the exclusion list and the sent-log are: every
    kept finding is strictly younger than the cutoff. With an empty
    exclusion list and an empty sent-log, a finding created ten minutes
    ago followed by one created two hours ago yields exactly the first. *)
Theorem C6_stale_findings_are_never_kept sdk (ex : list string) (sent : list SentFinding)
    (nodes : list Node) :
  (forall g, g ∈ selectedFindings sdk ex sent nodes -> getTimestamp g > Date_now sdk - 3600000)
  /\ (forall f, f ∈ nodes ->
        findingTimestamp sdk (Date_now sdk) f <= Date_now sdk - 3600000 ->
        toFinding sdk (Date_now sdk) f ∉ selectedFindings sdk ex sent nodes)
  /\ (forall n1 n2,
        findingTimestamp sdk (Date_now sdk) n1 = Date_now sdk - 600000 ->
        findingTimestamp sdk (Date_now sdk) n2 = Date_now sdk - 7200000 ->
        selectedFindings sdk [] [] [n1; n2] = [toFinding sdk (Date_now sdk) n1]).
Proof.
  split; [|split].
  - intros g Hg. by apply elem_of_selected in Hg as (_ & Hts & _).
  - intros f Hf Hold Hsel. apply elem_of_selected in Hsel as (_ & Hts & _).
    simpl in Hts. lia.
  - intros n1 n2 H1 H2.
    assert (Hrecent : recentFindings (Date_now sdk) (allFindings sdk (Date_now sdk) [n1; n2])
                      = [toFinding sdk (Date_now sdk) n1]).
    { unfold recentFindings, allFindings, oneHourAgo. simpl map.
      rewrite filter_cons_True by (cbn [getTimestamp toFinding]; rewrite H1; lia).
      rewrite filter_cons_False by (cbn [getTimestamp toFinding]; rewrite H2; lia).
      by rewrite filter_nil. }
    unfold selectedFindings. cbv zeta. rewrite Hrecent. unfold newFindings.
    rewrite filter_cons_True; [by rewrite filter_nil|].
    apply keepFinding_true. repeat split; apply not_elem_of_empty.
Qed.

(** C6, at the scenario of the specification. *)
Lemma C6_witness :
  selectedFindings (Sample.sdk Sample.now [] (Sample.config None None None)
                      (Resolved None (Some [Sample.f1; Sample.f2])) Hang)
    [] [] [Sample.f1; Sample.f2]
  = [toFinding (Sample.sdk Sample.now [] (Sample.config None None None)
                  (Resolved None (Some [Sample.f1; Sample.f2])) Hang) Sample.now Sample.f1].
Proof.
  apply (C6_stale_findings_are_never_kept
           (Sample.sdk Sample.now [] (Sample.config None None None)
              (Resolved None (Some [Sample.f1; Sample.f2])) Hang) [] [] []).
  - reflexivity.
  - reflexivity.
Defined.

(** C7. For every sent-log and every clock reading, the pruned log holds
    only entries younger than [now - 3600000], each of them an entry of the
    input log, in the input order. A run that gets as far as pruning ends
    with a sent-log that is the pruned log followed by the entries of the
    findings it selected, all of them younger than the cutoff, and writes
    no other log on the way: an entry it dropped is not in any log it
    stores. *)
Theorem C7_pruning_is_monotonic sdk (b : Backend) (ex : list string) :
  excludedFindingsRead sdk = Ok ex ->
  let now := Date_now sdk in
  let pruned := cleanedSentFindings now (sentFindingsCache b) in
  let r := checkAndSendFindings sdk b in
  (forall e, e ∈ pruned -> timestamp e > now - 3600000 /\ e ∈ sentFindingsCache b)
  /\ pruned `sublist_of` sentFindingsCache b
  /\ (exists added, sentFindingsCache (state_of r) = pruned ++ added)
  /\ (forall e, e ∈ sentFindingsCache (state_of r) -> timestamp e > now - 3600000)
  /\ (forall e log, e ∈ sentFindingsCache b -> timestamp e <= now - 3600000 ->
        SentFindingsStored log ∈ trace_of r -> e ∉ log).
Proof.
  intros Hex now pruned r.
  destruct (check_sent_log sdk b ex Hex) as (new & _ & Hnew & Hcache & Hlogs).
  fold now pruned r in Hnew, Hcache, Hlogs.
  assert (Hyoung : forall e, e ∈ pruned ++ newSentFindings new -> timestamp e > now - 3600000).
  { intros e [He|He]%elem_of_app.
    - by apply elem_of_cleaned in He as [Hts _].
    - unfold newSentFindings in He. apply list_elem_of_fmap in He as (g & -> & Hg).
      simpl. by apply Hnew. }
  split; [intros e He; by apply elem_of_cleaned in He|].
  split; [apply sublist_filter|].
  split; [by eexists|].
  split; [intros e He; apply Hyoung; by rewrite <- Hcache|].
  intros e log He Hold Hlog Hin.
  assert (timestamp e > now - 3600000); [|lia].
  destruct (Hlogs log Hlog) as [-> | ->].
  - by apply elem_of_cleaned in Hin as [Hts _].
  - by apply Hyoung.
Qed.

(** C7, at an input: a log with one stale and one young entry. *)
Lemma C7_witness :
  let sdk := Sample.sdk Sample.now [] (Sample.config (Some "general") None None)
               (Resolved None (Some [Sample.f1])) Hang in
  let b := Sample.backend [{| findingId := "old"; timestamp := 1704063600000 |};
                           {| findingId := "young"; timestamp := 1704070200000 |}] in
  cleanedSentFindings Sample.now (sentFindingsCache b)
  = [{| findingId := "young"; timestamp := 1704070200000 |}]
  /\ forall e, e ∈ sentFindingsCache (state_of (checkAndSendFindings sdk b)) ->
               timestamp e > Sample.now - 3600000.
Proof.
  cbv zeta. split; [reflexivity|].
  apply (C7_pruning_is_monotonic
           (Sample.sdk Sample.now [] (Sample.config (Some "general") None None)
              (Resolved None (Some [Sample.f1])) Hang)
           (Sample.backend [{| findingId := "old"; timestamp := 1704063600000 |};
                            {| findingId := "young"; timestamp := 1704070200000 |}]) []).
  reflexivity.
Defined.




(** C9. A delay below 1000 ms is refused by the registered handler with
    the message "Delay must be at least 1000ms (1 second)"; the module
    state (the stored delay, the timer handle, the timers the runtime
    holds) is returned as it was and no timer is cleared or set. Whenever
    the handler returns an error nothing has changed; when it is given a
    delay of at least 1000 ms it stores it, clears the timer it holds and
    arms a new one with that delay. *)
Theorem C9_small_delay_is_rejected (delay : Z) (b : Backend) :
  delay < 1000 ->
  registered_saveCheckDelay delay b
  = (Error "Delay must be at least 1000ms (1 second)", b, [])
  /\ (exists pre post,
        "Delay must be at least 1000ms (1 second)" = pre +:+ "1 second" +:+ post)
  /\ (forall d b0,
        is_error (result_of (registered_saveCheckDelay d b0)) = true ->
        state_of (registered_saveCheckDelay d b0) = b0
        /\ trace_of (registered_saveCheckDelay d b0) = [])
  /\ (forall d b0,
        1000 <= d ->
        let r := registered_saveCheckDelay d b0 in
        result_of r = Ok tt
        /\ checkDelayCache (state_of r) = d
        /\ checkInterval (state_of r) = Some (nextHandle b0)
        /\ activeIntervals (state_of r)
           = filter (fun t => Some t.1 <> checkInterval b0) (activeIntervals b0)
             ++ [(nextHandle b0, d)]
        /\ filter (fun e => is_timer_effect e = true) (trace_of r)
           = match checkInterval b0 with
             | Some handle => [ClearInterval handle]
             | None => []
             end ++ [SetInterval (nextHandle b0) d]).
Proof.
  intros Hsmall.
  assert (Hreject : forall d b0, d < 1000 ->
            registered_saveCheckDelay d b0
            = (Error "Delay must be at least 1000ms (1 second)", b0, [])).
  { intros d b0 Hd. unfold registered_saveCheckDelay, saveCheckDelay.
    by rewrite (proj2 (Z.ltb_lt d 1000) Hd). }
  assert (Haccept : forall d b0, 1000 <= d ->
            let r := registered_saveCheckDelay d b0 in
            result_of r = Ok tt
            /\ checkDelayCache (state_of r) = d
            /\ checkInterval (state_of r) = Some (nextHandle b0)
            /\ activeIntervals (state_of r)
               = filter (fun t => Some t.1 <> checkInterval b0) (activeIntervals b0)
                 ++ [(nextHandle b0, d)]
            /\ filter (fun e => is_timer_effect e = true) (trace_of r)
               = match checkInterval b0 with
                 | Some handle => [ClearInterval handle]
                 | None => []
                 end ++ [SetInterval (nextHandle b0) d]).
  { intros d b0 Hd. unfold registered_saveCheckDelay, saveCheckDelay.
    rewrite (proj2 (Z.ltb_ge d 1000) Hd).
    destruct b0 as [sent cd uc [handle|] active next]; cbn.
    - repeat split; try reflexivity.
      f_equal. apply list_filter_iff. intros [h z]. simpl. split; congruence.
    - repeat split; try reflexivity.
      f_equal. symmetry. by apply filter_all. }
  split; [by apply Hreject|]. split.
  { by exists "Delay must be at least 1000ms (", ")". }
  split; [|exact Haccept].
  intros d b0 Herr. destruct (Z.lt_ge_cases d 1000) as [Hd|Hd].
  - by rewrite (Hreject d b0 Hd).
  - destruct (Haccept d b0 Hd) as [Hok _]. rewrite Hok in Herr. discriminate.
Qed.

(** C9, at the scenario of the specification, with the timer of [init]
    running. *)
Lemma C9_witness :
  registered_saveCheckDelay 500 (state_of (init initialBackend))
  = (Error "Delay must be at least 1000ms (1 second)", state_of (init initialBackend), []).
Proof.
  apply (C9_small_delay_is_rejected 500 (state_of (init initialBackend))).
  reflexivity.
Defined.

(** C10. Every entry that a run adds to the sent-log carries the derived
    creation time of its finding: the parsed [createdAt], or the clock
    reading of the run when [createdAt] is absent or does not parse. For a
    finding whose creation time parses, an entry with that time is kept by
    the pruning of a run exactly when the finding passes the recency filter
    of that run, and the finding is not selected. For a finding whose
    creation time does not parse, the derived timestamp is the clock
    reading of each run; once every entry of the log with its identifier is
    at or before [now - 3600000], the finding (unless excluded) is selected
    again, a fresh entry with timestamp [now] is stored, and, when a
    default destination is configured, the invocation of its reporter group
    carries it. *)
Theorem C10_entries_carry_the_derived_creation_time sdk (b : Backend) (ex : list string) :
  excludedFindingsRead sdk = Ok ex ->
  let now := Date_now sdk in
  let r := checkAndSendFindings sdk b in
  (forall e, e ∈ sentFindingsCache (state_of r) ->
     e ∈ cleanedSentFindings now (sentFindingsCache b)
     \/ exists errors nodes f,
          graphql_execute sdk = Resolved errors (Some nodes)
          /\ f ∈ nodes
          /\ findingId e = id f
          /\ timestamp e = default now (parsedCreatedAt sdk f))
  /\ (forall f t (log : list SentFinding) (e : SentFinding) (nodes : list Node),
        parsedCreatedAt sdk f = Some t ->
        e ∈ log -> findingId e = id f -> timestamp e = t -> f ∈ nodes ->
        (e ∈ cleanedSentFindings now log
         <-> toFinding sdk now f ∈ recentFindings now (allFindings sdk now nodes))
        /\ toFinding sdk now f ∉ selectedFindings sdk ex log nodes)
  /\ (forall f,
        parsedCreatedAt sdk f = None ->
        findingTimestamp sdk now f = now
        /\ forall errors nodes,
             graphql_execute sdk = Resolved errors (Some nodes) ->
             noErrors errors ->
             f ∈ nodes -> id f ∉ ex -> reporter f ∉ ex ->
             (forall e, e ∈ sentFindingsCache b -> findingId e = id f ->
                        timestamp e <= now - 3600000) ->
             toFinding sdk now f ∈ selectedFindings sdk ex (sentFindingsCache b) nodes
             /\ {| findingId := id f; timestamp := now |} ∈ sentFindingsCache (state_of r)
             /\ (forall config,
                   notifyIdsRead sdk = Ok config ->
                   Js.is_empty (Js.or_else (defaultIds config) "") = false ->
                   exists entry,
                     entry.1 = reporter f
                     /\ toFinding sdk now f ∈ entry.2
                     /\ spawnOf config (Js.or_else (defaultIds config) "")
                          (default IdFlag (defaultIdsType config))
                          (providerConfigPathOf sdk b) entry ∈ trace_of r)).
Proof.
  intros Hex now r. subst now. split; [|split].
  - intros e He.
    destruct (check_sent_log sdk b ex Hex) as (new & Hsub & _ & Hcache & _).
    fold r in Hcache. rewrite Hcache in He.
    apply elem_of_app in He as [He|He]; [by left|]. right.
    rewrite newSentFindings_entries in He. apply list_elem_of_fmap in He as (g & -> & Hg).
    destruct (graphql_execute sdk) as [m|errors [nodes|]];
      try (apply sublist_nil_r in Hsub; subst new; by apply elem_of_nil in Hg).
    apply (sublist_subseteq _ _ Hsub) in Hg.
    apply list_elem_of_fmap in Hg as (f & -> & Hf).
    exists errors, nodes, f. repeat split; [done|].
    apply findingTimestamp_parsed.
  - intros f t log e nodes Hparse He Hid Hts Hf.
    assert (Hft : findingTimestamp sdk (Date_now sdk) f = t).
    { by rewrite findingTimestamp_parsed, Hparse. }
    split.
    + rewrite elem_of_cleaned. unfold recentFindings, allFindings.
      rewrite list_elem_of_filter, list_elem_of_fmap. unfold oneHourAgo.
      replace (60 * 60 * 1000) with 3600000 by lia. cbn [getTimestamp toFinding].
      rewrite Hft, Hts. split.
      * intros [Hrecent _]. split; [done|]. by exists f.
      * intros [Hrecent _]. done.
    + apply (not_selected_again sdk ex log nodes f e He Hid). by rewrite Hft.
  - intros f Hnone.
    assert (Hft : findingTimestamp sdk (Date_now sdk) f = (Date_now sdk)).
    { by rewrite findingTimestamp_parsed, Hnone. }
    split; [done|].
    intros errors nodes Hq Herr Hf Hid Hrep Haged.
    assert (Hsel : toFinding sdk (Date_now sdk) f ∈ selectedFindings sdk ex (sentFindingsCache b) nodes).
    { apply elem_of_selected. cbn [getTimestamp getId getReporter toFinding].
      rewrite Hft. split; [by exists f|]. split; [lia|].
      split; [done|]. split; [done|].
      intros e He Hts Heq. specialize (Haged e He Heq). lia. }
    assert (Hnew : selectedFindings sdk ex (sentFindingsCache b) nodes <> []).
    { intros Hnil. rewrite Hnil in Hsel. by apply elem_of_nil in Hsel. }
    split; [done|]. split.
    + destruct (check_selected_stores sdk b ex errors nodes Hex Hq Herr Hnew) as [Hcache _].
      fold r in Hcache. rewrite Hcache. unfold updatedSent. apply elem_of_app. right.
      rewrite newSentFindings_entries. apply list_elem_of_fmap.
      exists (toFinding sdk (Date_now sdk) f). split; [|done].
      unfold entryOf. cbn [getTimestamp getId toFinding]. by rewrite Hft.
    + intros config Hcfg Hdef.
      destruct (findingsByReporter_covers _ _ Hsel) as (entry & Hentry & Hkey & Hin).
      exists entry. split; [done|]. split; [done|].
      subst r. rewrite (check_selected sdk b ex errors nodes Hex Hq Herr Hnew). cbv zeta.
      rewrite Hcfg, Hdef. cbn [trace_of snd].
      apply elem_of_app. right. apply elem_of_app. left.
      unfold dispatchEffects. apply elem_of_app. left.
      apply list_elem_of_fmap. by exists entry.
Qed.

(** C10, at an input: a finding without creation time, and a second run one
    hour after the first. *)
Lemma C10_witness :
  let cfg := Sample.config (Some "general") None None in
  let answer := Resolved None (Some [Sample.f3]) in
  let sdk1 := Sample.sdk Sample.now [] cfg answer Hang in
  let sdk2 := Sample.sdk (Sample.now + 3600000) [] cfg answer Hang in
  let b2 := state_of (checkAndSendFindings sdk1 (Sample.backend [])) in
  sentFindingsCache b2 = [{| findingId := "f3"; timestamp := Sample.now |}]
  /\ toFinding sdk2 (Sample.now + 3600000) Sample.f3
     ∈ selectedFindings sdk2 [] (sentFindingsCache b2) [Sample.f3].
Proof.
  cbv zeta. split; [reflexivity|].
  refine (proj1 (proj2 (proj2 (proj2
            (C10_entries_carry_the_derived_creation_time
               (Sample.sdk (Sample.now + 3600000) [] (Sample.config (Some "general") None None)
                  (Resolved None (Some [Sample.f3])) Hang)
               (state_of (checkAndSendFindings
                            (Sample.sdk Sample.now [] (Sample.config (Some "general") None None)
                               (Resolved None (Some [Sample.f3])) Hang)
                            (Sample.backend [])))
               [] eq_refl)) Sample.f3 eq_refl)
          None [Sample.f3] eq_refl (or_introl eq_refl) _ _ _ _)).
  - by left.
  - apply not_elem_of_nil.
  - apply not_elem_of_nil.
  - intros e He Hid. vm_compute in He. apply list_elem_of_singleton in He. subst e.
    vm_compute. discriminate.
Defined.

(** * Further properties of the code *)

(** ** Records as association lists *)

Lemma get_None_not_key {V : Type} (m : list (string * V)) (k : string) :
  Js.get m k = None <-> k ∉ Js.keys m.
Proof.
  induction m as [|[k' v'] m IH]; simpl.
  - split; [intros _; apply not_elem_of_nil|done].
  - destruct (String.eqb_spec k' k) as [->|Hne].
    + split; [discriminate|]. intros Hnot. exfalso. apply Hnot. by left.
    + rewrite IH. split.
      * intros Hnot [Heq|Hin]%elem_of_cons; [by symmetry in Heq|done].
      * intros Hnot Hin. apply Hnot. by right.
Qed.

Lemma elem_of_set {V : Type} (m : list (string * V)) (k r : string) (v w : V) :
  NoDup (Js.keys m) ->
  (k, v) ∈ Js.set m r w <-> (k = r /\ v = w) \/ (k <> r /\ (k, v) ∈ m).
Proof.
  induction m as [|[k' v'] m IH]; simpl; intros Hnd.
  - rewrite list_elem_of_singleton. split.
    + intros [= -> ->]. by left.
    + intros [[-> ->]|[_ Hin]]; [done|by apply elem_of_nil in Hin].
  - apply NoDup_cons in Hnd as [Hnotin Hnd].
    destruct (String.eqb_spec k' r) as [->|Hne].
    + rewrite !elem_of_cons. split.
      * intros [[= -> ->]|Hin]; [by left|]. right. split; [|by right].
        intros ->. apply Hnotin. apply list_elem_of_fmap. by exists (r, v).
      * intros [[-> ->]|[Hkr [[= -> ->]|Hin]]]; [by left|done|by right].
    + rewrite !elem_of_cons, (IH Hnd). split.
      * intros [[= -> ->]|[[-> ->]|[Hkr Hin]]].
        -- right. split; [done|by left].
        -- by left.
        -- right. split; [done|by right].
      * intros [[-> ->]|[Hkr [[= -> ->]|Hin]]].
        -- right. by left.
        -- by left.
        -- right. right. by split.
Qed.

(** ** Grouping by reporter, exactly *)

Lemma findingsByReporter_inv (l2 l1 : list FindingWithTimestamp)
    (m : list (string * list FindingWithTimestamp)) :
  let step := fun (m : list (string * list FindingWithTimestamp)) finding =>
                Js.set m (getReporter finding)
                  (default [] (Js.get m (getReporter finding)) ++ [finding]) in
  let inv := fun (m : list (string * list FindingWithTimestamp)) l =>
               NoDup (Js.keys m)
               /\ forall k v, (k, v) ∈ m
                    <-> k ∈ map getReporter l /\ v = filter (fun g => getReporter g = k) l in
  inv m l1 -> inv (foldl step m l2) (l1 ++ l2).
Proof.
  intros step inv. revert l1 m.
  induction l2 as [|y l2 IH]; intros l1 m Hinv; simpl.
  - by rewrite app_nil_r.
  - replace (l1 ++ y :: l2) with ((l1 ++ [y]) ++ l2) by (by rewrite <- app_assoc).
    apply IH. destruct Hinv as [Hnd Hent]. split.
    + unfold step. rewrite keys_set. case_bool_decide as Hin; [done|].
      apply NoDup_app. split; [done|]. split; [|apply NoDup_singleton].
      intros k Hk ->%list_elem_of_singleton. done.
    + intros k v. unfold step. rewrite (elem_of_set m k _ v _ Hnd).
      rewrite fmap_app, elem_of_app, filter_app. simpl.
      assert (Hexisting : default [] (Js.get m (getReporter y))
                          = filter (fun g => getReporter g = getReporter y) l1).
      { destruct (Js.get m (getReporter y)) as [v0|] eqn:Hget.
        - assert (Hin : getReporter y ∈ Js.keys m).
          { destruct (decide (getReporter y ∈ Js.keys m)) as [Hin|Hnot]; [done|].
            apply get_None_not_key in Hnot. congruence. }
          destruct (get_of_key m _ Hin) as (v1 & Hget1 & Hin1).
          rewrite Hget in Hget1. injection Hget1 as <-.
          by apply Hent in Hin1 as [_ ->].
        - simpl. symmetry. apply get_None_not_key in Hget.
          destruct (filter _ l1) as [|g gs] eqn:Hf; [done|]. exfalso.
          assert (Hg : g ∈ filter (fun g => getReporter g = getReporter y) l1)
            by (rewrite Hf; by left).
          apply list_elem_of_filter in Hg as [Hrep Hg].
          apply Hget.
          assert (Hk : (getReporter y, filter (fun g => getReporter g = getReporter y) l1) ∈ m).
          { apply Hent. split; [|done]. apply list_elem_of_fmap. exists g. by split. }
          apply list_elem_of_fmap. eexists. split; [|exact Hk]. done. }
      rewrite Hexisting. split.
      * intros [[-> ->]|[Hne Hin]].
        -- split; [right; by left|].
           by rewrite filter_cons_True, filter_nil.
        -- apply Hent in Hin as [Hk ->]. split; [by left|].
           rewrite filter_cons_False by done. by rewrite filter_nil, app_nil_r.
      * intros [Hk ->]. destruct (decide (k = getReporter y)) as [->|Hne].
        -- left. split; [done|]. by rewrite filter_cons_True, filter_nil.
        -- right. split; [done|]. apply Hent.
           rewrite filter_cons_False by congruence. rewrite filter_nil, app_nil_r.
           split; [|done]. destruct Hk as [Hk|Hk]; [done|].
           apply list_elem_of_singleton in Hk. congruence.
Qed.

(** X1. A finding is kept by the filter stage exactly when it comes from a
    node of the answer, is younger than [now - 3600000], neither its
    identifier nor its reporter is literally an entry of the exclusion
    list, and no entry of the sent-log that is itself younger than the
    cutoff carries its identifier. The kept findings come in the order of
    the answer. *)
Theorem X1_kept_findings_characterised sdk (ex : list string) (sent : list SentFinding)
    (nodes : list Node) :
  (forall g,
      g ∈ selectedFindings sdk ex sent nodes
      <-> (exists f, f ∈ nodes /\ g = toFinding sdk (Date_now sdk) f)
          /\ getTimestamp g > Date_now sdk - 3600000
          /\ (getId g ∉ ex) /\ (getReporter g ∉ ex)
          /\ (forall e, e ∈ sent -> timestamp e > Date_now sdk - 3600000 ->
                        findingId e <> getId g))
  /\ selectedFindings sdk ex sent nodes `sublist_of` map (toFinding sdk (Date_now sdk)) nodes.
Proof. split; [apply elem_of_selected|apply selected_sublist]. Qed.

Lemma findingsByReporter_spec (new : list FindingWithTimestamp) :
  NoDup (Js.keys (findingsByReporter new))
  /\ (forall k v,
        (k, v) ∈ findingsByReporter new
        <-> k ∈ map getReporter new /\ v = filter (fun g => getReporter g = k) new)
  /\ findingsByReporter new
     = map (fun k => (k, filter (fun g => getReporter g = k) new))
           (Js.keys (findingsByReporter new)).
Proof.
  pose proof (findingsByReporter_inv new [] []) as Hinv. cbv zeta in Hinv.
  destruct Hinv as [Hnd Hent].
  { split; [apply NoDup_nil_2|]. intros k v. split.
    - intros H. by apply elem_of_nil in H.
    - intros [H _]. by apply elem_of_nil in H. }
  rewrite app_nil_l in Hent. fold (findingsByReporter new) in Hnd, Hent.
  split; [done|]. split; [done|].
  assert (Hall : forall entry, entry ∈ findingsByReporter new ->
                   entry = (entry.1, filter (fun g => getReporter g = entry.1) new)).
  { intros [k v] Hin. simpl. by apply Hent in Hin as [_ ->]. }
  revert Hall. generalize (findingsByReporter new). intros m Hall.
  induction m as [|entry m IH]; [done|].
  simpl. rewrite <- (Hall entry) by (by left). f_equal.
  apply IH. intros e He. apply Hall. by right.
Qed.

(** X2. Grouping by reporter is a partition by the exact reporter string:
    the groups have pairwise distinct keys, there is a group for a key
    exactly when some finding has that reporter, and the group of a key
    holds all the findings of that reporter, and only those, in their
    original order. *)
Theorem X2_groups_partition_by_reporter (new : list FindingWithTimestamp) :
  NoDup (Js.keys (findingsByReporter new))
  /\ (forall k v,
        (k, v) ∈ findingsByReporter new
        <-> k ∈ map getReporter new /\ v = filter (fun g => getReporter g = k) new)
  /\ findingsByReporter new
     = map (fun k => (k, filter (fun g => getReporter g = k) new))
           (Js.keys (findingsByReporter new)).
Proof. apply findingsByReporter_spec. Qed.

(** ** Every way a run can go (index.ts) *)

Lemma prunedBackend_frame now (b : Backend) :
  checkDelayCache (prunedBackend now b) = checkDelayCache b
  /\ useCustomProviderConfigCache (prunedBackend now b) = useCustomProviderConfigCache b
  /\ checkInterval (prunedBackend now b) = checkInterval b
  /\ activeIntervals (prunedBackend now b) = activeIntervals b
  /\ nextHandle (prunedBackend now b) = nextHandle b.
Proof. unfold prunedBackend. by case_bool_decide. Qed.

Lemma prunedBackend_set now (b : Backend) :
  prunedBackend now b
  = set_sentFindingsCache (cleanedSentFindings now (sentFindingsCache b)) b.
Proof.
  unfold prunedBackend. case_bool_decide as Hlen; [done|].
  unfold cleanedSentFindings in *. rewrite (filter_length_eq _ _ Hlen). by destruct b.
Qed.

Inductive RunCase (sdk : SDK) (b : Backend) : Prop :=
| run_unreadable e :
    excludedFindingsRead sdk = Error e ->
    checkAndSendFindings sdk b = (Error e, b, []) ->
    RunCase sdk b
| run_query_failed ex message log :
    excludedFindingsRead sdk = Ok ex ->
    queryFails (graphql_execute sdk) ->
    checkAndSendFindings sdk b
    = (Error message, prunedBackend (Date_now sdk) b,
       pruneEffects (Date_now sdk) (sentFindingsCache b) ++ log) ->
    Forall (fun e => exists args, e = ConsoleError args) log ->
    RunCase sdk b
| run_nothing_new ex errors nodes :
    excludedFindingsRead sdk = Ok ex ->
    graphql_execute sdk = Resolved errors nodes ->
    noErrors errors ->
    (forall ns, nodes = Some ns -> selectedFindings sdk ex (sentFindingsCache b) ns = []) ->
    checkAndSendFindings sdk b
    = (Ok tt, prunedBackend (Date_now sdk) b,
       pruneEffects (Date_now sdk) (sentFindingsCache b)) ->
    RunCase sdk b
| run_selected ex errors nodes :
    excludedFindingsRead sdk = Ok ex ->
    graphql_execute sdk = Resolved errors (Some nodes) ->
    noErrors errors ->
    selectedFindings sdk ex (sentFindingsCache b) nodes <> [] ->
    RunCase sdk b.

Lemma run_cases sdk b : RunCase sdk b.
Proof.
  destruct (excludedFindingsRead sdk) as [e|ex] eqn:Hex.
  { eapply run_unreadable; [done|by apply check_excluded_error]. }
  destruct (graphql_cases (graphql_execute sdk))
    as [Hq | [(errors & Hq & Herr) | (errors & nodes & Hq & Herr)]].
  - destruct (check_query_fails sdk b ex Hex Hq) as (msg & log & Heq & Hlog).
    by eapply run_query_failed.
  - eapply (run_nothing_new sdk b ex errors None); try done.
    by apply (check_no_nodes sdk b ex errors).
  - destruct (decide (selectedFindings sdk ex (sentFindingsCache b) nodes = [])) as [Hnil|Hne].
    + eapply (run_nothing_new sdk b ex errors (Some nodes)); try done.
      * by intros ns [= <-].
      * by apply (check_none_new sdk b ex errors nodes).
    + by eapply run_selected.
Qed.

(** The trace of a run that reaches the fan-out. *)
Lemma check_fanout sdk b ex errors nodes config :
  excludedFindingsRead sdk = Ok ex ->
  graphql_execute sdk = Resolved errors (Some nodes) ->
  noErrors errors ->
  selectedFindings sdk ex (sentFindingsCache b) nodes <> [] ->
  notifyIdsRead sdk = Ok config ->
  Js.is_empty (Js.or_else (defaultIds config) "") = false ->
  let new := selectedFindings sdk ex (sentFindingsCache b) nodes in
  let updated := updatedSent sdk ex (sentFindingsCache b) nodes in
  let thrown := rejectionOf sdk config (Js.or_else (defaultIds config) "")
                  (default IdFlag (defaultIdsType config)) (providerConfigPathOf sdk b) new in
  checkAndSendFindings sdk b
  = (fanoutResult thrown, set_sentFindingsCache updated b,
     (pruneEffects (Date_now sdk) (sentFindingsCache b) ++ [SentFindingsStored updated])
     ++ dispatchEffects sdk config (Js.or_else (defaultIds config) "")
          (default IdFlag (defaultIdsType config)) (providerConfigPathOf sdk b) new
     ++ match thrown with
        | Some _ => []
        | None => [EventsEmit "findings-sent" (length new) (length updated)]
        end).
Proof.
  intros Hex Hq Herr Hnew Hcfg Hdef new updated.
  rewrite (check_selected sdk b ex errors nodes Hex Hq Herr Hnew). cbv zeta.
  by rewrite Hcfg, Hdef.
Qed.

(** The trace of a run that selects findings and then fails on the
    configuration. *)
Lemma check_config_failure sdk b ex errors nodes :
  excludedFindingsRead sdk = Ok ex ->
  graphql_execute sdk = Resolved errors (Some nodes) ->
  noErrors errors ->
  selectedFindings sdk ex (sentFindingsCache b) nodes <> [] ->
  (is_error (notifyIdsRead sdk) = true
   \/ exists config, notifyIdsRead sdk = Ok config
                     /\ Js.is_empty (Js.or_else (defaultIds config) "") = true) ->
  let updated := updatedSent sdk ex (sentFindingsCache b) nodes in
  exists message,
    checkAndSendFindings sdk b
    = (Error message, set_sentFindingsCache updated b,
       pruneEffects (Date_now sdk) (sentFindingsCache b) ++ [SentFindingsStored updated]).
Proof.
  intros Hex Hq Herr Hnew Hfail updated.
  rewrite (check_selected sdk b ex errors nodes Hex Hq Herr Hnew). cbv zeta.
  destruct Hfail as [Hfail|(config & Hcfg & Hdef)].
  - destruct (notifyIdsRead sdk) as [e|config]; [by eexists|discriminate].
  - rewrite Hcfg, Hdef. by eexists.
Qed.

Lemma timer_free_app (t1 t2 : list Effect) :
  Forall (fun e => is_timer_effect e = false) t1 ->
  Forall (fun e => is_timer_effect e = false) t2 ->
  Forall (fun e => is_timer_effect e = false) (t1 ++ t2).
Proof. intros. by apply Forall_app. Qed.

Lemma timer_free_pruneEffects now sent :
  Forall (fun e => is_timer_effect e = false) (pruneEffects now sent).
Proof. unfold pruneEffects. case_bool_decide; by repeat constructor. Qed.

Lemma timer_free_dispatchEffects sdk config dn dt path new :
  Forall (fun e => is_timer_effect e = false) (dispatchEffects sdk config dn dt path new).
Proof.
  apply Forall_forall. intros e He.
  by apply elem_of_dispatchEffects in He as [(c & a & i & ->)|(a & ->)].
Qed.

Lemma emit_free_console (log : list Effect) :
  Forall (fun e => exists args, e = ConsoleError args) log ->
  filter (fun e => is_emit e = true) log = [].
Proof.
  induction 1 as [|e l [args ->] _ IH]; [done|]. by rewrite filter_cons_False.
Qed.

(** What a run leaves in the module state, whichever way it goes. *)
Lemma check_frame sdk (b : Backend) :
  let r := checkAndSendFindings sdk b in
  (exists log, state_of r = set_sentFindingsCache log b)
  /\ Forall (fun e => is_timer_effect e = false) (trace_of r).
Proof.
  intros r. subst r. destruct (run_cases sdk b)
    as [e Hex Heq | ex msg log Hex Hq Heq Hlog | ex errors nodes Hex Hq Herr Hnone Heq
        | ex errors nodes Hex Hq Herr Hnew].
  - rewrite Heq. split; [exists (sentFindingsCache b); by destruct b|constructor].
  - rewrite Heq. split; [eexists; apply prunedBackend_set|].
    apply timer_free_app; [apply timer_free_pruneEffects|].
    eapply Forall_impl; [exact Hlog|]. by intros e [args ->].
  - rewrite Heq. split; [eexists; apply prunedBackend_set|apply timer_free_pruneEffects].
  - rewrite (check_selected sdk b ex errors nodes Hex Hq Herr Hnew). cbv zeta.
    assert (Hstored : Forall (fun e => is_timer_effect e = false)
              (pruneEffects (Date_now sdk) (sentFindingsCache b)
               ++ [SentFindingsStored (updatedSent sdk ex (sentFindingsCache b) nodes)])).
    { apply timer_free_app; [apply timer_free_pruneEffects|by repeat constructor]. }
    destruct (notifyIdsRead sdk) as [e|config]; [split; [by eexists|done]|].
    destruct (Js.is_empty (Js.or_else (defaultIds config) "")); [split; [by eexists|done]|].
    split; [by eexists|]. cbn [trace_of snd].
    apply timer_free_app; [done|].
    apply timer_free_app; [apply timer_free_dispatchEffects|].
    destruct (rejectionOf _ _ _ _ _ _); by repeat constructor.
Qed.

Lemma spawn_in_dispatchEffects sdk config dn dt path (new : list FindingWithTimestamp) :
  new <> [] ->
  filter (fun e => is_spawn e = true) (dispatchEffects sdk config dn dt path new) <> [].
Proof.
  intros Hnew. rewrite spawns_of_dispatchEffects.
  destruct new as [|g new]; [done|].
  destruct (findingsByReporter_covers (g :: new) g) as (entry & Hentry & _); [by left|].
  intros Hnil. apply fmap_nil_inv in Hnil. rewrite Hnil in Hentry.
  by apply elem_of_nil in Hentry.
Qed.

(** ** The order of the groups *)









(** X4. The findings-sent event is emitted only by a run that returns
    success after it dispatched: it is then the last effect of the run,
    emitted once, after [spawn] was called for every group; its count is
    the number of findings the run added to the sent-log, which is
    positive, and its total is the length of the sent-log the run leaves.
    A run that reaches the fan-out emits it when no call of [spawn]
    throws; when a call throws, the run returns an error and emits no
    event. *)
Theorem X4_findings_sent_event sdk (b : Backend) :
  let r := checkAndSendFindings sdk b in
  let pruned := cleanedSentFindings (Date_now sdk) (sentFindingsCache b) in
  (forall event count total,
      EventsEmit event count total ∈ trace_of r ->
      event = "findings-sent"
      /\ result_of r = Ok tt
      /\ (0 < count)%nat
      /\ total = length (sentFindingsCache (state_of r))
      /\ total = (length pruned + count)%nat
      /\ exists pre,
           trace_of r = pre ++ [EventsEmit event count total]
           /\ filter (fun e => is_emit e = true) pre = []
           /\ filter (fun e => is_spawn e = true) pre <> [])
  /\ (forall ex errors nodes config,
        excludedFindingsRead sdk = Ok ex ->
        graphql_execute sdk = Resolved errors (Some nodes) ->
        noErrors errors ->
        selectedFindings sdk ex (sentFindingsCache b) nodes <> [] ->
        notifyIdsRead sdk = Ok config ->
        Js.is_empty (Js.or_else (defaultIds config) "") = false ->
        let new := selectedFindings sdk ex (sentFindingsCache b) nodes in
        let fates :=
          map (pendingOf sdk config (Js.or_else (defaultIds config) "")
                 (default IdFlag (defaultIdsType config)) (providerConfigPathOf sdk b))
              (findingsByReporter new) in
        (rejection fates = None
         <-> forall reporter message, (reporter, SpawnThrows message) ∉ fates)
        /\ (rejection fates = None ->
            EventsEmit "findings-sent" (length new) (length (sentFindingsCache (state_of r)))
            ∈ trace_of r)
        /\ (forall message,
              rejection fates = Some message ->
              result_of r = Error ("Failed to check findings: " +:+ message)
              /\ filter (fun e => is_emit e = true) (trace_of r) = [])).
Proof.
  intros r pruned. split.
  - intros event count total Hin. subst r.
    assert (Hnot : forall t : list Effect,
              filter (fun e => is_emit e = true) t = [] -> EventsEmit event count total ∉ t).
    { intros t Ht Hint. eapply (filter_nil_not_elem_of _ t); [exact Ht| |exact Hint]. done. }
    destruct (run_cases sdk b)
      as [e Hex Heq | ex msg log Hex Hq Heq Hlog | ex errors nodes Hex Hq Herr Hnone Heq
          | ex errors nodes Hex Hq Herr Hnew].
    + rewrite Heq in Hin. by apply elem_of_nil in Hin.
    + rewrite Heq in Hin. cbn [trace_of snd] in Hin. exfalso. revert Hin. apply Hnot.
      by rewrite filter_app, emit_free_pruneEffects, emit_free_console.
    + rewrite Heq in Hin. cbn [trace_of snd] in Hin. exfalso. revert Hin. apply Hnot, emit_free_pruneEffects.
    + assert (Hstored : filter (fun e => is_emit e = true)
                (pruneEffects (Date_now sdk) (sentFindingsCache b)
                 ++ [SentFindingsStored (updatedSent sdk ex (sentFindingsCache b) nodes)]) = []).
      { by rewrite filter_app, emit_free_pruneEffects, filter_cons_False. }
      destruct (notifyIdsRead sdk) as [e|config] eqn:Hcfg.
      { destruct (check_config_failure sdk b ex errors nodes Hex Hq Herr Hnew) as [m Heq].
        { left. by rewrite Hcfg. }
        rewrite Heq in Hin. cbn [trace_of snd] in Hin. exfalso. revert Hin. by apply Hnot. }
      destruct (Js.is_empty (Js.or_else (defaultIds config) "")) eqn:Hdef.
      { destruct (check_config_failure sdk b ex errors nodes Hex Hq Herr Hnew) as [m Heq].
        { right. by exists config. }
        rewrite Heq in Hin. cbn [trace_of snd] in Hin. exfalso. revert Hin. by apply Hnot. }
      rewrite (check_fanout sdk b ex errors nodes config Hex Hq Herr Hnew Hcfg Hdef) in Hin |- *.
      cbn [result_of state_of trace_of fst snd set_sentFindingsCache sentFindingsCache] in Hin |- *.
      rewrite app_assoc in Hin. apply elem_of_app in Hin as [Hin|Hin].
      { exfalso. revert Hin. apply Hnot.
        by rewrite filter_app, Hstored, emit_free_dispatchEffects. }
      destruct (rejectionOf _ _ _ _ _ _); [by apply elem_of_nil in Hin|].
      apply list_elem_of_singleton in Hin. injection Hin as -> -> ->.
      split; [done|]. split; [done|]. split.
      { destruct (selectedFindings sdk ex (sentFindingsCache b) nodes); [done|simpl; lia]. }
      split; [done|]. split.
      { unfold updatedSent. rewrite length_app. unfold newSentFindings. by rewrite length_map. }
      eexists. split; [by rewrite app_assoc|]. split.
      { by rewrite filter_app, Hstored, emit_free_dispatchEffects. }
      rewrite filter_app. intros Hnil. apply app_eq_nil in Hnil as [_ Hnil].
      by apply spawn_in_dispatchEffects in Hnil.
  - intros ex errors nodes config Hex Hq Herr Hnew Hcfg Hdef new fates. subst r.
    rewrite (check_fanout sdk b ex errors nodes config Hex Hq Herr Hnew Hcfg Hdef).
    cbn [result_of state_of trace_of fst snd set_sentFindingsCache sentFindingsCache].
    unfold rejectionOf. fold new fates.
    split; [apply rejection_None|]. split.
    + intros ->. apply elem_of_app. right. apply elem_of_app. right. by left.
    + intros message ->. split; [done|].
      rewrite !filter_app, emit_free_pruneEffects, emit_free_dispatchEffects.
      by rewrite filter_cons_False.
Qed.

(** X4, at an input: one finding is dispatched. *)
Lemma X4_witness :
  EventsEmit "findings-sent" 1 1
  ∈ trace_of (checkAndSendFindings
                (Sample.sdk Sample.now [] (Sample.config (Some "general") None None)
                   (Resolved None (Some [Sample.f1])) Hang)
                (Sample.backend [])).
Proof.
  refine (proj1 (proj2 (proj2 (X4_findings_sent_event
            (Sample.sdk Sample.now [] (Sample.config (Some "general") None None)
               (Resolved None (Some [Sample.f1])) Hang)
            (Sample.backend []))
          [] None [Sample.f1] (Sample.config (Some "general") None None)
          eq_refl eq_refl (or_introl eq_refl) _ eq_refl eq_refl)) eq_refl).
  vm_compute. discriminate.
Defined.

Lemma check_same_but_sent_log sdk (b : Backend) :
  same_but_sent_log b (state_of (checkAndSendFindings sdk b))
  /\ Forall (fun e => is_timer_effect e = false) (trace_of (checkAndSendFindings sdk b)).
Proof.
  destruct (check_frame sdk b) as [[log Hstate] Htimer].
  split; [rewrite Hstate; by repeat split|done].
Qed.

(** X5. A run changes nothing of the module state but the sent-log: the
    stored delay, the provider-configuration flag, the timer handle and
    the timers of the runtime are as before, and the run sets or clears no
    timer. The manual trigger is the same run with its result renamed, and
    a timer tick is the same run followed by one log line when the run
    failed. *)
Theorem X5_runs_touch_only_the_sent_log sdk (b : Backend) :
  let r := checkAndSendFindings sdk b in
  same_but_sent_log b (state_of r)
  /\ Forall (fun e => is_timer_effect e = false) (trace_of r)
  /\ state_of (manualCheckFindings sdk b) = state_of r
  /\ trace_of (manualCheckFindings sdk b) = trace_of r
  /\ (result_of (manualCheckFindings sdk b) = Ok "Findings checked successfully"
      <-> result_of r = Ok tt)
  /\ (forall e, result_of (manualCheckFindings sdk b) = Error e <-> result_of r = Error e)
  /\ state_of (tick sdk b) = state_of r
  /\ trace_of (tick sdk b)
     = trace_of r ++ match result_of r with
                     | Error e => [ConsoleError ["Error checking findings: " +:+ e]]
                     | Ok _ => []
                     end.
Proof.
  intros r. destruct (check_frame sdk b) as [[log Hstate] Htimer]. fold r in Hstate, Htimer.
  split; [rewrite Hstate; by repeat split|]. split; [done|].
  unfold manualCheckFindings, tick, bind. fold r. clear Hstate Htimer.
  destruct r as [[[e|[]] b'] t]; cbn.
  all: rewrite ?app_nil_r; repeat split; try done; try congruence.
Qed.

(** X6. When the answer carries no list of nodes, or the filter keeps
    nothing, the run returns success whatever the notify configuration
    is, also when it cannot be read or has no default destination: it
    calls no [spawn] and emits no event, the sent-log it leaves is the
    pruned log, and the only log it can have stored is the pruned log,
    stored when pruning dropped an entry. *)
Theorem X6_nothing_to_send sdk (b : Backend) (ex : list string)
    (errors : option (list string)) (nodes : option (list Node)) :
  excludedFindingsRead sdk = Ok ex ->
  graphql_execute sdk = Resolved errors nodes ->
  noErrors errors ->
  (forall ns, nodes = Some ns -> selectedFindings sdk ex (sentFindingsCache b) ns = []) ->
  let r := checkAndSendFindings sdk b in
  result_of r = Ok tt
  /\ sentFindingsCache (state_of r) = cleanedSentFindings (Date_now sdk) (sentFindingsCache b)
  /\ filter (fun e => is_spawn e = true) (trace_of r) = []
  /\ filter (fun e => is_emit e = true) (trace_of r) = []
  /\ (forall log,
        SentFindingsStored log ∈ trace_of r ->
        log = cleanedSentFindings (Date_now sdk) (sentFindingsCache b)
        /\ length log <> length (sentFindingsCache b)).
Proof.
  intros Hex Hq Herr Hnone r. subst r.
  assert (Heq : checkAndSendFindings sdk b
                = (Ok tt, prunedBackend (Date_now sdk) b,
                   pruneEffects (Date_now sdk) (sentFindingsCache b))).
  { destruct nodes as [ns|].
    - by apply (check_none_new sdk b ex errors ns Hex Hq Herr (Hnone ns eq_refl)).
    - by apply (check_no_nodes sdk b ex errors Hex Hq Herr). }
  rewrite Heq. cbn [result_of state_of trace_of fst snd].
  split; [done|]. split; [apply prunedBackend_cache|].
  split; [apply spawns_of_pruneEffects|]. split; [apply emit_free_pruneEffects|].
  intros log. unfold pruneEffects. case_bool_decide as Hlen; intros Hin.
  - apply list_elem_of_singleton in Hin. by injection Hin as ->.
  - by apply elem_of_nil in Hin.
Qed.

(** X6, at an input: the only finding is two hours old and the notify
    configuration cannot be read. *)
Lemma X6_witness :
  result_of (checkAndSendFindings
               {| excludedFindingsRead := Ok [];
                  notifyIdsRead := Error "Failed to read notify IDs: locked";
                  Date_now := Sample.now;
                  dateParse := Sample.parse;
                  graphql_execute := Resolved None (Some [Sample.f2]);
                  child_process := fun _ _ => Hang;
                  os_homedir := "/home/user";
                  env_fallback := None |}
               (Sample.backend []))
  = Ok tt.
Proof.
  apply (X6_nothing_to_send
           {| excludedFindingsRead := Ok [];
              notifyIdsRead := Error "Failed to read notify IDs: locked";
              Date_now := Sample.now;
              dateParse := Sample.parse;
              graphql_execute := Resolved None (Some [Sample.f2]);
              child_process := fun _ _ => Hang;
              os_homedir := "/home/user";
              env_fallback := None |}
           (Sample.backend []) [] None (Some [Sample.f2])).
  - reflexivity.
  - reflexivity.
  - by left.
  - intros ns [= <-]. reflexivity.
Defined.

(** X7. When findings were selected and the run then fails on the notify
    configuration (it cannot be read, or the default destination is empty),
    the findings are already in the sent-log although no process was
    started for them: a later run that starts from that log selects no
    finding with the identifier of one of them for as long as its entry is
    inside the window, whatever the configuration is by then. *)
Theorem X7_config_failure_marks_findings_sent sdk (b : Backend) (ex : list string)
    (errors : option (list string)) (nodes : list Node) :
  excludedFindingsRead sdk = Ok ex ->
  graphql_execute sdk = Resolved errors (Some nodes) ->
  noErrors errors ->
  selectedFindings sdk ex (sentFindingsCache b) nodes <> [] ->
  (is_error (notifyIdsRead sdk) = true
   \/ exists config, notifyIdsRead sdk = Ok config
                     /\ Js.is_empty (Js.or_else (defaultIds config) "") = true) ->
  let r := checkAndSendFindings sdk b in
  is_error (result_of r) = true
  /\ filter (fun e => is_spawn e = true) (trace_of r) = []
  /\ filter (fun e => is_emit e = true) (trace_of r) = []
  /\ sentFindingsCache (state_of r) = updatedSent sdk ex (sentFindingsCache b) nodes
  /\ (forall g, g ∈ selectedFindings sdk ex (sentFindingsCache b) nodes ->
        entryOf g ∈ sentFindingsCache (state_of r)
        /\ forall sdk2 (ex2 : list string) (nodes2 : list Node),
             getTimestamp g > Date_now sdk2 - 3600000 ->
             forall g2, g2 ∈ selectedFindings sdk2 ex2 (sentFindingsCache (state_of r)) nodes2 ->
                        getId g2 <> getId g).
Proof.
  intros Hex Hq Herr Hnew Hfail r. subst r.
  destruct (check_config_failure sdk b ex errors nodes Hex Hq Herr Hnew Hfail) as [m Heq].
  rewrite Heq. cbn [result_of state_of trace_of fst snd is_error set_sentFindingsCache
                    sentFindingsCache].
  split; [done|].
  split; [by rewrite filter_app, spawns_of_pruneEffects, filter_cons_False|].
  split; [by rewrite filter_app, emit_free_pruneEffects, filter_cons_False|].
  split; [done|].
  intros g Hg.
  assert (Hentry : entryOf g ∈ updatedSent sdk ex (sentFindingsCache b) nodes).
  { unfold updatedSent. apply elem_of_app. right. rewrite newSentFindings_entries.
    apply list_elem_of_fmap. by exists g. }
  split; [done|].
  intros sdk2 ex2 nodes2 Hts g2 Hg2.
  by apply (masked_by_entry sdk2 ex2 _ nodes2 (entryOf g) g2 Hentry Hts Hg2).
Qed.

(** X7, at an input: no default destination, then a second run one minute
    later. *)
Lemma X7_witness :
  let sdk := Sample.sdk Sample.now [] (Sample.config None None None)
               (Resolved None (Some [Sample.f1])) Hang in
  let r := checkAndSendFindings sdk (Sample.backend []) in
  is_error (result_of r) = true
  /\ sentFindingsCache (state_of r)
     = updatedSent sdk [] (sentFindingsCache (Sample.backend [])) [Sample.f1].
Proof.
  cbv zeta.
  pose proof (X7_config_failure_marks_findings_sent
                (Sample.sdk Sample.now [] (Sample.config None None None)
                   (Resolved None (Some [Sample.f1])) Hang)
                (Sample.backend []) [] None [Sample.f1]
                eq_refl eq_refl (or_introl eq_refl)) as H.
  destruct H as (H1 & _ & _ & H4 & _).
  - vm_compute. discriminate.
  - right. eexists. split; reflexivity.
  - split; [exact H1|exact H4].
Defined.

(** X8. The sent-log never gains a duplicate identifier from a run whose
    answer lists each finding once: if the identifiers of the log are
    pairwise distinct before the run and those of the answered nodes are
    too, the identifiers of the log are pairwise distinct after the run. *)
Theorem X8_sent_log_ids_stay_distinct sdk (b : Backend) :
  NoDup (map findingId (sentFindingsCache b)) ->
  NoDup (responseIds sdk) ->
  NoDup (map findingId (sentFindingsCache (state_of (checkAndSendFindings sdk b)))).
Proof.
  intros Hlog Hresp.
  assert (Hpruned : NoDup (map findingId
                             (cleanedSentFindings (Date_now sdk) (sentFindingsCache b)))).
  { apply (sublist_NoDup _ (map findingId (sentFindingsCache b))); [exact Hlog|].
    apply fmap_sublist, sublist_filter. }
  destruct (run_cases sdk b)
    as [e Hex Heq | ex msg log Hex Hq Heq Hlg | ex errors nodes Hex Hq Herr Hnone Heq
        | ex errors nodes Hex Hq Herr Hnew].
  - by rewrite Heq.
  - rewrite Heq. cbn [state_of fst snd]. by rewrite prunedBackend_cache.
  - rewrite Heq. cbn [state_of fst snd]. by rewrite prunedBackend_cache.
  - destruct (check_selected_stores sdk b ex errors nodes Hex Hq Herr Hnew) as [-> _].
    unfold updatedSent. rewrite fmap_app. apply NoDup_app. split; [done|]. split.
    + intros i Hi Hi'.
      apply list_elem_of_fmap in Hi as (e & -> & He).
      apply list_elem_of_fmap in Hi' as (e' & Heq & He').
      rewrite newSentFindings_entries in He'. apply list_elem_of_fmap in He' as (g & -> & Hg).
      apply elem_of_cleaned in He as [Hts He].
      apply elem_of_selected in Hg as (_ & _ & _ & _ & Hsent).
      by apply (Hsent e He Hts).
    + rewrite newSentFindings_entries, map_map.
      change (map (fun x => findingId (entryOf x))
                (selectedFindings sdk ex (sentFindingsCache b) nodes))
        with (getId <$> selectedFindings sdk ex (sentFindingsCache b) nodes).
      apply (sublist_NoDup _ (getId <$> allFindings sdk (Date_now sdk) nodes));
        [|apply fmap_sublist, selected_sublist].
      unfold allFindings. unfold responseIds in Hresp. rewrite Hq in Hresp.
      change (getId <$> map (toFinding sdk (Date_now sdk)) nodes)
        with (map getId (map (toFinding sdk (Date_now sdk)) nodes)).
      by rewrite map_map.
Qed.

(** X8, at an input. *)
Lemma X8_witness :
  NoDup (map findingId
           (sentFindingsCache
              (state_of (checkAndSendFindings
                           (Sample.sdk Sample.now [] (Sample.config (Some "general") None None)
                              (Resolved None (Some [Sample.f1; Sample.f3])) Hang)
                           (Sample.backend
                              [{| findingId := "f1"; timestamp := 1704070200000 |}]))))).
Proof.
  apply (X8_sent_log_ids_stay_distinct
           (Sample.sdk Sample.now [] (Sample.config (Some "general") None None)
              (Resolved None (Some [Sample.f1; Sample.f3])) Hang)
           (Sample.backend [{| findingId := "f1"; timestamp := 1704070200000 |}])).
  - vm_compute. apply NoDup_singleton.
  - vm_compute. apply NoDup_cons. split; [|apply NoDup_singleton].
    intros H. apply list_elem_of_singleton in H. discriminate.
Defined.

(** X9. Pruning composes along the clock: pruning at a later time what was
    pruned at an earlier time gives what pruning the original log at the
    later time gives, so no run can bring back what an earlier run dropped
    and nothing is lost by skipping runs; pruning twice at one time is
    pruning once. *)
Theorem X9_pruning_composes (now1 now2 : Z) (log : list SentFinding) :
  now1 <= now2 ->
  cleanedSentFindings now2 (cleanedSentFindings now1 log) = cleanedSentFindings now2 log
  /\ cleanedSentFindings now1 (cleanedSentFindings now1 log) = cleanedSentFindings now1 log
  /\ cleanedSentFindings now2 log `sublist_of` cleanedSentFindings now1 log.
Proof.
  intros Hle. unfold cleanedSentFindings, oneHourAgo.
  assert (Hcomp : forall n1 n2, n1 <= n2 ->
            filter (fun f => timestamp f > n2 - 60 * 60 * 1000)
              (filter (fun f => timestamp f > n1 - 60 * 60 * 1000) log)
            = filter (fun f => timestamp f > n2 - 60 * 60 * 1000) log).
  { intros n1 n2 Hn. rewrite list_filter_filter. apply list_filter_iff. intros e. lia. }
  split; [by apply Hcomp|]. split; [by apply Hcomp|].
  rewrite <- (Hcomp now1 now2 Hle). apply sublist_filter.
Qed.

(** X9, at an input. *)
Lemma X9_witness :
  cleanedSentFindings (Sample.now + 3600000)
    (cleanedSentFindings Sample.now
       [{| findingId := "f2"; timestamp := 1704063600000 |};
        {| findingId := "f1"; timestamp := 1704070200000 |}])
  = cleanedSentFindings (Sample.now + 3600000)
      [{| findingId := "f2"; timestamp := 1704063600000 |};
       {| findingId := "f1"; timestamp := 1704070200000 |}].
Proof.
  apply (X9_pruning_composes Sample.now (Sample.now + 3600000)). vm_compute. discriminate.
Defined.

(** X10. Clearing the sent-log makes every recent finding that is not
    excluded eligible again: after [clearSentFindings] the log is empty,
    the next run keeps exactly the findings of the answer that are younger
    than the cutoff and not excluded, and these include everything it
    would have kept without the clearing. *)
Theorem X10_clearing_resets_deduplication sdk (b : Backend) (ex : list string)
    (nodes : list Node) :
  let cleared := state_of (clearSentFindings b) in
  result_of (clearSentFindings b) = Ok tt
  /\ sentFindingsCache cleared = []
  /\ same_but_sent_log b cleared
  /\ (forall g,
        g ∈ selectedFindings sdk ex (sentFindingsCache cleared) nodes
        <-> (exists f, f ∈ nodes /\ g = toFinding sdk (Date_now sdk) f)
            /\ getTimestamp g > Date_now sdk - 3600000
            /\ (getId g ∉ ex) /\ (getReporter g ∉ ex))
  /\ (forall g,
        g ∈ selectedFindings sdk ex (sentFindingsCache b) nodes ->
        g ∈ selectedFindings sdk ex (sentFindingsCache cleared) nodes).
Proof.
  cbv zeta. cbn [clearSentFindings].
  assert (Hclear : clearSentFindings b
                   = (Ok tt, set_sentFindingsCache [] b, [SentFindingsStored []])) by done.
  rewrite Hclear. cbn [result_of state_of fst snd set_sentFindingsCache sentFindingsCache].
  split; [done|]. split; [done|]. split; [by repeat split|].
  assert (Hiff : forall g,
            g ∈ selectedFindings sdk ex [] nodes
            <-> (exists f, f ∈ nodes /\ g = toFinding sdk (Date_now sdk) f)
                /\ getTimestamp g > Date_now sdk - 3600000
                /\ (getId g ∉ ex) /\ (getReporter g ∉ ex)).
  { intros g. rewrite elem_of_selected. split.
    - intros (H1 & H2 & H3 & H4 & _). done.
    - intros (H1 & H2 & H3 & H4). repeat split; try done.
      intros e He. by apply elem_of_nil in He. }
  split; [exact Hiff|].
  intros g Hg. apply Hiff. apply elem_of_selected in Hg as (H1 & H2 & H3 & H4 & _). done.
Qed.

(** ** The scheduler across calls *)

Lemma sendNotification_state sdk message reporter (b : Backend) :
  state_of (sendNotification sdk message reporter b) = b.
Proof.
  unfold sendNotification, getNotifyIds.
  destruct (notifyIdsRead sdk) as [e|config]; [done|].
  destruct (Js.is_empty (notificationDestination config reporter).1); [done|].
  unfold getUseCustomProviderConfig, bind, read, ret, perform. cbn.
  destruct (child_process sdk _ message) as [code err|m| |m]; try done.
  by destruct (bool_decide (code = Some 0)).
Qed.

Lemma scheduler_ok_frame (b b' : Backend) :
  same_but_sent_log b b' -> scheduler_ok b -> scheduler_ok b'.
Proof.
  intros (Hd & _ & Hh & Ha & _) (handle & Hhandle & Hactive & Hmin).
  exists handle. by rewrite Hd, Hh, Ha.
Qed.

Lemma scheduler_ok_step (c : Call) (b : Backend) :
  scheduler_ok b -> scheduler_ok (state_of (perform_call c b)).
Proof.
  intros Hok. destruct c as [delay|sdk|sdk message reporter| |useCustom|sdk];
    unfold perform_call; rewrite ?state_of_bind; cbn [ret state_of fst snd].
  - destruct (Z.lt_ge_cases delay 1000) as [Hd|Hd].
    + unfold registered_saveCheckDelay, saveCheckDelay.
      by rewrite (proj2 (Z.ltb_lt delay 1000) Hd).
    + destruct Hok as (handle & Hhandle & Hactive & _).
      unfold registered_saveCheckDelay, saveCheckDelay.
      rewrite (proj2 (Z.ltb_ge delay 1000) Hd).
      destruct b as [sent cd uc ci active next]. cbn in Hhandle, Hactive. subst ci active.
      cbn. destruct (decide (handle <> handle)) as [Hne|_]; [done|].
      exists next. cbn. by repeat split.
  - apply (scheduler_ok_frame b); [|done].
    destruct (check_same_but_sent_log sdk b) as [Hsame _]. unfold manualCheckFindings.
    rewrite state_of_bind. by destruct (result_of (checkAndSendFindings sdk b)).
  - by rewrite sendNotification_state.
  - apply (scheduler_ok_frame b); [|done]. unfold same_but_sent_log. cbn. by repeat split.
  - destruct Hok as (handle & Hhandle & Hactive & Hmin). by exists handle.
  - apply (scheduler_ok_frame b); [|done].
    destruct (check_same_but_sent_log sdk b) as [Hsame _]. unfold tick.
    rewrite state_of_bind. by destruct (result_of (checkAndSendFindings sdk b)).
Qed.

Lemma delay_step (c : Call) (b : Backend) :
  checkDelayCache (state_of (perform_call c b))
  = match c with
    | CallSaveCheckDelay d => if d <? 1000 then checkDelayCache b else d
    | _ => checkDelayCache b
    end.
Proof.
  destruct c as [delay|sdk|sdk message reporter| |useCustom|sdk];
    unfold perform_call; rewrite ?state_of_bind; cbn [ret state_of fst snd].
  - unfold registered_saveCheckDelay, saveCheckDelay.
    destruct (delay <? 1000); destruct b as [sent cd uc [h|] active next]; reflexivity.
  - destruct (check_same_but_sent_log sdk b) as [(Hd & _) _]. unfold manualCheckFindings.
    rewrite state_of_bind. by destruct (result_of (checkAndSendFindings sdk b)).
  - by rewrite sendNotification_state.
  - done.
  - done.
  - destruct (check_same_but_sent_log sdk b) as [(Hd & _) _]. unfold tick.
    rewrite state_of_bind. by destruct (result_of (checkAndSendFindings sdk b)).
Qed.

(** X11. After [init] and any sequence of timer ticks and of calls of the
    registered handlers in which saveCheckDelay is given integer delays,
    the scheduler is in order: the runtime holds exactly one interval
    timer, the module holds its handle, the timer runs with the stored
    check delay, and that delay is at least 1000 ms: it is the delay of
    the last call of saveCheckDelay that was given at least 1000, and
    60000 when there was none. *)
Theorem X11_one_timer_with_the_stored_delay (calls : list Call) :
  scheduler_ok (after_calls calls)
  /\ checkDelayCache (after_calls calls) = acceptedDelay calls
  /\ exists handle,
       checkInterval (after_calls calls) = Some handle
       /\ activeIntervals (after_calls calls) = [(handle, acceptedDelay calls)]
       /\ 1000 <= acceptedDelay calls.
Proof.
  assert (Hok : scheduler_ok (after_calls calls)).
  { unfold after_calls. induction calls as [|c calls IH] using rev_ind.
    - exists 0%nat. by repeat split.
    - rewrite foldl_app. cbn [foldl]. by apply scheduler_ok_step. }
  assert (Hdelay : checkDelayCache (after_calls calls) = acceptedDelay calls).
  { clear Hok. unfold after_calls, acceptedDelay.
    induction calls as [|c calls IH] using rev_ind.
    - done.
    - rewrite !foldl_app. cbn [foldl]. rewrite delay_step, IH. reflexivity. }
  split; [done|]. split; [done|].
  destruct Hok as (handle & Hhandle & Hactive & Hmin). exists handle.
  by rewrite <- Hdelay.
Qed.

(** ** sendNotification *)

Lemma is_empty_spec (s : string) : Js.is_empty s = true <-> s = "".
Proof. destruct s; simpl; split; intros H; done. Qed.

(** X12. [sendNotification] with a readable configuration. The
    destination is resolved before it is tested: for a non-empty reporter
    it is the destination that the fan-out of a run resolves for that
    reporter, and without a reporter it is the default. The call fails
    with "No notify IDs configured" exactly when the resolved destination
    is empty, and then starts no process; so an override makes up for a
    missing default. Otherwise [spawn] is called exactly once, with the
    message for standard input; the result is success only for exit code
    0, and there is no result at all when the process neither closes nor
    fails, or when the call of [spawn] throws. The module state is never
    changed. *)
Theorem X12_sendNotification sdk (message : string) (reporter : option string)
    (b : Backend) (config : NotifyConfig) :
  notifyIdsRead sdk = Ok config ->
  let r := sendNotification sdk message reporter b in
  let dest := notificationDestination config reporter in
  let args := notifyArgs (providerConfigPathOf sdk b) dest in
  state_of r = b
  /\ (forall r0, reporter = Some r0 -> r0 <> "" ->
        dest = resolveNotifyIds config (Js.or_else (defaultIds config) "")
                 (default IdFlag (defaultIdsType config)) r0)
  /\ (reporter = None \/ reporter = Some "" ->
      dest = (Js.or_else (defaultIds config) "", default IdFlag (defaultIdsType config)))
  /\ (result_of r = Some (Error "No notify IDs configured") <-> dest.1 = "")
  /\ (dest.1 = "" -> trace_of r = [])
  /\ (dest.1 <> "" ->
      trace_of r = [SpawnProc "notify" args message]
      /\ (result_of r = Some (Ok tt)
          <-> exists errorOutput, child_process sdk args message = Close (Some 0) errorOutput)
      /\ (result_of r = None
          <-> child_process sdk args message = Hang
              \/ exists thrown, child_process sdk args message = SpawnThrows thrown)).
Proof.
  intros Hcfg r dest args.
  split; [apply sendNotification_state|].
  split.
  { intros r0 -> Hr0. destruct r0 as [|c r0]; [done|].
    unfold dest, notificationDestination, resolveNotifyIds.
    destruct (customFindingIds config) as [custom|]; [|done].
    destruct (Js.find _ (Js.keys custom)) as [key|]; [|done].
    destruct (Js.get custom key); [|done].
    destruct (customFindingIdsType config) as [types|]; [|done]. simpl.
    by destruct (Js.get types key). }
  split.
  { intros [-> | ->]; unfold dest, notificationDestination;
      by destruct (customFindingIds config). }
  subst r. unfold sendNotification, getNotifyIds. rewrite Hcfg. cbv zeta. fold dest.
  destruct (Js.is_empty dest.1) eqn:Hempty.
  { apply is_empty_spec in Hempty. repeat split; try done. }
  assert (Hne : dest.1 <> "") by (intros H; apply is_empty_spec in H; congruence).
  unfold getUseCustomProviderConfig, bind, read, ret, perform.
  cbv beta iota. fold (providerConfigPathOf sdk b). fold args.
  destruct (child_process sdk args message) as [code err|m| |m] eqn:Hproc.
  - destruct (bool_decide_reflect (code = Some 0)) as [->|Hcode]; cbn.
    + split; [split; [discriminate|done]|]. split; [done|]. intros _.
      split; [done|]. split; [split; [eauto|done]|].
      split; [discriminate|]. intros [H|[thrown H]]; discriminate H.
    + split.
      { split; [|done]. intros H. simpl in H. discriminate H. }
      split; [done|]. intros _. split; [done|]. split.
      * split; [discriminate|]. intros (err' & [= -> _]). done.
      * split; [discriminate|]. intros [H|[thrown H]]; discriminate H.
  - cbn. split.
    { split; [|done]. intros H. simpl in H. discriminate H. }
    split; [done|]. intros _. split; [done|]. split.
    + split; [discriminate|]. intros (err' & H). discriminate.
    + split; [discriminate|]. intros [H|[thrown H]]; discriminate H.
  - cbn. split; [split; [discriminate|done]|]. split; [done|]. intros _.
    split; [done|]. split; [|split; [by left|done]].
    split; [discriminate|]. intros (err' & H). discriminate.
  - cbn. split; [split; [discriminate|done]|]. split; [done|]. intros _.
    split; [done|]. split; [|split; [right; by exists m|done]].
    split; [discriminate|]. intros (err' & H). discriminate.
Qed.

(** X12, at an input: no default destination, an override for the
    reporter, and the reporter given in another case. *)
Lemma X12_witness :
  let cfg := Sample.config None (Some [("sql injection", "sqli-alerts")]) None in
  let sdk := Sample.sdk Sample.now [] cfg (Resolved None None) (Close (Some 0) "") in
  notificationDestination cfg (Some "SQL Injection")
  = resolveNotifyIds cfg "" IdFlag "SQL Injection".
Proof.
  cbv zeta.
  refine (proj1 (proj2 (X12_sendNotification
            (Sample.sdk Sample.now [] (Sample.config None (Some [("sql injection", "sqli-alerts")]) None)
               (Resolved None None) (Close (Some 0) ""))
            "hello" (Some "SQL Injection") (Sample.backend [])
            (Sample.config None (Some [("sql injection", "sqli-alerts")]) None)
            eq_refl)) "SQL Injection" eq_refl _).
  discriminate.
Defined.

(** X13. The destination of a reporter depends on the reporter only up to
    ASCII case: two reporters that differ in case form two groups of a
    fan-out, and both groups are sent to the same destination with the
    same kind. *)
Theorem X13_resolution_ignores_reporter_case (config : NotifyConfig)
    (defaultNotifyIds : string) (defaultIdsType : IdsType) (r1 r2 : string) :
  eq_upto_case r1 r2 ->
  resolveNotifyIds config defaultNotifyIds defaultIdsType r1
  = resolveNotifyIds config defaultNotifyIds defaultIdsType r2
  /\ (r1 <> r2 ->
      forall g1 g2, getReporter g1 = r1 -> getReporter g2 = r2 ->
        Js.keys (findingsByReporter [g1; g2]) = [r1; r2]).
Proof.
  intros Heq. apply eq_upto_case_lower in Heq. split.
  - unfold resolveNotifyIds. by rewrite Heq.
  - intros Hne g1 g2 H1 H2. unfold findingsByReporter. cbn. rewrite H1, H2.
    destruct (String.eqb_spec r1 r2) as [->|_]; done.
Qed.

(** X13, at an input. *)
Lemma X13_witness :
  resolveNotifyIds (Sample.config (Some "general") (Some [("Sql Injection", "sqli-alerts")]) None)
    "general" IdFlag "SQL INJECTION"
  = resolveNotifyIds (Sample.config (Some "general") (Some [("Sql Injection", "sqli-alerts")]) None)
      "general" IdFlag "sql injection".
Proof.
  apply (X13_resolution_ignores_reporter_case
           (Sample.config (Some "general") (Some [("Sql Injection", "sqli-alerts")]) None)
           "general" IdFlag "SQL INJECTION" "sql injection").
  by apply eq_upto_case_fold.
Defined.

(** ** The exclusion list on disk *)

Lemma Store_get_quiet sdk env (d : Store.Disk) :
  Store.readThrows env = None ->
  result_of (Store.getExcludedFindings sdk env d) = Ok (storedExcluded d)
  /\ state_of (Store.getExcludedFindings sdk env d) = d.
Proof.
  intros Hread. unfold Store.getExcludedFindings, Store.ensureConfigDir. rewrite Hread.
  destruct (Store.hasStorage env); [done|].
  by destruct (Store.mkdirThrows env).
Qed.

Lemma Store_save_quiet sdk env (d : Store.Disk) (excluded : list string) :
  Store.writeThrows env = None ->
  Store.mkdirThrows env = None ->
  result_of (Store.saveExcludedFindings sdk env excluded d) = Ok tt
  /\ state_of (Store.saveExcludedFindings sdk env excluded d) = Store.set_excluded excluded d.
Proof.
  intros Hwrite Hmkdir. unfold Store.saveExcludedFindings, Store.ensureConfigDir.
  rewrite Hwrite, Hmkdir. by destruct (Store.hasStorage env).
Qed.

Lemma Store_add_quiet sdk env (d : Store.Disk) (x : string) :
  Store.readThrows env = None ->
  Store.writeThrows env = None ->
  Store.mkdirThrows env = None ->
  result_of (Store.addExcludedFinding sdk env x d) = Ok tt
  /\ state_of (Store.addExcludedFinding sdk env x d)
     = if bool_decide (x ∈ storedExcluded d) then d
       else Store.set_excluded (storedExcluded d ++ [x]) d.
Proof.
  intros Hread Hwrite Hmkdir. unfold Store.addExcludedFinding.
  rewrite result_of_bind, state_of_bind.
  destruct (Store_get_quiet sdk env d Hread) as [-> ->].
  case_bool_decide; [done|]. by apply Store_save_quiet.
Qed.

Lemma Store_remove_quiet sdk env (d : Store.Disk) (x : string) :
  Store.readThrows env = None ->
  Store.writeThrows env = None ->
  Store.mkdirThrows env = None ->
  result_of (Store.removeExcludedFinding sdk env x d) = Ok tt
  /\ state_of (Store.removeExcludedFinding sdk env x d)
     = Store.set_excluded (filter (fun i => i <> x) (storedExcluded d)) d.
Proof.
  intros Hread Hwrite Hmkdir. unfold Store.removeExcludedFinding.
  rewrite result_of_bind, state_of_bind.
  destruct (Store_get_quiet sdk env d Hread) as [-> ->].
  by apply Store_save_quiet.
Qed.

(** X14. [addExcludedFinding], when nothing throws: the entry is in the
    list afterwards; it is appended at the end unless it was there
    already, in which case nothing is written; entries stay pairwise
    distinct; adding it a second time changes nothing. A run that reads
    the list afterwards keeps no finding whose identifier or reporter is
    literally the entry. *)
Theorem X14_addExcludedFinding sdk env (d : Store.Disk) (x : string) :
  Store.readThrows env = None ->
  Store.writeThrows env = None ->
  Store.mkdirThrows env = None ->
  let r := Store.addExcludedFinding sdk env x d in
  let old := storedExcluded d in
  result_of r = Ok tt
  /\ storedExcluded (state_of r) = (if bool_decide (x ∈ old) then old else old ++ [x])
  /\ x ∈ storedExcluded (state_of r)
  /\ (forall y, y ∈ old -> y ∈ storedExcluded (state_of r))
  /\ (NoDup old -> NoDup (storedExcluded (state_of r)))
  /\ state_of (Store.addExcludedFinding sdk env x (state_of r)) = state_of r
  /\ result_of (Store.getExcludedFindings sdk env (state_of r))
     = Ok (storedExcluded (state_of r))
  /\ Store.notifyIdsValue (state_of r) = Store.notifyIdsValue d
  /\ Store.files (state_of r) = Store.files d
  /\ (forall sdkRun (sent : list SentFinding) (nodes : list Node) g,
        g ∈ selectedFindings sdkRun (storedExcluded (state_of r)) sent nodes ->
        getId g <> x /\ getReporter g <> x).
Proof.
  intros Hread Hwrite Hmkdir r old.
  destruct (Store_add_quiet sdk env d x Hread Hwrite Hmkdir) as [Hres Hstate].
  fold r in Hres, Hstate. fold old in Hstate.
  assert (Hlist : storedExcluded (state_of r)
                  = if bool_decide (x ∈ old) then old else old ++ [x]).
  { rewrite Hstate. by case_bool_decide. }
  assert (Hin : x ∈ storedExcluded (state_of r)).
  { rewrite Hlist. case_bool_decide; [done|]. apply elem_of_app. right. by left. }
  split; [done|]. split; [done|]. split; [done|].
  split.
  { intros y Hy. rewrite Hlist. case_bool_decide; [done|]. apply elem_of_app. by left. }
  split.
  { intros Hnd. rewrite Hlist. case_bool_decide as Hx; [done|].
    apply NoDup_app. split; [done|]. split; [|apply NoDup_singleton].
    intros y Hy ->%list_elem_of_singleton. done. }
  split.
  { destruct (Store_add_quiet sdk env (state_of r) x Hread Hwrite Hmkdir) as [_ ->].
    by rewrite bool_decide_eq_true_2. }
  split; [by apply Store_get_quiet|].
  split; [rewrite Hstate; by case_bool_decide|].
  split; [rewrite Hstate; by case_bool_decide|].
  intros sdkRun sent nodes g Hg.
  apply elem_of_selected in Hg as (_ & _ & Hid & Hrep & _).
  split; intros Heq; [apply Hid|apply Hrep]; by rewrite Heq.
Qed.

(** X14, at an input. *)
Lemma X14_witness :
  storedExcluded
    (state_of (Store.addExcludedFinding
                 (Sample.sdk Sample.now [] (Sample.config None None None)
                    (Resolved None None) Hang)
                 (quietStore true) "Enhanced File Detector"
                 (Store.set_excluded ["f9"] emptyDisk)))
  = ["f9"; "Enhanced File Detector"].
Proof.
  refine (proj1 (proj2 (X14_addExcludedFinding
            (Sample.sdk Sample.now [] (Sample.config None None None) (Resolved None None) Hang)
            (quietStore true) (Store.set_excluded ["f9"] emptyDisk)
            "Enhanced File Detector" eq_refl eq_refl eq_refl))).
Defined.

(** X15. [removeExcludedFinding], when nothing throws: every occurrence of
    the entry is gone and the other entries are kept in their order; a
    finding with that identifier is no longer excluded on account of
    it. Removing an entry right after adding it to a list that did not
    hold it gives the list back. *)
Theorem X15_removeExcludedFinding sdk env (d : Store.Disk) (x : string) :
  Store.readThrows env = None ->
  Store.writeThrows env = None ->
  Store.mkdirThrows env = None ->
  let r := Store.removeExcludedFinding sdk env x d in
  let old := storedExcluded d in
  result_of r = Ok tt
  /\ storedExcluded (state_of r) = filter (fun i => i <> x) old
  /\ (x ∉ storedExcluded (state_of r))
  /\ (forall y, y <> x -> (y ∈ storedExcluded (state_of r) <-> y ∈ old))
  /\ storedExcluded (state_of r) `sublist_of` old
  /\ ((x ∉ old) ->
      storedExcluded
        (state_of (Store.removeExcludedFinding sdk env x
                     (state_of (Store.addExcludedFinding sdk env x d))))
      = old).
Proof.
  intros Hread Hwrite Hmkdir r old.
  destruct (Store_remove_quiet sdk env d x Hread Hwrite Hmkdir) as [Hres Hstate].
  fold r in Hres, Hstate. fold old in Hstate.
  assert (Hlist : storedExcluded (state_of r) = filter (fun i => i <> x) old)
    by (by rewrite Hstate).
  split; [done|]. split; [done|]. rewrite Hlist. split.
  { intros Hin. by apply list_elem_of_filter in Hin as [Hne _]. }
  split.
  { intros y Hy. rewrite list_elem_of_filter. split; [by intros [_ H]|by split]. }
  split; [apply sublist_filter|].
  intros Hnot.
  destruct (Store_add_quiet sdk env d x Hread Hwrite Hmkdir) as [_ ->].
  fold old. rewrite bool_decide_eq_false_2 by done.
  destruct (Store_remove_quiet sdk env (Store.set_excluded (old ++ [x]) d) x
              Hread Hwrite Hmkdir) as [_ ->].
  unfold storedExcluded. cbn.
  rewrite filter_app, filter_cons_False by (intros H; by apply H).
  rewrite filter_nil, app_nil_r. apply filter_all. intros y Hy ->. done.
Qed.

(** X15, at an input. *)
Lemma X15_witness :
  storedExcluded
    (state_of (Store.removeExcludedFinding
                 (Sample.sdk Sample.now [] (Sample.config None None None)
                    (Resolved None None) Hang)
                 (quietStore false) "R1"
                 (Store.set_excluded ["R1"; "f9"; "R1"] emptyDisk)))
  = filter (fun i => i <> "R1") ["R1"; "f9"; "R1"].
Proof.
  refine (proj1 (proj2 (X15_removeExcludedFinding
            (Sample.sdk Sample.now [] (Sample.config None None None) (Resolved None None) Hang)
            (quietStore false) (Store.set_excluded ["R1"; "f9"; "R1"] emptyDisk)
            "R1" eq_refl eq_refl eq_refl))).
Defined.

(** X16. Failures around the exclusion list. With [sdk.storage], a read
    that throws makes [addExcludedFinding] and [removeExcludedFinding]
    return "Failed to read excluded findings: ..." and write nothing.
    Without it, an unreadable file is read as the empty list, so that
    adding an entry replaces whatever the file held by that single entry.
    A write that throws makes [removeExcludedFinding], whether or not the
    entry is in the list, and [addExcludedFinding] of an entry that is
    not in the list return "Failed to save excluded findings: ..." and
    leave the list as it was; adding an entry that is in the list writes
    nothing and succeeds. *)
Theorem X16_exclusion_list_failures sdk env (d : Store.Disk) (x m : string) :
  (Store.hasStorage env = true -> Store.readThrows env = Some m ->
   Store.addExcludedFinding sdk env x d
   = (Error ("Failed to read excluded findings: " +:+ m), d, [])
   /\ Store.removeExcludedFinding sdk env x d
      = (Error ("Failed to read excluded findings: " +:+ m), d, []))
  /\ (Store.hasStorage env = false -> Store.readThrows env = Some m ->
      Store.writeThrows env = None -> Store.mkdirThrows env = None ->
      result_of (Store.addExcludedFinding sdk env x d) = Ok tt
      /\ storedExcluded (state_of (Store.addExcludedFinding sdk env x d)) = [x])
  /\ (Store.readThrows env = None -> Store.writeThrows env = Some m ->
      Store.mkdirThrows env = None ->
      result_of (Store.removeExcludedFinding sdk env x d)
      = Error ("Failed to save excluded findings: " +:+ m)
      /\ state_of (Store.removeExcludedFinding sdk env x d) = d
      /\ ((x ∉ storedExcluded d) ->
          result_of (Store.addExcludedFinding sdk env x d)
          = Error ("Failed to save excluded findings: " +:+ m)
          /\ state_of (Store.addExcludedFinding sdk env x d) = d)
      /\ (x ∈ storedExcluded d ->
          result_of (Store.addExcludedFinding sdk env x d) = Ok tt
          /\ state_of (Store.addExcludedFinding sdk env x d) = d)).
Proof.
  split; [|split].
  - intros Hst Hread.
    unfold Store.addExcludedFinding, Store.removeExcludedFinding, Store.getExcludedFindings.
    by rewrite Hst, Hread.
  - intros Hst Hread Hwrite Hmkdir.
    unfold Store.addExcludedFinding, Store.getExcludedFindings, Store.saveExcludedFindings,
      Store.ensureConfigDir.
    rewrite Hst, Hread, Hwrite, Hmkdir. cbn. done.
  - intros Hread Hwrite Hmkdir.
    assert (Hsave : forall l,
              result_of (Store.saveExcludedFindings sdk env l d)
              = Error ("Failed to save excluded findings: " +:+ m)
              /\ state_of (Store.saveExcludedFindings sdk env l d) = d).
    { intros l. unfold Store.saveExcludedFindings, Store.ensureConfigDir.
      rewrite Hwrite, Hmkdir. by destruct (Store.hasStorage env). }
    unfold Store.addExcludedFinding, Store.removeExcludedFinding.
    rewrite !result_of_bind, !state_of_bind.
    destruct (Store_get_quiet sdk env d Hread) as [Hres Hst].
    rewrite Hres, Hst.
    split; [apply Hsave|]. split; [apply Hsave|]. split.
    + intros Hnot. rewrite bool_decide_eq_false_2 by done. apply Hsave.
    + intros Hin. by rewrite bool_decide_eq_true_2.
Qed.

(** X16, at an input: no storage, an unreadable file. *)
Lemma X16_witness :
  storedExcluded
    (state_of (Store.addExcludedFinding
                 (Sample.sdk Sample.now [] (Sample.config None None None)
                    (Resolved None None) Hang)
                 {| Store.hasStorage := false; Store.readThrows := Some "EACCES";
                    Store.writeThrows := None; Store.mkdirThrows := None |}
                 "f1" (Store.set_excluded ["R1"; "f9"] emptyDisk)))
  = ["f1"].
Proof.
  refine (proj2 (proj1 (proj2 (X16_exclusion_list_failures
            (Sample.sdk Sample.now [] (Sample.config None None None) (Resolved None None) Hang)
            {| Store.hasStorage := false; Store.readThrows := Some "EACCES";
               Store.writeThrows := None; Store.mkdirThrows := None |}
            (Store.set_excluded ["R1"; "f9"] emptyDisk) "f1" "EACCES"))
          eq_refl eq_refl eq_refl eq_refl)).
Defined.

(** ** Provider configuration files *)

Lemma append_assoc (s t u : string) : (s +:+ t) +:+ u = s +:+ (t +:+ u).
Proof.
  induction s as [|c s IH]; [done|].
  change (String c ((s +:+ t) +:+ u) = String c (s +:+ (t +:+ u))).
  by rewrite IH.
Qed.

Lemma provider_paths_differ sdk :
  getProviderConfigFile sdk <> getDefaultNotifyProviderConfigFile sdk.
Proof.
  unfold getProviderConfigFile, getDefaultNotifyProviderConfigFile, getConfigDir, join, Js.join.
  destruct (Js.is_empty (os_homedir sdk)); cbn [String.concat]; rewrite !append_assoc;
    intros H; apply String.app_inj in H; vm_compute in H; discriminate H.
Qed.

(** X17. [saveProviderConfig] and [getProviderConfig] of the file-backed
    variant. A successful save writes the file [getProviderConfigFile] and
    no other; that file is never the default configuration file of the
    notifier, which therefore keeps its content; it is the file a run
    hands to the notifier when the custom configuration is in use.
    Reading after a successful save returns what was saved; reading when
    the file does not exist returns the empty string, not an error. *)
Theorem X17_provider_config_file sdk env (d : Store.Disk) (yamlContent : string) :
  Store.mkdirThrows env = None ->
  Store.writeThrows env = None ->
  let r := Store.saveProviderConfig sdk env yamlContent d in
  result_of r = Ok tt
  /\ Store.files (state_of r) = <[getProviderConfigFile sdk := yamlContent]> (Store.files d)
  /\ (forall path, path <> getProviderConfigFile sdk ->
        Store.files (state_of r) !! path = Store.files d !! path)
  /\ getProviderConfigFile sdk <> getDefaultNotifyProviderConfigFile sdk
  /\ Store.files (state_of r) !! getDefaultNotifyProviderConfigFile sdk
     = Store.files d !! getDefaultNotifyProviderConfigFile sdk
  /\ (forall b : Backend, useCustomProviderConfigCache b = true ->
        providerConfigPathOf sdk b = getProviderConfigFile sdk)
  /\ (Store.readThrows env = None ->
      result_of (Store.getProviderConfig sdk env (state_of r)) = Ok yamlContent)
  /\ (Store.readThrows env = None ->
      Store.files d !! getProviderConfigFile sdk = None ->
      result_of (Store.getProviderConfig sdk env d) = Ok "").
Proof.
  intros Hmkdir Hwrite r.
  assert (Heq : r = (Ok tt, Store.set_file (getProviderConfigFile sdk) yamlContent d,
                     [FsMkdir (getConfigDir sdk);
                      FsWriteFile (getProviderConfigFile sdk) yamlContent])).
  { unfold r, Store.saveProviderConfig, Store.ensureConfigDir. by rewrite Hmkdir, Hwrite. }
  rewrite Heq. cbn [result_of state_of fst snd Store.set_file Store.files].
  split; [done|]. split; [done|].
  split; [intros path Hne; by rewrite lookup_insert_ne|].
  split; [apply provider_paths_differ|].
  split; [rewrite lookup_insert_ne; [done|apply provider_paths_differ]|].
  split; [intros b Hb; unfold providerConfigPathOf; by rewrite Hb|].
  split.
  - intros Hread. unfold Store.getProviderConfig, Store.ensureConfigDir.
    rewrite Hmkdir, Hread.
    cbv beta iota zeta delta [bind read ret perform modify result_of fst snd Store.set_file
                                Store.files].
    by rewrite lookup_insert_eq.
  - intros Hread Hnone. unfold Store.getProviderConfig, Store.ensureConfigDir.
    rewrite Hmkdir, Hread.
    cbv beta iota zeta delta [bind read ret perform modify result_of fst snd].
    by rewrite Hnone.
Qed.

(** X17, at an input. *)
Lemma X17_witness :
  result_of (Store.getProviderConfig
               (Sample.sdk Sample.now [] (Sample.config None None None) (Resolved None None) Hang)
               (quietStore false)
               (state_of (Store.saveProviderConfig
                            (Sample.sdk Sample.now [] (Sample.config None None None)
                               (Resolved None None) Hang)
                            (quietStore false) "slack: []" emptyDisk)))
  = Ok "slack: []".
Proof.
  refine (proj1 (proj2 (proj2 (proj2 (proj2 (proj2 (proj2
            (X17_provider_config_file
               (Sample.sdk Sample.now [] (Sample.config None None None)
                  (Resolved None None) Hang)
               (quietStore false) emptyDisk "slack: []" eq_refl eq_refl))))))) eq_refl).
Defined.

(** ** The provider configuration in the database *)

Lemma Db_getProviderConfig_frame env (d : Db.Database) :
  Db.sentFindingsRow (state_of (Db.getProviderConfig env d)) = Db.sentFindingsRow d
  /\ Forall (fun e => exists k v, e = DbStored k v) (trace_of (Db.getProviderConfig env d)).
Proof.
  unfold Db.getProviderConfig, Db.getUseCustomProviderConfig, Db.getProviderConfigFromDb,
    Db.saveProviderConfigToDb.
  destruct d as [sentRow [[|]|] [[|chr rest]|]].
  all: destruct (Db.dbError env "use-custom-provider-config" false).
  all: destruct (Db.dbError env "custom-provider-config" false).
  all: destruct (Db.dbError env "custom-provider-config" true).
  all: destruct (Db.defaultProviderFile env).
  all: cbn; split; [done|]; repeat constructor; eauto.
Qed.

(** X18. [getProviderConfig] of the database-backed variant, when the
    row can be read. A non-empty configuration in the database is
    returned as it is, whatever the use-custom flag and the default file
    are. With an empty row, the result is the empty string when the flag
    is on (or absent); when the flag is off, the content of the default
    file is returned and copied into the row, so that, once copied, a
    non-empty content is what every later call returns, even after the
    default file has changed. *)
Theorem X18_db_provider_config env (d : Db.Database) :
  Db.dbError env "custom-provider-config" false = None ->
  (forall c s, Db.providerConfigRow d = Some (String c s) ->
     Db.getProviderConfig env d = (Ok (String c s), d, []))
  /\ (Db.providerConfigRow d = None \/ Db.providerConfigRow d = Some "" ->
      Db.dbError env "use-custom-provider-config" false = None ->
      Db.useCustomRow d = None \/ Db.useCustomRow d = Some true ->
      Db.getProviderConfig env d = (Ok "", d, []))
  /\ (forall content,
        Db.providerConfigRow d = None \/ Db.providerConfigRow d = Some "" ->
        Db.dbError env "use-custom-provider-config" false = None ->
        Db.useCustomRow d = Some false ->
        Db.defaultProviderFile env = Db.FileContent content ->
        Db.dbError env "custom-provider-config" true = None ->
        let r := Db.getProviderConfig env d in
        result_of r = Ok content
        /\ Db.providerConfigRow (state_of r) = Some content
        /\ Db.sentFindingsRow (state_of r) = Db.sentFindingsRow d
        /\ (content <> "" ->
            forall env2,
              Db.dbError env2 "custom-provider-config" false = None ->
              result_of (Db.getProviderConfig env2 (state_of r)) = Ok content)).
Proof.
  intros Hread. split; [|split].
  - intros c s Hrow.
    unfold Db.getProviderConfig, Db.getUseCustomProviderConfig, Db.getProviderConfigFromDb.
    rewrite Hread. destruct d as [sentRow flag row]. cbn in Hrow. subst row.
    by destruct (Db.dbError env "use-custom-provider-config" false).
  - intros Hrow Hflagread Hflag.
    unfold Db.getProviderConfig, Db.getUseCustomProviderConfig, Db.getProviderConfigFromDb.
    rewrite Hread, Hflagread. destruct d as [sentRow flag row]. cbn in Hrow, Hflag.
    by destruct Hrow as [-> | ->], Hflag as [-> | ->].
  - intros content Hrow Hflagread Hflag Hfile Hwrite r.
    assert (Heq : r = (Ok content,
                       {| Db.sentFindingsRow := Db.sentFindingsRow d;
                          Db.useCustomRow := Db.useCustomRow d;
                          Db.providerConfigRow := Some content |},
                       [DbStored "custom-provider-config" content])).
    { unfold r, Db.getProviderConfig, Db.getUseCustomProviderConfig,
        Db.getProviderConfigFromDb, Db.saveProviderConfigToDb.
      rewrite Hread, Hflagread, Hfile, Hwrite. destruct d as [sentRow flag row].
      cbn in Hrow, Hflag. subst flag. by destruct Hrow as [-> | ->]. }
    rewrite Heq. cbn [result_of state_of fst snd Db.providerConfigRow Db.sentFindingsRow].
    split; [done|]. split; [done|]. split; [done|].
    intros Hne env2 Hread2.
    unfold Db.getProviderConfig, Db.getUseCustomProviderConfig, Db.getProviderConfigFromDb.
    rewrite Hread2. destruct content as [|c s]; [done|].
    by destruct (Db.dbError env2 "use-custom-provider-config" false).
Qed.

(** X18, at an input: the flag is off and the database already holds a
    configuration. *)
Lemma X18_witness :
  Db.getProviderConfig Sample.env
    {| Db.sentFindingsRow := None; Db.useCustomRow := Some false;
       Db.providerConfigRow := Some "slack: []" |}
  = (Ok "slack: []",
     {| Db.sentFindingsRow := None; Db.useCustomRow := Some false;
        Db.providerConfigRow := Some "slack: []" |}, []).
Proof.
  refine (proj1 (X18_db_provider_config Sample.env
            {| Db.sentFindingsRow := None; Db.useCustomRow := Some false;
               Db.providerConfigRow := Some "slack: []" |} eq_refl) _ _ eq_refl).
Defined.

(** ** The database-backed run when the sent-log cannot be written *)




(** ** The check delay between the settings page and the backend *)



(** ** The destinations on disk *)

(** X21. [saveNotifyIds] and [getNotifyIds]. A save that can write
    returns success, changes neither the exclusion list nor any file of
    the provider configuration, and is what a later read returns. A read
    finds the empty configuration when nothing was saved. When the read
    throws, the result is the error "Failed to read notify IDs: ..." with
    [sdk.storage], but the empty configuration without it; and a run that
    is answered with the empty configuration after it selected findings
    fails with "No notify IDs configured" after it stored them in the
    sent-log. *)
Theorem X21_notify_ids_store sdk env (d : Store.Disk) (config : NotifyConfig) (m : string) :
  (Store.writeThrows env = None -> Store.mkdirThrows env = None ->
   let r := Store.saveNotifyIds sdk env config d in
   result_of r = Ok tt
   /\ Store.excludedFindingsValue (state_of r) = Store.excludedFindingsValue d
   /\ Store.files (state_of r) = Store.files d
   /\ (Store.readThrows env = None ->
       result_of (Store.getNotifyIds sdk env (state_of r)) = Ok config))
  /\ (Store.readThrows env = None -> Store.notifyIdsValue d = None ->
      result_of (Store.getNotifyIds sdk env d) = Ok emptyConfig)
  /\ (Store.hasStorage env = true -> Store.readThrows env = Some m ->
      Store.getNotifyIds sdk env d = (Error ("Failed to read notify IDs: " +:+ m), d, []))
  /\ (Store.hasStorage env = false -> Store.readThrows env = Some m ->
      result_of (Store.getNotifyIds sdk env d) = Ok emptyConfig
      /\ state_of (Store.getNotifyIds sdk env d) = d)
  /\ (forall sdk2 (b : Backend) ex errors nodes,
        notifyIdsRead sdk2 = Ok emptyConfig ->
        excludedFindingsRead sdk2 = Ok ex ->
        graphql_execute sdk2 = Resolved errors (Some nodes) ->
        noErrors errors ->
        selectedFindings sdk2 ex (sentFindingsCache b) nodes <> [] ->
        result_of (checkAndSendFindings sdk2 b) = Error "No notify IDs configured"
        /\ sentFindingsCache (state_of (checkAndSendFindings sdk2 b))
           = updatedSent sdk2 ex (sentFindingsCache b) nodes).
Proof.
  split; [|split; [|split; [|split]]].
  - intros Hwrite Hmkdir r.
    assert (Heq : result_of r = Ok tt /\ state_of r = Store.set_notifyIds config d).
    { unfold r, Store.saveNotifyIds, Store.ensureConfigDir. rewrite Hwrite, Hmkdir.
      by destruct (Store.hasStorage env). }
    destruct Heq as [Hres ->]. split; [done|]. split; [done|]. split; [done|].
    intros Hread. unfold Store.getNotifyIds, Store.ensureConfigDir. rewrite Hread, Hmkdir.
    by destruct (Store.hasStorage env).
  - intros Hread Hnone. unfold Store.getNotifyIds, Store.ensureConfigDir. rewrite Hread.
    destruct (Store.hasStorage env); [|destruct (Store.mkdirThrows env)].
    all: cbv beta iota zeta delta [bind read ret perform result_of fst].
    all: by rewrite Hnone.
  - intros Hst Hread. unfold Store.getNotifyIds. by rewrite Hst, Hread.
  - intros Hst Hread. unfold Store.getNotifyIds, Store.ensureConfigDir. rewrite Hst, Hread.
    by destruct (Store.mkdirThrows env).
  - intros sdk2 b ex errors nodes Hcfg Hex Hq Herr Hnew.
    rewrite (check_selected sdk2 b ex errors nodes Hex Hq Herr Hnew). cbv zeta.
    by rewrite Hcfg.
Qed.

(** X21, at an input: without storage, an unreadable file is read as the
    empty configuration. *)
Lemma X21_witness :
  result_of (Store.getNotifyIds
               (Sample.sdk Sample.now [] (Sample.config None None None) (Resolved None None) Hang)
               {| Store.hasStorage := false; Store.readThrows := Some "EACCES";
                  Store.writeThrows := None; Store.mkdirThrows := None |}
               (Store.set_notifyIds (Sample.config (Some "general") None None) emptyDisk))
  = Ok emptyConfig.
Proof.
  refine (proj1 (proj1 (proj2 (proj2 (proj2 (X21_notify_ids_store
            (Sample.sdk Sample.now [] (Sample.config None None None) (Resolved None None) Hang)
            {| Store.hasStorage := false; Store.readThrows := Some "EACCES";
               Store.writeThrows := None; Store.mkdirThrows := None |}
            (Store.set_notifyIds (Sample.config (Some "general") None None) emptyDisk)
            (Sample.config (Some "general") None None) "EACCES"))))
          eq_refl eq_refl)).
Defined.
